(** * Graph query options of the driver: lib/datastax/graph/options.js

    A shallow embedding of [createQueryOptions], of the functions it
    calls ([getDefaultGraphOptions], [setPayloadKey], [longBuffer],
    [getConsistencyName], [loadConsistencyNames]) and of the class
    [GraphExecutionOptions] around it, followed by the properties of the
    option merge.

    JavaScript objects live in a store and are handled through their
    locations, so that "the same object" and "a clone" are different things
    in the model as they are in the program. A function of the module is a
    computation in a monad of state and errors: what it wrote before it
    throws stays written.

    The options are the typed objects that the JSDoc of the module
    describes: strings for names, integers for consistency codes and for
    the read timeout in milliseconds (no NaN, no fractions), each of them
    possibly [undefined] or [null]. What the module takes from the rest of
    the driver ([utils], [types.Long], the profile manager) is modelled from
    its description and marked so; the table [types.consistencies] and the
    constant [proxyExecuteKey] are parameters. *)

From Stdlib Require Import ZArith Lia Ascii String.
From Stdlib.Strings Require Import Byte.
From stdpp Require Import base option list gmap strings.

Local Open Scope string_scope.
Local Open Scope Z_scope.

(** ** JavaScript values *)

(** A property of type [A] as JavaScript reads it: the property is missing
    or holds [undefined], holds [null], or holds a value. *)
Inductive js (A : Type) : Type :=
  | undefined
  | null
  | val (a : A).
Arguments undefined {A}.
Arguments null {A}.
Arguments val {A} a.

(** Truthiness of a value of a given type ([!!x] in JavaScript). *)
Class Truthy (A : Type) := truthy : A → bool.

(** The empty string is the one falsy string. *)
#[export] Instance string_truthy : Truthy string :=
  λ s, negb (String.eqb s "").
(** Zero is the falsy integer. *)
#[export] Instance Z_truthy : Truthy Z := λ n, negb (Z.eqb n 0).

Section js_ops.
Context {A : Type} `{!Truthy A}.

(** [!!v] *)
Definition js_truthy (v : js A) : bool :=
  match v with
  | val a => truthy a
  | _ => false
  end.

(** [v === undefined] *)
Definition is_undefined (v : js A) : bool :=
  match v with
  | undefined => true
  | _ => false
  end.

(** [a || b] *)
Definition js_or (a b : js A) : js A :=
  if js_truthy a then a else b.
End js_ops.

(** ** Buffers *)

Abbreviation Buffer := (list byte).

Definition byte_of_Z (z : Z) : byte :=
  default x00 (Byte.of_N (Z.to_N (z mod 256))).

Definition Z_of_byte (b : byte) : Z := Z.of_N (Byte.to_N b).

(** [String.prototype.toUpperCase] on the ASCII letters, which is what the
    property names of [types.consistencies] are made of. *)
Definition upper_ascii (c : ascii) : ascii :=
  let n := N_of_ascii c in
  if ((97 <=? n) && (n <=? 122))%N then ascii_of_N (n - 32) else c.

Fixpoint toUpperCase (s : string) : string :=
  match s with
  | EmptyString => EmptyString
  | String c s' => String (upper_ascii c) (toUpperCase s')
  end.

(** ** Errors *)

(** What the module can throw: the [Error] of [getConsistencyName], and the
    runtime's [TypeError] (a property read or written on [undefined], a
    value that is not a string handed to the string encoder, a reference
    that is not in the store). *)
Inductive Error : Type :=
  | UnknownConsistencyLevel (consistency : Z)
  | TypeError.

(** ** Objects *)

(** A location in one of the stores. *)
Abbreviation loc := nat.
#[export] Instance loc_truthy : Truthy loc := λ _, true.

(** Retry policies are objects of the driver; only their identity matters
    here. *)
Inductive RetryPolicy : Type := policy (id : nat).
#[export] Instance RetryPolicy_truthy : Truthy RetryPolicy := λ _, true.

(** A custom payload: string keys, buffer values. *)
Abbreviation Payload := (gmap string Buffer).

(** [GraphQueryOptions]: the properties the module reads or writes, and
    [others] for whatever else the query options carry. The object that
    [createDefaultOptions] builds has the same shape. *)
Module Options.
Record t : Type := mk {
  executionProfile : js string;
  customPayload : js loc;
  graphLanguage : js string;
  graphSource : js string;
  executeAs : js string;
  graphName : js string;
  graphReadConsistency : js Z;
  graphWriteConsistency : js Z;
  readTimeout : js Z;
  retry : js RetryPolicy;
  others : gmap string string
}.

(** The object literal [{}]. *)
Definition empty : t :=
  mk undefined undefined undefined undefined undefined undefined
     undefined undefined undefined undefined ∅.

Definition set_customPayload (v : js loc) (o : t) : t :=
  mk (executionProfile o) v (graphLanguage o) (graphSource o)
     (executeAs o) (graphName o) (graphReadConsistency o)
     (graphWriteConsistency o) (readTimeout o) (retry o) (others o).

Definition set_readTimeout (v : js Z) (o : t) : t :=
  mk (executionProfile o) (customPayload o) (graphLanguage o)
     (graphSource o) (executeAs o) (graphName o) (graphReadConsistency o)
     (graphWriteConsistency o) v (retry o) (others o).

Definition set_retry (v : js RetryPolicy) (o : t) : t :=
  mk (executionProfile o) (customPayload o) (graphLanguage o)
     (graphSource o) (executeAs o) (graphName o) (graphReadConsistency o)
     (graphWriteConsistency o) (readTimeout o) v (others o).
End Options.

(** The graph base options of the client. *)
Module Base.
Record t : Type := mk {
  language : js string;
  source : js string;
  name : js string;
  executeAs : js string;
  readConsistency : js Z;
  writeConsistency : js Z;
  retry : js RetryPolicy;
  readTimeout : js Z
}.
End Base.

(** [profile.graphOptions] *)
Module ProfileGraph.
Record t : Type := mk {
  language : js string;
  source : js string;
  name : js string;
  readConsistency : js Z;
  writeConsistency : js Z
}.
End ProfileGraph.

(** Modelled from the spec: [ExecutionProfile] is declared outside this
    module. It carries a [name], under which the profile manager keeps it,
    an optional nested graph-options record, an optional retry policy and
    an optional readTimeout. A profile is an object: [self] is its
    reference, which is what [===] and [!==] compare. Two profile objects
    can have the same name and the same properties and still be two
    objects. *)
Module Profile.
Record t : Type := mk {
  self : loc;
  name : string;
  graphOptions : js ProfileGraph.t;
  retry : js RetryPolicy;
  readTimeout : js Z
}.
End Profile.
#[export] Instance ProfileGraph_truthy : Truthy ProfileGraph.t := λ _, true.

(** Modelled from the spec: [utils.emptyObject], an object without
    properties, stands for the graph options of a profile that has none. *)
Definition emptyObject : ProfileGraph.t :=
  ProfileGraph.mk undefined undefined undefined undefined undefined.

(** The [options] argument of [createQueryOptions], and its result. *)
Inductive Value : Type :=
  | VUndefined
  | VNull
  | VFunction
  | VObject (l : loc).

(** ** State and the monad of the module *)

(** The mutable state the module works on: its own variable
    [consistencyNames] ([None] while it is still [undefined]), the store of
    option objects, the store of payload objects, and the profile manager's
    slot of cached graph options per profile. *)
Record State : Type := mkState {
  consistencyNames : option (gmap (option Z) string);
  objects : list Options.t;
  payloads : list Payload;
  graphOptionsCache : gmap string loc
}.

Definition set_consistencyNames (t : gmap (option Z) string) (st : State) : State :=
  mkState (Some t) (objects st) (payloads st) (graphOptionsCache st).
Definition set_objects (os : list Options.t) (st : State) : State :=
  mkState (consistencyNames st) os (payloads st) (graphOptionsCache st).
Definition set_payloads (ps : list Payload) (st : State) : State :=
  mkState (consistencyNames st) (objects st) ps (graphOptionsCache st).
Definition set_graphOptionsCache (c : gmap string loc) (st : State) : State :=
  mkState (consistencyNames st) (objects st) (payloads st) c.

(** A computation either throws or returns, and leaves a state in both
    cases: what was written before a throw stays written. *)
Definition M (A : Type) : Type := State → (Error + A) * State.

#[export] Instance M_ret : MRet M := λ A a st, (inr a, st).
#[export] Instance M_bind : MBind M := λ A B f m st,
  match m st with
  | (inr a, st') => f a st'
  | (inl e, st') => (inl e, st')
  end.

Definition throw {A : Type} (e : Error) : M A := λ st, (inl e, st).
Definition gets {A : Type} (f : State → A) : M A := λ st, (inr (f st), st).
Definition modify (f : State → State) : M unit := λ st, (inr (), f st).

(** *** The stores *)

(** An object literal: a new object at the next free location. *)
Definition new_object (o : Options.t) : M loc := λ st,
  (inr (length (objects st)), set_objects (objects st ++ [o]) st).

Definition new_payload (p : Payload) : M loc := λ st,
  (inr (length (payloads st)), set_payloads (payloads st ++ [p]) st).

Definition read_object (l : loc) : M Options.t := λ st,
  match objects st !! l with
  | Some o => (inr o, st)
  | None => (inl TypeError, st)
  end.

Definition read_payload (l : loc) : M Payload := λ st,
  match payloads st !! l with
  | Some p => (inr p, st)
  | None => (inl TypeError, st)
  end.

(** [o.f = v] for the object at [l], as an update [upd] of its record. *)
Definition update_object (l : loc) (upd : Options.t → Options.t) : M unit :=
  o ← read_object l;
  modify (λ st, set_objects (<[l := upd o]> (objects st)) st).

(** [o.f] for the object at [l]. *)
Definition get_field {A : Type} (l : loc) (f : Options.t → A) : M A :=
  o ← read_object l; mret (f o).

(** [options.customPayload[key] = b] *)
Definition set_customPayload_key (options : loc) (key : string) (b : Buffer) : M unit :=
  customPayload ← get_field options Options.customPayload;
  match customPayload with
  | val p =>
      m ← read_payload p;
      modify (λ st, set_payloads (<[p := <[key := b]> m]> (payloads st)) st)
  | _ => throw TypeError
  end.

(** [options.customPayload[key]], [None] when the map has no such key. *)
Definition get_customPayload_key (options : loc) (key : string) : M (option Buffer) :=
  customPayload ← get_field options Options.customPayload;
  match customPayload with
  | val p => m ← read_payload p; mret (m !! key)
  | _ => throw TypeError
  end.

(** ** What the module takes from [utils] and [types.Long] *)

(** Modelled from the spec: [utils.allocBufferFromString] is not in this
    module. Strings encode to their raw bytes; a value that is not a string
    has no encoding. *)
Definition allocBufferFromString (text : js string) : M Buffer :=
  match text with
  | val s => mret (list_byte_of_string s)
  | _ => throw TypeError
  end.

(** Modelled from the spec: [utils.ifUndefined] and [utils.ifUndefined3],
    the first of the values that is not [undefined], the last one
    otherwise. *)
Definition ifUndefined {A : Type} (v1 v2 : js A) : js A :=
  if is_undefined v1 then v2 else v1.
Definition ifUndefined3 {A : Type} (v1 v2 v3 : js A) : js A :=
  if is_undefined v1 then ifUndefined v2 v3 else v1.

(** Modelled from the spec: [utils.extend(target, source)] on option
    objects, which sets on [target] every property of [source] whose value
    is not [undefined], and returns [target]. *)
Definition extend_record (target source : Options.t) : Options.t :=
  Options.mk
    (ifUndefined (Options.executionProfile source) (Options.executionProfile target))
    (ifUndefined (Options.customPayload source) (Options.customPayload target))
    (ifUndefined (Options.graphLanguage source) (Options.graphLanguage target))
    (ifUndefined (Options.graphSource source) (Options.graphSource target))
    (ifUndefined (Options.executeAs source) (Options.executeAs target))
    (ifUndefined (Options.graphName source) (Options.graphName target))
    (ifUndefined (Options.graphReadConsistency source) (Options.graphReadConsistency target))
    (ifUndefined (Options.graphWriteConsistency source) (Options.graphWriteConsistency target))
    (ifUndefined (Options.readTimeout source) (Options.readTimeout target))
    (ifUndefined (Options.retry source) (Options.retry target))
    (Options.others source ∪ Options.others target).

(** Modelled from the spec: [utils.extend] on the objects in the store; the
    target is changed in place and returned, the source is only read. *)
Definition extend (target source : loc) : M loc :=
  s ← read_object source;
  update_object target (λ t, extend_record t s);;
  mret target.

(** Modelled from the spec: [utils.extend(target, source)] on payload
    maps, which the module uses on a new [{}] for the shallow clone of a
    payload: every entry of [source] is set on [target]. *)
Definition extend_payload (target source : loc) : M loc :=
  s ← read_payload source;
  t ← read_payload target;
  modify (λ st, set_payloads (<[target := s ∪ t]> (payloads st)) st);;
  mret target.

(** Modelled from the spec: [types.Long] is not in this module.
    [Long.fromNumber] gives the 64-bit two's-complement integer of a
    number, here the bits as a number below 2^64. *)
Definition Long_fromNumber (value : Z) : Z := value mod 2 ^ 64.

(** Modelled from the spec: [Long.toBuffer], the 8 bytes of a 64-bit
    integer, most significant first. *)
Definition Long_toBuffer (value : Z) : Buffer :=
  (λ i, byte_of_Z (Z.shiftr value (8 * i))) <$> [7; 6; 5; 4; 3; 2; 1; 0].

(** The signed 64-bit integer that a buffer of 8 bytes holds in big-endian
    two's complement: what the receiver of the payload reads. *)
Definition Long_fromBuffer (b : Buffer) : Z :=
  let u := fold_left (λ acc x, acc * 256 + Z_of_byte x) b 0 in
  if u <? 2 ^ 63 then u else u - 2 ^ 64.

(** [longBuffer] *)
Definition longBuffer (value : Z) : Buffer :=
  let value := Long_fromNumber value in
  Long_toBuffer value.

(** [options.readTimeout > 0]: [null] and [undefined] are not above zero. *)
Definition js_positive (v : js Z) : bool :=
  match v with
  | val n => 0 <? n
  | _ => false
  end.

(** Modelled from the spec: the profile manager is not in this module. It
    answers [getProfile(name)] with the profile of that name, the default
    profile when no name is given, and nothing when it knows no such
    profile; [getDefault()] with the default profile; and it keeps one slot
    of graph options per profile ([graphOptionsCache] in the state), filled
    by the factory the first time. *)
Record ProfileManager : Type := mkProfileManager {
  _profiles : gmap string Profile.t;
  _defaultProfile : Profile.t
}.

(** Modelled from the spec: [profileManager.getProfile(name)], the profile
    of that name, the default profile when no name is given, nothing when
    there is no such profile. *)
Definition getProfile (profileManager : ProfileManager) (name : js string) : option Profile.t :=
  match js_or name (val "default") with
  | val key => _profiles profileManager !! key
  | _ => None
  end.

(** Modelled from the spec: [profileManager.getDefault()]. *)
Definition getDefault (profileManager : ProfileManager) : Profile.t :=
  _defaultProfile profileManager.

(** Modelled from the spec: [profileManager.getOrCreateGraphOptions], the
    slot of the profile: what it holds, or else what the factory makes,
    which it then holds. A factory that throws fills nothing. *)
Definition getOrCreateGraphOptions (profile : Profile.t) (createHandler : M loc) : M loc :=
  cache ← gets graphOptionsCache;
  match cache !! Profile.name profile with
  | Some graphOptions => mret graphOptions
  | None =>
      graphOptions ← createHandler;
      modify (λ st, set_graphOptionsCache
                      (<[Profile.name profile := graphOptions]> (graphOptionsCache st)) st);;
      mret graphOptions
  end.

(** [profile !== defaultProfile] compares the two references: the
    profiles are the same when they are the same object, whatever their
    names. *)
Definition same_profile (p q : Profile.t) : bool :=
  Nat.eqb (Profile.self p) (Profile.self q).

(** [if (c) { body }] *)
Definition when (c : bool) (body : M unit) : M unit :=
  if c then body else mret ().

(** The constant [noGraphPayloadOptions] of [createQueryOptions]: the user
    gave nothing that makes the payload differ from the profile's. *)
Definition noGraphPayloadOptions (options : Options.t) : bool :=
  negb (js_truthy (Options.customPayload options)) &&
  negb (js_truthy (Options.graphLanguage options)) &&
  negb (js_truthy (Options.graphSource options)) &&
  negb (js_truthy (Options.executeAs options)) &&
  is_undefined (Options.graphName options) &&
  is_undefined (Options.graphReadConsistency options) &&
  is_undefined (Options.graphWriteConsistency options) &&
  is_undefined (Options.readTimeout options).

Section Driver.

(** [types.consistencies], the registry of consistency levels, as its
    properties in key order; and [proxyExecuteKey] of the execution
    options. Both are declared outside this module. *)
Variable consistencies : list (string * Z).
Variable proxyExecuteKey : string.

(** [types.consistencies[name]] *)
Definition consistencies_get (name : string) : option Z :=
  snd <$> List.find (λ p, String.eqb p.1 name) consistencies.

(** The table [loadConsistencyNames] builds. A key of the table is the
    code of a level, or [None] for the key that a missing property
    ([undefined]) gives. *)
Definition builtConsistencyNames : gmap (option Z) string :=
  let propertyNames := consistencies.*1 in
  let names :=
    fold_left (λ names name, <[consistencies_get name := toUpperCase name]> names)
              propertyNames ∅ in
  let names := <[consistencies_get "localQuorum" := "LOCAL_QUORUM"]> names in
  let names := <[consistencies_get "eachQuorum" := "EACH_QUORUM"]> names in
  let names := <[consistencies_get "localSerial" := "LOCAL_SERIAL"]> names in
  <[consistencies_get "localOne" := "LOCAL_ONE"]> names.

Definition loadConsistencyNames : M unit :=
  names ← gets consistencyNames;
  match names with
  | Some _ => mret ()
  | None => modify (set_consistencyNames builtConsistencyNames)
  end.

Definition getConsistencyName (consistency : js Z) : M (js string) :=
  match consistency with
  | undefined | null => mret undefined
  | val c =>
      loadConsistencyNames;;
      names ← gets consistencyNames;
      match names with
      | None => throw TypeError
      | Some names =>
          match names !! Some c with
          | Some name =>
              if truthy name then mret (val name)
              else throw (UnknownConsistencyLevel c)
          | None => throw (UnknownConsistencyLevel c)
          end
      end
  end.

Definition setPayloadKey {A : Type} (options profileOptions : loc) (key : string)
    (value : js A) (converter : A → M Buffer) : M unit :=
  match value with
  | null => mret ()
  | val v =>
      b ← converter v;
      set_customPayload_key options key b
  | undefined =>
      d ← get_customPayload_key profileOptions key;
      match d with
      | Some b => set_customPayload_key options key b
      | None => mret ()
      end
  end.

(** The converter of [setPayloadKey] when the caller gives none. *)
Definition stringConverter (value : string) : M Buffer :=
  allocBufferFromString (val value).

Definition longConverter (value : Z) : M Buffer := mret (longBuffer value).

(** The factory that [getDefaultGraphOptions] hands to the profile
    manager. *)
Definition createDefaultOptions (profileManager : ProfileManager) (baseOptions : Base.t)
    (defaultRetryPolicy : js RetryPolicy) (profile : Profile.t) : M loc :=
  let profileOptions :=
    match js_or (Profile.graphOptions profile) (val emptyObject) with
    | val g => g
    | _ => emptyObject
    end in
  let defaultProfile := getDefault profileManager in
  let language := js_or (ProfileGraph.language profileOptions) (Base.language baseOptions) in
  let source := js_or (ProfileGraph.source profileOptions) (Base.source baseOptions) in
  graphLanguage ← allocBufferFromString language;
  graphSource ← allocBufferFromString source;
  customPayload ← new_payload
    (<["graph-source" := graphSource]> (<["graph-language" := graphLanguage]> ∅));
  options ← new_object
    (Options.mk undefined (val customPayload) language source undefined undefined
                undefined undefined undefined undefined ∅);
  (if negb (same_profile profile defaultProfile)
   then update_object options
          (Options.set_retry (js_or (Profile.retry profile) (Base.retry baseOptions)))
   else update_object options
          (Options.set_retry (js_or defaultRetryPolicy (Base.retry baseOptions))));;
  when (js_truthy (Base.executeAs baseOptions))
    (b ← allocBufferFromString (Base.executeAs baseOptions);
     set_customPayload_key options proxyExecuteKey b);;
  let name := ifUndefined (ProfileGraph.name profileOptions) (Base.name baseOptions) in
  when (js_truthy name)
    (b ← allocBufferFromString name;
     set_customPayload_key options "graph-name" b);;
  let readConsistency :=
    ifUndefined (ProfileGraph.readConsistency profileOptions)
                (Base.readConsistency baseOptions) in
  when (negb (is_undefined readConsistency))
    (n ← getConsistencyName readConsistency;
     b ← allocBufferFromString n;
     set_customPayload_key options "graph-read-consistency" b);;
  let writeConsistency :=
    ifUndefined (ProfileGraph.writeConsistency profileOptions)
                (Base.writeConsistency baseOptions) in
  when (negb (is_undefined writeConsistency))
    (n ← getConsistencyName writeConsistency;
     b ← allocBufferFromString n;
     set_customPayload_key options "graph-write-consistency" b);;
  let readTimeout :=
    ifUndefined3 (Profile.readTimeout profile) (Profile.readTimeout defaultProfile)
                 (Base.readTimeout baseOptions) in
  update_object options (Options.set_readTimeout readTimeout);;
  when (js_positive readTimeout)
    (match readTimeout with
     | val t => set_customPayload_key options "request-timeout" (longBuffer t)
     | _ => mret ()
     end);;
  mret options.

Definition getDefaultGraphOptions (profileManager : ProfileManager) (baseOptions : Base.t)
    (defaultRetryPolicy : js RetryPolicy) (profile : Profile.t) : M loc :=
  getOrCreateGraphOptions profile
    (createDefaultOptions profileManager baseOptions defaultRetryPolicy profile).

(** [options && options.executionProfile] *)
Definition executionProfile_of (options : Value) : M (js string) :=
  match options with
  | VUndefined => mret undefined
  | VNull => mret null
  | VFunction => mret undefined
  | VObject l => get_field l Options.executionProfile
  end.

Definition createQueryOptions (profileManager : ProfileManager) (baseOptions : Base.t)
    (defaultRetryPolicy : js RetryPolicy) (options : Value) : M Value :=
  executionProfile ← executionProfile_of options;
  match getProfile profileManager executionProfile with
  | None => mret options
  | Some profile =>
      defaultGraphOptions ←
        getDefaultGraphOptions profileManager baseOptions defaultRetryPolicy profile;
      match options with
      | VUndefined | VNull | VFunction => mret (VObject defaultGraphOptions)
      | VObject user =>
          o ← read_object user;
          d ← read_object defaultGraphOptions;
          target ← new_object
            (Options.mk undefined undefined (Options.graphLanguage d) (Options.graphSource d)
                        undefined undefined undefined undefined
                        (Options.readTimeout d) (Options.retry d) ∅);
          options ← extend target user;
          if noGraphPayloadOptions o then
            customPayload ← get_field defaultGraphOptions Options.customPayload;
            update_object options (Options.set_customPayload customPayload);;
            mret (VObject options)
          else
            customPayload ← get_field options Options.customPayload;
            (if negb (js_truthy customPayload) then
               p ← new_payload ∅;
               update_object options (Options.set_customPayload (val p))
             else
               match customPayload with
               | val source =>
                   target ← new_payload ∅;
                   p ← extend_payload target source;
                   update_object options (Options.set_customPayload (val p))
               | _ => mret ()
               end);;
            executeAs ← get_field options Options.executeAs;
            setPayloadKey options defaultGraphOptions proxyExecuteKey executeAs
                          stringConverter;;
            graphLanguage ← get_field options Options.graphLanguage;
            setPayloadKey options defaultGraphOptions "graph-language" graphLanguage
                          stringConverter;;
            graphSource ← get_field options Options.graphSource;
            setPayloadKey options defaultGraphOptions "graph-source" graphSource
                          stringConverter;;
            graphName ← get_field options Options.graphName;
            setPayloadKey options defaultGraphOptions "graph-name" graphName
                          stringConverter;;
            graphReadConsistency ← get_field options Options.graphReadConsistency;
            readName ← getConsistencyName graphReadConsistency;
            setPayloadKey options defaultGraphOptions "graph-read-consistency" readName
                          stringConverter;;
            graphWriteConsistency ← get_field options Options.graphWriteConsistency;
            writeName ← getConsistencyName graphWriteConsistency;
            setPayloadKey options defaultGraphOptions "graph-write-consistency" writeName
                          stringConverter;;
            readTimeout ← get_field options Options.readTimeout;
            setPayloadKey options defaultGraphOptions "request-timeout"
                          (if js_positive readTimeout then readTimeout else null)
                          longConverter;;
            mret (VObject options)
      end
  end.

End Driver.

(** ** The class [GraphExecutionOptions] *)

(** A host of the cluster, as the preferred host of an execution; only its
    identity matters here. *)
Inductive Host : Type := host (id : nat).

(** [Client]: what the constructor reads of it. *)
Module Client.
Record t : Type := mk {
  profileManager : ProfileManager
}.
End Client.

(** [v.f] for the options [v]: a property read on [undefined] or [null]
    is a [TypeError], a function has none of the properties. *)
Definition property_of {A : Type} (v : Value) (f : Options.t → js A) : M (js A) :=
  match v with
  | VObject l => get_field l f
  | VFunction => mret undefined
  | VUndefined | VNull => throw TypeError
  end.

Section GraphExecutionOptions.
Variable consistencies : list (string * Z).
Variable proxyExecuteKey : string.

(** [DefaultExecutionOptions], the class that [GraphExecutionOptions]
    extends, is declared in [execution-options], outside this module: the
    state of its instances, its constructor (called with the query
    options, the client and [null]) and its method [getRawQueryOptions]
    are parameters. *)
Variable DefaultExecutionOptions : Type.
Variable DefaultExecutionOptions_new : Value → Client.t → M DefaultExecutionOptions.
Variable getRawQueryOptions : DefaultExecutionOptions → Value.

(** An instance: what the superclass keeps, and [_preferredHost]. *)
Record GraphExecutionOptions : Type := mkGraphExecutionOptions {
  super : DefaultExecutionOptions;
  _preferredHost : js Host
}.

(** [constructor(queryOptions, client, graphBaseOptions,
    defaultProfileRetryPolicy)] *)
Definition GraphExecutionOptions_new (queryOptions : Value) (client : Client.t)
    (graphBaseOptions : Base.t) (defaultProfileRetryPolicy : js RetryPolicy)
    : M GraphExecutionOptions :=
  queryOptions ← createQueryOptions consistencies proxyExecuteKey
                   (Client.profileManager client) graphBaseOptions
                   defaultProfileRetryPolicy queryOptions;
  this ← DefaultExecutionOptions_new queryOptions client;
  mret (mkGraphExecutionOptions this null).

Definition setPreferredHost (this : GraphExecutionOptions) (host : js Host)
    : GraphExecutionOptions :=
  mkGraphExecutionOptions (super this) host.

Definition getPreferredHost (this : GraphExecutionOptions) : js Host :=
  _preferredHost this.

Definition getGraphSource (this : GraphExecutionOptions) : M (js string) :=
  property_of (getRawQueryOptions (super this)) Options.graphSource.

Definition getGraphLanguage (this : GraphExecutionOptions) : M (js string) :=
  property_of (getRawQueryOptions (super this)) Options.graphLanguage.
End GraphExecutionOptions.

(** ** Vocabulary of the properties *)

(** The six wire keys of the graph options. *)
Definition graph_keys : list string :=
  ["graph-language"; "graph-source"; "graph-name"; "graph-read-consistency";
   "graph-write-consistency"; "request-timeout"].

(** [wp m Q E st]: run from [st], [m] returns a value and a state that
    satisfy [Q], or throws an error in a state that satisfy [E]. *)
Definition wp {A : Type} (m : M A) (Q : A → State → Prop)
    (E : Error → State → Prop) (st : State) : Prop :=
  match m st with
  | (inr a, st') => Q a st'
  | (inl e, st') => E e st'
  end.

(** The table of consistency names is not built yet, or it is the table
    that [loadConsistencyNames] builds. *)
Definition registry_ok (consistencies : list (string * Z)) (st : State) : Prop :=
  consistencyNames st = None ∨
  consistencyNames st = Some (builtConsistencyNames consistencies).

(** From [st0] to [st] the table did not change, or it was built. *)
Definition names_step (consistencies : list (string * Z)) (st0 st : State) : Prop :=
  consistencyNames st = consistencyNames st0 ∨
  (consistencyNames st0 = None ∧
   consistencyNames st = Some (builtConsistencyNames consistencies)).

(** Every object and every payload of [st0] is in [st], at its location and
    as it was: [st] has only new objects more. *)
Definition extends (st0 st : State) : Prop :=
  objects st0 `prefix_of` objects st ∧ payloads st0 `prefix_of` payloads st.

(** [extends], and the profile slots are those of [st0]. *)
Definition frame (consistencies : list (string * Z)) (st0 st : State) : Prop :=
  extends st0 st ∧ names_step consistencies st0 st ∧
  graphOptionsCache st = graphOptionsCache st0.

(** The code has a name in the table (an empty name counts as none). *)
Definition registered (consistencies : list (string * Z)) (code : Z) : Prop :=
  ∃ name, builtConsistencyNames consistencies !! Some code = Some name ∧
          truthy name = true.

(** An [UnknownConsistencyLevel] error is for a code without a name (when
    the table of the state [st0] one started from is not built yet, or is
    the built one). *)
Definition err_ok (consistencies : list (string * Z)) (st0 : State) (e : Error) : Prop :=
  ∀ code, e = UnknownConsistencyLevel code → registry_ok consistencies st0 →
          ¬ registered consistencies code.

(** What a throw inside the module leaves. *)
Definition thrown (consistencies : list (string * Z)) (st0 : State)
    (e : Error) (st' : State) : Prop :=
  frame consistencies st0 st' ∧ err_ok consistencies st0 e.

(** The object at [lo] has the payload at [p] as its [customPayload], and the
    two satisfy [P]. *)
Definition owns (lo p : loc) (P : Options.t → Payload → Prop) (st : State) : Prop :=
  ∃ o m, objects st !! lo = Some o ∧ Options.customPayload o = val p ∧
         payloads st !! p = Some m ∧ P o m.

(** The state while an object that is new since [st0] is being filled. *)
Definition building (consistencies : list (string * Z)) (st0 : State) (lo p : loc)
    (P : Options.t → Payload → Prop) (st : State) : Prop :=
  frame consistencies st0 st ∧
  (length (objects st0) ≤ lo)%nat ∧ (length (payloads st0) ≤ p)%nat ∧
  owns lo p P st.

(** The object a result refers to, and its payload. *)
Definition object_of (st : State) (r : Value) : option Options.t :=
  match r with
  | VObject l => objects st !! l
  | _ => None
  end.

Definition payload_of (st : State) (r : Value) : option Payload :=
  match object_of st r with
  | Some o =>
      match Options.customPayload o with
      | val p => payloads st !! p
      | _ => None
      end
  | None => None
  end.

(** What holds of the graph options cached for a profile and of their
    payload. *)
Definition default_facts (o : Options.t) (m : Payload) : Prop :=
  (∃ s, Options.graphLanguage o = val s) ∧
  (∃ s, Options.graphSource o = val s) ∧
  is_Some (m !! "graph-language") ∧
  is_Some (m !! "graph-source") ∧
  match Options.readTimeout o with
  | val t => if 0 <? t then m !! "request-timeout" = Some (longBuffer t)
             else m !! "request-timeout" = None
  | _ => m !! "request-timeout" = None
  end.

(** Every slot of the profile manager holds graph options as
    [createDefaultOptions] makes them. This holds when no slot is filled
    yet, and every call keeps it ([createQueryOptions_sound]). *)
Definition cache_ok (st : State) : Prop :=
  ∀ name d, graphOptionsCache st !! name = Some d →
    ∃ p, owns d p default_facts st.

(** What holds while [createDefaultOptions] fills the options of a profile,
    before it comes to the read timeout; [r] is the retry policy once it is
    set, and [c] says that the proxy-execute key is none of the graph
    keys. *)
Definition partial_facts (c : Prop) (r : option (js RetryPolicy))
    (o : Options.t) (m : Payload) : Prop :=
  (∃ s, Options.graphLanguage o = val s) ∧
  (∃ s, Options.graphSource o = val s) ∧
  is_Some (m !! "graph-language") ∧
  is_Some (m !! "graph-source") ∧
  (c → m !! "request-timeout" = None) ∧
  (∀ r', r = Some r' → Options.retry o = r').

(** The retry policy [createDefaultOptions] resolves for a profile. *)
Definition resolved_retry (profileManager : ProfileManager) (baseOptions : Base.t)
    (defaultRetryPolicy : js RetryPolicy) (profile : Profile.t) : js RetryPolicy :=
  if same_profile profile (getDefault profileManager)
  then js_or defaultRetryPolicy (Base.retry baseOptions)
  else js_or (Profile.retry profile) (Base.retry baseOptions).

(** What [getDefaultGraphOptions] leaves when it returns [d] for a profile
    from [st]: the slot of the profile holds [d]; on a hit nothing changed;
    on a miss [d] is new, made by [createDefaultOptions] and stored. *)
Definition defaults_post (consistencies : list (string * Z))
    (profileManager : ProfileManager) (baseOptions : Base.t)
    (defaultRetryPolicy : js RetryPolicy) (profile : Profile.t)
    (st : State) (d : loc) (st' : State) : Prop :=
  extends st st' ∧ names_step consistencies st st' ∧ cache_ok st' ∧
  graphOptionsCache st' !! Profile.name profile = Some d ∧
  match graphOptionsCache st !! Profile.name profile with
  | Some d0 => d0 = d ∧ st' = st
  | None =>
      graphOptionsCache st' = <[Profile.name profile := d]> (graphOptionsCache st) ∧
      (length (objects st) ≤ d)%nat ∧
      ∃ p, owns d p (λ o m, default_facts o m ∧
                            Options.retry o = resolved_retry profileManager baseOptions
                                                defaultRetryPolicy profile) st'
  end.

(** From [st] to [st'] nothing that was there changed: objects and payloads
    are where and as they were, the slots that were filled hold what they
    held, the table of names is as it was or was built. *)
Definition grows (consistencies : list (string * Z)) (st st' : State) : Prop :=
  extends st st' ∧ names_step consistencies st st' ∧
  graphOptionsCache st ⊆ graphOptionsCache st'.

(** What a throw of the module leaves: the objects and payloads of [st] as
    they were, the slots of [st] and maybe one more, the table of names as it
    was or built. *)
Definition error_post (consistencies : list (string * Z)) (st st' : State) : Prop :=
  extends st st' ∧ names_step consistencies st st' ∧
  graphOptionsCache st ⊆ graphOptionsCache st' ∧
  (cache_ok st → cache_ok st').

(** One step of [setPayloadKey] on a payload [m], with [md] the payload of
    the profile's defaults and [enc] the encoding. *)
Definition payloadKey {A : Type} (md : Payload) (key : string) (value : js A)
    (enc : A → Buffer) (m : Payload) : Payload :=
  match value with
  | null => m
  | val v => <[key := enc v]> m
  | undefined =>
      match md !! key with
      | Some b => <[key := b]> m
      | None => m
      end
  end.

(** What [getConsistencyName] can return for [c]: never [null],
    [undefined] just when [c] is no code, and for a code its name in the
    table (when the table of the state [st0] one started from is not built
    yet, or is the built one). *)
Definition name_ok (consistencies : list (string * Z)) (st0 : State)
    (c : js Z) (n : js string) : Prop :=
  n ≠ null ∧ (is_undefined n = true ↔ ¬ ∃ code, c = val code) ∧
  (registry_ok consistencies st0 → ∀ code, c = val code →
     ∃ name, builtConsistencyNames consistencies !! Some code = Some name ∧
             truthy name = true ∧ n = val name).

(** The object literal that [createQueryOptions] extends with the user's
    options, and the result of the extension. *)
Definition target_of (d : Options.t) : Options.t :=
  Options.mk undefined undefined (Options.graphLanguage d) (Options.graphSource d)
             undefined undefined undefined undefined
             (Options.readTimeout d) (Options.retry d) ∅.

Definition merged_options (d user : Options.t) : Options.t :=
  extend_record (target_of d) user.

(** The payload that the seven calls of [setPayloadKey] make of [m0], for
    the merged options [o], the payload [md] of the defaults and the names
    of the two consistency levels. *)
Definition rebuilt_payload (proxyExecuteKey : string) (md : Payload) (o : Options.t)
    (readName writeName : js string) (m0 : Payload) : Payload :=
  payloadKey md "request-timeout"
    (if js_positive (Options.readTimeout o) then Options.readTimeout o else null) longBuffer
  (payloadKey md "graph-write-consistency" writeName list_byte_of_string
  (payloadKey md "graph-read-consistency" readName list_byte_of_string
  (payloadKey md "graph-name" (Options.graphName o) list_byte_of_string
  (payloadKey md "graph-source" (Options.graphSource o) list_byte_of_string
  (payloadKey md "graph-language" (Options.graphLanguage o) list_byte_of_string
  (payloadKey md proxyExecuteKey (Options.executeAs o) list_byte_of_string m0)))))).

(** What [createQueryOptions] returns from [st] for the user's options
    [user] when the profile is known: a new object [lo] with the merged
    options, whose payload is the payload of the profile's defaults itself
    or a new, rebuilt one. *)
Definition query_post (consistencies : list (string * Z))
    (proxyExecuteKey : string) (profile : Profile.t)
    (st : State) (user : Options.t) (r : Value) (st' : State) : Prop :=
  ∃ d dobj pd md lo p' m',
    r = VObject lo ∧
    graphOptionsCache st' !! Profile.name profile = Some d ∧
    objects st' !! d = Some dobj ∧ Options.customPayload dobj = val pd ∧
    payloads st' !! pd = Some md ∧ default_facts dobj md ∧
    objects st' !! lo =
      Some (Options.set_customPayload (val p') (merged_options dobj user)) ∧
    payloads st' !! p' = Some m' ∧
    (length (objects st) ≤ lo)%nat ∧
    if noGraphPayloadOptions user then p' = pd
    else
      (length (payloads st) ≤ p')%nat ∧
      ∃ readName writeName m0,
        name_ok consistencies st
          (Options.graphReadConsistency (merged_options dobj user)) readName ∧
        name_ok consistencies st
          (Options.graphWriteConsistency (merged_options dobj user)) writeName ∧
        match Options.customPayload user with
        | val pu => ∀ mu, payloads st !! pu = Some mu → m0 = mu
        | _ => m0 = ∅
        end ∧
        m' = rebuilt_payload proxyExecuteKey md (merged_options dobj user)
               readName writeName m0.

(** The name the table has for the level that the registry knows as
    [name]: the upper case of the property name, and the Java constant for
    the four levels with two words. *)
Definition canonical_name (name : string) : string :=
  if String.eqb name "localOne" then "LOCAL_ONE"
  else if String.eqb name "localSerial" then "LOCAL_SERIAL"
  else if String.eqb name "eachQuorum" then "EACH_QUORUM"
  else if String.eqb name "localQuorum" then "LOCAL_QUORUM"
  else toUpperCase name.

(** The profile that the options select: the one they name, or the default
    profile. *)
Definition selects (profileManager : ProfileManager) (st : State) (options : Value)
    (profile : Profile.t) : Prop :=
  match options with
  | VObject user =>
      ∃ o, objects st !! user = Some o ∧
           getProfile profileManager (Options.executionProfile o) = Some profile
  | VNull => getProfile profileManager null = Some profile
  | _ => getProfile profileManager undefined = Some profile
  end.

(** The [customPayload] that the caller gave, if any, is a map without
    [key]. *)
Definition user_lacks (st : State) (options : Value) (key : string) : Prop :=
  match options with
  | VObject user =>
      ∀ o pu, objects st !! user = Some o → Options.customPayload o = val pu →
              ∃ mu, payloads st !! pu = Some mu ∧ mu !! key = None
  | _ => True
  end.

(** The caller gave an options object, with [null] for the field [f]. *)
Definition user_null {A : Type} (st : State) (options : Value) (f : Options.t → js A) : Prop :=
  ∃ o, object_of st options = Some o ∧ f o = null.

(** The [customPayload] that the caller gave is a map that has [key]. *)
Definition user_has (st : State) (options : Value) (key : string) : Prop :=
  ∃ user o pu mu, options = VObject user ∧ objects st !! user = Some o ∧
                  Options.customPayload o = val pu ∧ payloads st !! pu = Some mu ∧
                  is_Some (mu !! key).

(** The caller gave an options object with something that makes
    [createQueryOptions] build a payload of its own: [noGraphPayloadOptions]
    is false for it. *)
Definition rebuilds (st : State) (options : Value) : Prop :=
  ∃ user o, options = VObject user ∧ objects st !! user = Some o ∧
            noGraphPayloadOptions o = false.

(** The graph-specific scalar fields of the options, and their wire keys. *)
Inductive GraphField : Type :=
  | GraphName
  | GraphLanguage
  | GraphSource
  | GraphReadConsistency
  | GraphWriteConsistency.

Definition wire_key (f : GraphField) : string :=
  match f with
  | GraphName => "graph-name"
  | GraphLanguage => "graph-language"
  | GraphSource => "graph-source"
  | GraphReadConsistency => "graph-read-consistency"
  | GraphWriteConsistency => "graph-write-consistency"
  end.

(** The options have [null] for the field. *)
Definition field_null (f : GraphField) (o : Options.t) : Prop :=
  match f with
  | GraphName => Options.graphName o = null
  | GraphLanguage => Options.graphLanguage o = null
  | GraphSource => Options.graphSource o = null
  | GraphReadConsistency => Options.graphReadConsistency o = null
  | GraphWriteConsistency => Options.graphWriteConsistency o = null
  end.

(** The options object has none of the eight properties that make the
    payload differ from the profile's. *)
Definition no_graph_fields (o : Options.t) : Prop :=
  Options.customPayload o = undefined ∧ Options.graphLanguage o = undefined ∧
  Options.graphSource o = undefined ∧ Options.executeAs o = undefined ∧
  Options.graphName o = undefined ∧ Options.graphReadConsistency o = undefined ∧
  Options.graphWriteConsistency o = undefined ∧ Options.readTimeout o = undefined.

(** A lower-case ASCII letter, and the strings that have one. *)
Definition is_lower (c : ascii) : bool :=
  let n := N_of_ascii c in ((97 <=? n) && (n <=? 122))%N.

Fixpoint has_lower (s : string) : bool :=
  match s with
  | EmptyString => false
  | String c s' => is_lower c || has_lower s'
  end.

(** [profile.graphOptions || utils.emptyObject] *)
Definition graphOptions_of (profile : Profile.t) : ProfileGraph.t :=
  match js_or (Profile.graphOptions profile) (val emptyObject) with
  | val g => g
  | _ => emptyObject
  end.

(** The settings that [createDefaultOptions] resolves for a profile from
    the graph options of the profile and the base options. *)
Definition default_language (baseOptions : Base.t) (profile : Profile.t) : js string :=
  js_or (ProfileGraph.language (graphOptions_of profile)) (Base.language baseOptions).
Definition default_source (baseOptions : Base.t) (profile : Profile.t) : js string :=
  js_or (ProfileGraph.source (graphOptions_of profile)) (Base.source baseOptions).
Definition default_name (baseOptions : Base.t) (profile : Profile.t) : js string :=
  ifUndefined (ProfileGraph.name (graphOptions_of profile)) (Base.name baseOptions).
Definition default_readConsistency (baseOptions : Base.t) (profile : Profile.t) : js Z :=
  ifUndefined (ProfileGraph.readConsistency (graphOptions_of profile))
              (Base.readConsistency baseOptions).
Definition default_writeConsistency (baseOptions : Base.t) (profile : Profile.t) : js Z :=
  ifUndefined (ProfileGraph.writeConsistency (graphOptions_of profile))
              (Base.writeConsistency baseOptions).
Definition default_readTimeout (profileManager : ProfileManager) (baseOptions : Base.t)
    (profile : Profile.t) : js Z :=
  ifUndefined3 (Profile.readTimeout profile)
               (Profile.readTimeout (getDefault profileManager))
               (Base.readTimeout baseOptions).

(** [m] with the bytes of a text under [key], when there is a text; when
    the text is truthy; and with the read timeout, when it is above
    zero. *)
Definition put_text (key : string) (text : js string) (m : Payload) : Payload :=
  match text with
  | val s => <[key := list_byte_of_string s]> m
  | _ => m
  end.

Definition put_truthy (key : string) (text : js string) (m : Payload) : Payload :=
  if js_truthy text then put_text key text m else m.

Definition put_timeout (readTimeout : js Z) (m : Payload) : Payload :=
  match readTimeout with
  | val t => if 0 <? t then <["request-timeout" := longBuffer t]> m else m
  | _ => m
  end.

(** The object that [createDefaultOptions] makes for a profile, with its
    payload at [p], and the entries of that payload, given the names of the
    two consistency levels. *)
Definition default_object (profileManager : ProfileManager) (baseOptions : Base.t)
    (defaultRetryPolicy : js RetryPolicy) (profile : Profile.t) (p : loc) : Options.t :=
  Options.mk undefined (val p) (default_language baseOptions profile)
             (default_source baseOptions profile) undefined undefined undefined undefined
             (default_readTimeout profileManager baseOptions profile)
             (resolved_retry profileManager baseOptions defaultRetryPolicy profile) ∅.

Definition default_payload (proxyExecuteKey : string) (profileManager : ProfileManager)
    (baseOptions : Base.t) (profile : Profile.t) (readName writeName : js string) : Payload :=
  put_timeout (default_readTimeout profileManager baseOptions profile)
  (put_text "graph-write-consistency" writeName
  (put_text "graph-read-consistency" readName
  (put_truthy "graph-name" (default_name baseOptions profile)
  (put_truthy proxyExecuteKey (Base.executeAs baseOptions)
  (put_text "graph-source" (default_source baseOptions profile)
  (put_text "graph-language" (default_language baseOptions profile) ∅)))))).

(** What [createDefaultOptions] has made when it returns from [st0]. *)
Definition defaults_made (consistencies : list (string * Z)) (proxyExecuteKey : string)
    (profileManager : ProfileManager) (baseOptions : Base.t)
    (defaultRetryPolicy : js RetryPolicy) (profile : Profile.t) (st0 : State)
    (p : loc) (o : Options.t) (m : Payload) : Prop :=
  (∃ s, default_language baseOptions profile = val s) ∧
  (∃ s, default_source baseOptions profile = val s) ∧
  default_readConsistency baseOptions profile ≠ null ∧
  default_writeConsistency baseOptions profile ≠ null ∧
  o = default_object profileManager baseOptions defaultRetryPolicy profile p ∧
  ∃ readName writeName,
    name_ok consistencies st0 (default_readConsistency baseOptions profile) readName ∧
    name_ok consistencies st0 (default_writeConsistency baseOptions profile) writeName ∧
    m = default_payload proxyExecuteKey profileManager baseOptions profile
          readName writeName.

(** Why [createDefaultOptions] throws, when it does: a [TypeError] for a
    language or a source that is no string or a consistency level that is
    [null]; the error of [getConsistencyName] for the read or the write
    consistency level. *)
Definition defaults_failed (consistencies : list (string * Z)) (baseOptions : Base.t)
    (profile : Profile.t) (st0 : State) (e : Error) : Prop :=
  err_ok consistencies st0 e ∧
  match e with
  | TypeError =>
      (∀ s, default_language baseOptions profile ≠ val s) ∨
      (∀ s, default_source baseOptions profile ≠ val s) ∨
      default_readConsistency baseOptions profile = null ∨
      default_writeConsistency baseOptions profile = null
  | UnknownConsistencyLevel code =>
      default_readConsistency baseOptions profile = val code ∨
      default_writeConsistency baseOptions profile = val code
  end.

(** The settings of a profile with which [createDefaultOptions] succeeds: a
    language and a source that are strings, and read and write consistency
    levels that are not given or are codes with a name. *)
Definition level_ok (consistencies : list (string * Z)) (c : js Z) : Prop :=
  match c with
  | undefined => True
  | null => False
  | val code => registered consistencies code
  end.

Definition defaults_resolvable (consistencies : list (string * Z)) (baseOptions : Base.t)
    (profile : Profile.t) : Prop :=
  (∃ s, default_language baseOptions profile = val s) ∧
  (∃ s, default_source baseOptions profile = val s) ∧
  level_ok consistencies (default_readConsistency baseOptions profile) ∧
  level_ok consistencies (default_writeConsistency baseOptions profile).

(** The map that the rebuilt payload starts from: the entries of the
    [customPayload] that the caller gave, or none. *)
Definition user_payload (st : State) (o : Options.t) : option Payload :=
  match Options.customPayload o with
  | val pu => payloads st !! pu
  | _ => Some ∅
  end.

(** The entry that [setPayloadKey] leaves under a key, from the entry of
    the defaults ([inherited]) and the entry that the payload had
    ([own]). *)
Definition inherited_entry (inherited own : option Buffer) : option Buffer :=
  match inherited with
  | Some b => Some b
  | None => own
  end.

Definition resolved_entry {A : Type} (value : js A) (enc : A → Buffer)
    (inherited own : option Buffer) : option Buffer :=
  match value with
  | null => own
  | val v => Some (enc v)
  | undefined => inherited_entry inherited own
  end.

(** The options that [setPayloadKey] encodes as text, apart from the
    consistency levels, and the keys they go under. *)
Inductive TextField : Type :=
  | ExecuteAsText
  | LanguageText
  | SourceText
  | NameText.

Definition text_of (f : TextField) (o : Options.t) : js string :=
  match f with
  | ExecuteAsText => Options.executeAs o
  | LanguageText => Options.graphLanguage o
  | SourceText => Options.graphSource o
  | NameText => Options.graphName o
  end.

Definition text_key (proxyExecuteKey : string) (f : TextField) : string :=
  match f with
  | ExecuteAsText => proxyExecuteKey
  | LanguageText => "graph-language"
  | SourceText => "graph-source"
  | NameText => "graph-name"
  end.

(** Why [createQueryOptions] throws for the options [ou] of a caller when
    the graph options of the profile are cached: a consistency code of the
    options has no name, or (a [TypeError]) the [customPayload] of the
    options is no map of the store. *)
Definition query_failed (consistencies : list (string * Z)) (st : State)
    (ou : Options.t) (e : Error) : Prop :=
  err_ok consistencies st e ∧
  match e with
  | TypeError => user_payload st ou = None
  | UnknownConsistencyLevel code =>
      Options.graphReadConsistency ou = val code ∨
      Options.graphWriteConsistency ou = val code
  end.

(** A consistency level of the caller's options that
    [getConsistencyName] takes: [undefined], [null], or a code with a
    name. *)
Definition level_given_ok (consistencies : list (string * Z)) (c : js Z) : Prop :=
  ∀ code, c = val code → registered consistencies code.

(** What the properties of [GraphExecutionOptions] take of the
    constructor of [DefaultExecutionOptions]: it keeps the query options it
    is given, which [getRawQueryOptions] returns, and it leaves the option
    objects of the store and the slots of the profile manager as they
    are. *)
Definition keeps_query_options {D : Type} (new : Value → Client.t → M D)
    (getRawQueryOptions : D → Value) : Prop :=
  ∀ queryOptions client st this st',
    new queryOptions client st = (inr this, st') →
    getRawQueryOptions this = queryOptions ∧ objects st `prefix_of` objects st' ∧
    graphOptionsCache st' = graphOptionsCache st.

(** The states a client goes through: the module is loaded and nothing is
    resolved yet; the client makes an options object or a payload map;
    [createQueryOptions] is called, with any arguments, and returns or
    throws. *)
Inductive reachable (consistencies : list (string * Z)) (proxyExecuteKey : string)
    : State → Prop :=
  | reachable_start :
      reachable consistencies proxyExecuteKey (mkState None [] [] ∅)
  | reachable_object st o :
      reachable consistencies proxyExecuteKey st →
      reachable consistencies proxyExecuteKey (set_objects (objects st ++ [o]) st)
  | reachable_payload st m :
      reachable consistencies proxyExecuteKey st →
      reachable consistencies proxyExecuteKey (set_payloads (payloads st ++ [m]) st)
  | reachable_call st profileManager baseOptions defaultRetryPolicy options :
      reachable consistencies proxyExecuteKey st →
      reachable consistencies proxyExecuteKey
        (createQueryOptions consistencies proxyExecuteKey profileManager baseOptions
           defaultRetryPolicy options st).2.

(** ** A client to run the module on *)

(** The consistency levels of the native protocol and the proxy-execute key
    of the driver, for the examples. *)
Definition native_consistencies : list (string * Z) :=
  [("any", 0); ("one", 1); ("two", 2); ("three", 3); ("quorum", 4); ("all", 5);
   ("localQuorum", 6); ("eachQuorum", 7); ("serial", 8); ("localSerial", 9);
   ("localOne", 10)].

Definition example_proxy_key : string := "ProxyExecute".

(** Base options with a graph name and a read consistency of
    [localQuorum]. *)
Definition example_base : Base.t :=
  Base.mk (val "gremlin-groovy") (val "g") (val "demo") undefined
          (val 6) undefined (val (policy 1)) undefined.

Definition example_default_profile : Profile.t :=
  Profile.mk 0%nat "default" undefined (val (policy 0)) undefined.

(** A profile with graph options of its own, no retry policy and a read
    timeout. *)
Definition example_analytics_profile : Profile.t :=
  Profile.mk 1%nat "analytics"
    (val (ProfileGraph.mk undefined undefined undefined (val 6) undefined))
    undefined (val 5000).

Definition example_manager : ProfileManager :=
  mkProfileManager
    (<["analytics" := example_analytics_profile]> {["default" := example_default_profile]})
    example_default_profile.

(** A state in which nothing was resolved yet, with the caller's objects. *)
Definition example_state (os : list Options.t) (ps : list Payload) : State :=
  mkState None os ps ∅.

Definition example_options (executionProfile : js string) (customPayload : js loc)
    (graphLanguage graphName : js string) (graphReadConsistency readTimeout : js Z)
    : Options.t :=
  Options.mk executionProfile customPayload graphLanguage undefined undefined graphName
             graphReadConsistency undefined readTimeout undefined ∅.

Definition example_resolve (options : Value) : M Value :=
  createQueryOptions native_consistencies example_proxy_key example_manager example_base
    (val (policy 2)) options.

(** Options of callers. *)
Definition example_plain : Options.t :=
  Options.mk (val "analytics") undefined undefined undefined undefined undefined
             undefined undefined undefined undefined {["fetchSize" := "100"]}.
Definition example_unknown_profile : Options.t :=
  example_options (val "nonexistent") undefined undefined (val "g1") undefined undefined.
Definition example_null_name : Options.t :=
  example_options (val "analytics") undefined undefined null undefined undefined.
Definition example_null_read : Options.t :=
  example_options undefined undefined undefined undefined null undefined.
Definition example_null_language : Options.t :=
  example_options undefined undefined null (val "x") undefined undefined.
Definition example_unknown_code : Options.t :=
  example_options undefined undefined undefined undefined (val 99) undefined.
Definition example_own_timeout : Options.t :=
  example_options undefined (val 0%nat) undefined undefined undefined (val 0).
Definition example_own_payload : Payload := {["request-timeout" := [x01]]}.
Definition example_user_payload : Payload := {["my-key" := [x2a]]}.
Definition example_with_payload : Options.t :=
  example_options undefined (val 0%nat) undefined (val "g1") undefined (val 1500).

(** A second profile object with the name of the default profile, and a
    retry policy of its own. *)
Definition example_default_twin : Profile.t :=
  Profile.mk 3%nat "default" undefined (val (policy 9)) undefined.

(** Options with [null] for the graph language and nothing else; options
    with a read timeout of 2^63 milliseconds; a payload of a caller with a
    graph name; two callers in one store. *)
Definition example_lone_null_language : Options.t :=
  example_options undefined undefined null undefined undefined undefined.
Definition example_huge_timeout : Options.t :=
  example_options undefined undefined undefined undefined undefined (val (2 ^ 63)).
Definition example_named_payload : Payload := {["graph-name" := [x2a]]}.
Definition example_two_callers : State :=
  example_state [example_plain; example_null_name] [].

(** A state for [setPayloadKey]: options at 0 with the payload at 0, the
    defaults at 1 with the payload at 1, which has a graph name. *)
Definition example_key_state (m : Payload) : State :=
  mkState None
    [Options.set_customPayload (val 0%nat) example_plain;
     Options.set_customPayload (val 1%nat) Options.empty]
    [m; {["graph-name" := list_byte_of_string "demo"]}] ∅.

(** What a run returned: the object, and its payload. *)
Definition result_object (run : (Error + Value) * State) : option Options.t :=
  match run.1 with
  | inr r => object_of run.2 r
  | inl _ => None
  end.

Definition result_payload (run : (Error + Value) * State) : option Payload :=
  match run.1 with
  | inr r => payload_of run.2 r
  | inl _ => None
  end.

(** Base options with an [executeAs], both consistency levels and a read
    timeout; and base options whose read consistency is no level. *)
Definition example_proxied_base : Base.t :=
  Base.mk (val "gremlin-groovy") (val "g") (val "demo") (val "alice")
          (val 6) (val 1) (val (policy 1)) (val 12000).

Definition example_unresolvable_base : Base.t :=
  Base.mk (val "gremlin-groovy") (val "g") undefined undefined
          (val 99) undefined (val (policy 1)) undefined.

(** A profile whose graph options have a language and a write
    consistency of their own, and [null] for the graph name. *)
Definition example_unnamed_profile : Profile.t :=
  Profile.mk 2%nat "unnamed"
    (val (ProfileGraph.mk (val "bytecode-json") undefined null undefined (val 4)))
    undefined undefined.

Definition example_defaults (baseOptions : Base.t) (profile : Profile.t) : M loc :=
  getDefaultGraphOptions native_consistencies example_proxy_key example_manager
    baseOptions (val (policy 2)) profile.

(** Options of callers: a read consistency of [one] on the profile
    "analytics"; a write consistency and an [executeAs]. *)
Definition example_read_one : Options.t :=
  example_options (val "analytics") undefined undefined undefined (val 1) undefined.

Definition example_execute_as : Options.t :=
  Options.mk undefined undefined (val "gremlin-scala") undefined (val "bob") undefined
             undefined (val 5) undefined (val (policy 7)) ∅.

(** A superclass that keeps the query options and nothing else, for the
    examples of [GraphExecutionOptions]. *)
Definition example_super_new (queryOptions : Value) (client : Client.t) : M Value :=
  mret queryOptions.

Definition example_client : Client.t := Client.mk example_manager.

Definition example_execution : M (GraphExecutionOptions Value) :=
  GraphExecutionOptions_new native_consistencies example_proxy_key Value
    example_super_new (VObject 0%nat) example_client example_base (val (policy 2)).

(** * Properties *)

(** ** Rules of [wp] *)

Lemma wp_ret {A : Type} (a : A) (Q : A → State → Prop) E st :
  Q a st → wp (mret a) Q E st.
Proof. done. Qed.

Lemma wp_throw {A : Type} (e : Error) (Q : A → State → Prop) (E : Error → State → Prop) st :
  E e st → wp (throw e) Q E st.
Proof. done. Qed.

Lemma wp_bind {A B : Type} (m : M A) (f : A → M B) Q E st :
  wp m (λ a st', wp (f a) Q E st') E st → wp (m ≫= f) Q E st.
Proof.
  unfold wp, mbind, M_bind. by destruct (m st) as [[e|a] st'].
Qed.

Lemma wp_mono {A : Type} (m : M A) (Q Q' : A → State → Prop) (E E' : Error → State → Prop) st :
  wp m Q E st → (∀ a st', Q a st' → Q' a st') → (∀ e st', E e st' → E' e st') →
  wp m Q' E' st.
Proof.
  unfold wp. destruct (m st) as [[e|a] st']; auto.
Qed.

Lemma wp_gets {A : Type} (f : State → A) (Q : A → State → Prop) E st :
  Q (f st) st → wp (gets f) Q E st.
Proof. done. Qed.

Lemma wp_modify (f : State → State) (Q : unit → State → Prop) E st :
  Q () (f st) → wp (modify f) Q E st.
Proof. done. Qed.

Lemma wp_when (c : bool) (body : M unit) (Q : unit → State → Prop) E st :
  (c = true → wp body Q E st) → (c = false → Q () st) → wp (when c body) Q E st.
Proof. intros H1 H2. destruct c; [by apply H1 | by apply H2]. Qed.

Lemma wp_read_object l (Q : Options.t → State → Prop) (E : Error → State → Prop) st :
  (∀ o, objects st !! l = Some o → Q o st) →
  (objects st !! l = None → E TypeError st) →
  wp (read_object l) Q E st.
Proof.
  unfold wp, read_object. destruct (objects st !! l); auto.
Qed.

Lemma wp_read_payload l (Q : Payload → State → Prop) (E : Error → State → Prop) st :
  (∀ m, payloads st !! l = Some m → Q m st) →
  (payloads st !! l = None → E TypeError st) →
  wp (read_payload l) Q E st.
Proof.
  unfold wp, read_payload. destruct (payloads st !! l); auto.
Qed.

Lemma wp_new_object o (Q : loc → State → Prop) E st :
  Q (length (objects st)) (set_objects (objects st ++ [o]) st) →
  wp (new_object o) Q E st.
Proof. done. Qed.

Lemma wp_new_payload m (Q : loc → State → Prop) E st :
  Q (length (payloads st)) (set_payloads (payloads st ++ [m]) st) →
  wp (new_payload m) Q E st.
Proof. done. Qed.

(** ** The frame *)

Lemma prefix_insert_ge {A : Type} (l k : list A) i x :
  l `prefix_of` k → (length l ≤ i)%nat → l `prefix_of` <[i := x]> k.
Proof.
  intros [t ->] Hi. exists (<[(i - length l)%nat := x]> t).
  by rewrite insert_app_r_alt.
Qed.

Section Frame.
Variable consistencies : list (string * Z).

Lemma names_step_refl st : names_step consistencies st st.
Proof. by left. Qed.

Lemma names_step_trans st0 st1 st2 :
  names_step consistencies st0 st1 → names_step consistencies st1 st2 →
  names_step consistencies st0 st2.
Proof.
  unfold names_step. intros [H1|[H1 H1']] [H2|[H2 H2']]; try (left; congruence);
    try (right; split; congruence).
Qed.

Lemma names_step_registry st0 st :
  names_step consistencies st0 st → registry_ok consistencies st0 →
  registry_ok consistencies st.
Proof.
  unfold names_step, registry_ok. intros [->|[_ ->]]; auto.
Qed.

Lemma extends_refl st : extends st st.
Proof. by split. Qed.

Lemma extends_trans st0 st1 st2 : extends st0 st1 → extends st1 st2 → extends st0 st2.
Proof. intros [??] [??]. split; by etrans. Qed.

Lemma extends_object st0 st l o :
  extends st0 st → objects st0 !! l = Some o → objects st !! l = Some o.
Proof. intros [H _] ?. by eapply prefix_lookup_Some. Qed.

Lemma extends_payload st0 st l m :
  extends st0 st → payloads st0 !! l = Some m → payloads st !! l = Some m.
Proof. intros [_ H] ?. by eapply prefix_lookup_Some. Qed.

Lemma extends_owns st0 st lo p P : extends st0 st → owns lo p P st0 → owns lo p P st.
Proof.
  intros Hext (o & m & ? & ? & ? & ?). exists o, m.
  split_and!; eauto using extends_object, extends_payload.
Qed.

Lemma frame_refl st : frame consistencies st st.
Proof. split; [apply extends_refl|]. split; [apply names_step_refl|done]. Qed.

Lemma frame_trans st0 st1 st2 :
  frame consistencies st0 st1 → frame consistencies st1 st2 →
  frame consistencies st0 st2.
Proof.
  intros (? & ? & ?) (? & ? & ?). split; [by eapply extends_trans|].
  split; [by eapply names_step_trans|congruence].
Qed.

Lemma cache_ok_frame st0 st :
  frame consistencies st0 st → cache_ok st0 → cache_ok st.
Proof.
  intros (Hext & _ & Hc) Hok name d Hd. rewrite Hc in Hd.
  destruct (Hok name d Hd) as [p Hp]. exists p. by eapply extends_owns.
Qed.
End Frame.

(** ** Filling a new object *)

Section Building.
Variable consistencies : list (string * Z).

Lemma building_frame st0 lo p P st :
  building consistencies st0 lo p P st → frame consistencies st0 st.
Proof. by intros [? _]. Qed.

Lemma building_weaken st0 lo p (P P' : Options.t → Payload → Prop) st :
  building consistencies st0 lo p P st → (∀ o m, P o m → P' o m) →
  building consistencies st0 lo p P' st.
Proof.
  intros (? & ? & ? & o & m & ? & ? & ? & ?) HP.
  split; [done|]. split; [done|]. split; [done|]. exists o, m. split_and!; auto.
Qed.

(** A step that leaves the stores and the slots alone keeps the state of
    the filling. *)
Lemma building_names st0 lo p P st st' :
  building consistencies st0 lo p P st →
  objects st' = objects st → payloads st' = payloads st →
  graphOptionsCache st' = graphOptionsCache st →
  names_step consistencies st st' →
  building consistencies st0 lo p P st'.
Proof.
  intros (((Ho & Hp) & Hn & Hc) & ? & ? & o & m & ? & ? & ? & ?) Eo Ep Ec Hn'.
  split; [split; [split; [by rewrite Eo | by rewrite Ep] |
                  split; [by eapply names_step_trans | congruence]] |].
  split; [done|]. split; [done|]. exists o, m. rewrite Eo, Ep. by split_and!.
Qed.

Lemma building_update_object st0 lo p (P P' : Options.t → Payload → Prop) upd
    (Q : unit → State → Prop) E st :
  building consistencies st0 lo p P st →
  (∀ o, Options.customPayload (upd o) = Options.customPayload o) →
  (∀ o m, P o m → P' (upd o) m) →
  (∀ st', building consistencies st0 lo p P' st' → Q () st') →
  wp (update_object lo upd) Q E st.
Proof.
  intros (((Ho & Hp) & Hn & Hc) & Hlo & Hlp & o & m & Hlook & Hcp & Hm & HP) Hupd HP' HQ.
  unfold wp, update_object, mbind, M_bind, read_object. rewrite Hlook. simpl.
  apply HQ.
  split; [split; [split; simpl; [by apply prefix_insert_ge|done] | by split] |].
  split; [done|]. split; [done|]. exists (upd o), m. simpl. split_and!; auto.
  - apply list_lookup_insert_eq. by eapply lookup_lt_Some.
  - by rewrite Hupd.
Qed.

Lemma building_set_key st0 lo p (P P' : Options.t → Payload → Prop) key b
    (Q : unit → State → Prop) E st :
  building consistencies st0 lo p P st →
  (∀ o m, P o m → P' o (<[key := b]> m)) →
  (∀ st', building consistencies st0 lo p P' st' → Q () st') →
  wp (set_customPayload_key lo key b) Q E st.
Proof.
  intros (((Ho & Hp) & Hn & Hc) & Hlo & Hlp & o & m & Hlook & Hcp & Hm & HP) HP' HQ.
  unfold wp, set_customPayload_key, get_field, mbind, M_bind, read_object.
  rewrite Hlook. simpl. rewrite Hcp. unfold read_payload. rewrite Hm. simpl.
  apply HQ.
  split; [split; [split; simpl; [done|by apply prefix_insert_ge] | by split] |].
  split; [done|]. split; [done|]. exists o, (<[key := b]> m). simpl. split_and!; auto.
  apply list_lookup_insert_eq. by eapply lookup_lt_Some.
Qed.

Lemma building_get_field {A : Type} st0 lo p (P : Options.t → Payload → Prop)
    (f : Options.t → A) (Q : A → State → Prop) E st :
  building consistencies st0 lo p P st →
  (∀ a, building consistencies st0 lo p (λ o m, P o m ∧ f o = a) st → Q a st) →
  wp (get_field lo f) Q E st.
Proof.
  intros (Hf & Hlo & Hlp & o & m & Hlook & Hcp & Hm & HP) HQ.
  unfold wp, get_field, mbind, M_bind, read_object. rewrite Hlook. simpl.
  apply HQ. split; [done|]. split; [done|]. split; [done|]. exists o, m. by split_and!.
Qed.

Lemma loadConsistencyNames_run st :
  loadConsistencyNames consistencies st =
    (inr (), match consistencyNames st with
             | Some _ => st
             | None => set_consistencyNames (builtConsistencyNames consistencies) st
             end).
Proof.
  unfold loadConsistencyNames, mbind, M_bind, gets. simpl.
  by destruct (consistencyNames st).
Qed.

Lemma wp_loadConsistencyNames (Q : unit → State → Prop) E st :
  (∀ st', objects st' = objects st → payloads st' = payloads st →
          graphOptionsCache st' = graphOptionsCache st →
          names_step consistencies st st' → is_Some (consistencyNames st') →
          Q () st') →
  wp (loadConsistencyNames consistencies) Q E st.
Proof.
  intros HQ. unfold wp. rewrite loadConsistencyNames_run.
  destruct (consistencyNames st) eqn:Hn; apply HQ; simpl; try done.
  - by left.
  - by right.
Qed.

(** [getConsistencyName] touches nothing but the table of names, which it
    may build, and never returns [null]. *)
Lemma wp_getConsistencyName c (Q : js string → State → Prop) (E : Error → State → Prop) st :
  (∀ n st', objects st' = objects st → payloads st' = payloads st →
            graphOptionsCache st' = graphOptionsCache st →
            names_step consistencies st st' →
            name_ok consistencies st c n → Q n st') →
  (∀ e st', objects st' = objects st → payloads st' = payloads st →
            graphOptionsCache st' = graphOptionsCache st →
            names_step consistencies st st' →
            err_ok consistencies st e → E e st') →
  wp (getConsistencyName consistencies c) Q E st.
Proof.
  intros HQ HE.
  destruct c as [| |code]; simpl.
  - apply wp_ret, HQ; try done; [apply names_step_refl|].
    split; [done|]. split; [|done]. split; [|done]. by intros _ [? ?].
  - apply wp_ret, HQ; try done; [apply names_step_refl|].
    split; [done|]. split; [|done]. split; [|done]. by intros _ [? ?].
  - apply wp_bind, wp_loadConsistencyNames. intros st1 ? ? ? Hstep [names Hnames].
    apply wp_bind, wp_gets. rewrite Hnames.
    assert (registry_ok consistencies st →
            names = builtConsistencyNames consistencies) as Hbuilt.
    { intros Hreg. apply (names_step_registry _ _ _ Hstep) in Hreg.
      destruct Hreg as [Hreg|Hreg]; congruence. }
    assert (∀ name, names !! Some code = Some name → truthy name = false →
                    err_ok consistencies st (UnknownConsistencyLevel code)) as Hfalsy.
    { intros name Hl Ht code' [= <-] Hreg (name' & Hl' & Ht').
      rewrite <- (Hbuilt Hreg) in Hl'. congruence. }
    assert (names !! Some code = None →
            err_ok consistencies st (UnknownConsistencyLevel code)) as Hnone.
    { intros Hl code' [= <-] Hreg (name' & Hl' & Ht').
      rewrite <- (Hbuilt Hreg) in Hl'. congruence. }
    destruct (names !! Some code) as [name|] eqn:Hl; [|by apply wp_throw, HE; auto].
    destruct (truthy name) eqn:Ht; [|by apply wp_throw, HE; eauto].
    apply wp_ret, HQ; try done. split; [done|]. split.
    + split; [done|]. intros []. by exists code.
    + intros Hreg code' [= <-]. exists name. by rewrite <- (Hbuilt Hreg).
Qed.

Lemma err_ok_TypeError st0 : err_ok consistencies st0 TypeError.
Proof. by intros code. Qed.

Lemma err_ok_step st0 st e :
  names_step consistencies st0 st → err_ok consistencies st e →
  err_ok consistencies st0 e.
Proof.
  intros Hstep He code Hcode Hreg. apply He; [done|].
  by eapply names_step_registry.
Qed.

Lemma name_ok_step st0 st c n :
  names_step consistencies st0 st → name_ok consistencies st c n →
  name_ok consistencies st0 c n.
Proof.
  intros Hstep (? & ? & Hn). split_and!; try done.
  intros Hreg. apply Hn. by eapply names_step_registry.
Qed.

Lemma thrown_TypeError st0 st :
  frame consistencies st0 st → thrown consistencies st0 TypeError st.
Proof. intros. split; [done|apply err_ok_TypeError]. Qed.
End Building.

(** ** [createDefaultOptions] *)

Lemma wp_seq {A B : Type} (m : M A) (f : A → M B) (R : A → State → Prop)
    (E0 : Error → State → Prop) Q E st :
  wp m R E0 st →
  (∀ a st', R a st' → wp (f a) Q E st') →
  (∀ e st', E0 e st' → E e st') →
  wp (m ≫= f) Q E st.
Proof.
  intros Hm Hf HE. apply wp_bind. eapply wp_mono; [exact Hm| |exact HE]. exact Hf.
Qed.

Lemma wp_allocBufferFromString text (Q : Buffer → State → Prop) (E : Error → State → Prop) st :
  (∀ s, text = val s → Q (list_byte_of_string s) st) →
  E TypeError st →
  wp (allocBufferFromString text) Q E st.
Proof. intros HQ HE. destruct text; simpl; auto. by apply HQ. Qed.

Lemma partial_facts_insert (c : Prop) r o m key b :
  (c → key ≠ "request-timeout") → partial_facts c r o m →
  partial_facts c r o (<[key := b]> m).
Proof.
  intros Hk (? & ? & Hl & Hs & Ht & ?). split_and!; try done.
  - rewrite lookup_insert. by case_decide.
  - rewrite lookup_insert. by case_decide.
  - intros Hc. rewrite lookup_insert_ne; auto.
Qed.

Lemma proxy_key_not_timeout (proxyExecuteKey : string) :
  proxyExecuteKey ∉ graph_keys → proxyExecuteKey ≠ "request-timeout".
Proof. intros H ->. apply H, list_elem_of_In. simpl. tauto. Qed.

Section Defaults.
Variable consistencies : list (string * Z).
Variable proxyExecuteKey : string.

(** [if (c) customPayload[key] = allocBufferFromString(text)], with the
    text possibly computed by [getConsistencyName]. *)
Lemma building_key_block st0 lo p P (c : bool) (text : M (js string)) key st :
  building consistencies st0 lo p P st →
  (∀ o m b, P o m → P o (<[key := b]> m)) →
  (∀ st1, building consistencies st0 lo p P st1 →
     wp text (λ _ st', building consistencies st0 lo p P st')
             (thrown consistencies st0) st1) →
  wp (when c (n ← text; b ← allocBufferFromString n; set_customPayload_key lo key b))
     (λ _ st', building consistencies st0 lo p P st')
     (thrown consistencies st0) st.
Proof.
  intros Hb HP Htext. apply wp_when; [intros _|done].
  eapply wp_seq; [by apply Htext| |done].
  intros n st1 Hb1. simpl in Hb1.
  apply wp_bind, wp_allocBufferFromString; [|by eapply thrown_TypeError, building_frame].
  intros s _. eapply building_set_key; [exact Hb1| |done]. auto.
Qed.

(** The same with a text at hand. *)
Lemma building_text_block st0 lo p P (c : bool) (text : js string) key st :
  building consistencies st0 lo p P st →
  (∀ o m b, P o m → P o (<[key := b]> m)) →
  wp (when c (b ← allocBufferFromString text; set_customPayload_key lo key b))
     (λ _ st', building consistencies st0 lo p P st')
     (thrown consistencies st0) st.
Proof.
  intros Hb HP. apply wp_when; [intros _|done].
  apply wp_bind, wp_allocBufferFromString; [|by eapply thrown_TypeError, building_frame].
  intros s _. eapply building_set_key; [exact Hb| |done]. auto.
Qed.

Lemma building_seq {A B : Type} st0 lo p P (m : M A) (f : A → M B) Q E st :
  wp m (λ _ st', building consistencies st0 lo p P st')
       (thrown consistencies st0) st →
  (∀ a st', building consistencies st0 lo p P st' → wp (f a) Q E st') →
  (∀ e st', thrown consistencies st0 e st' → E e st') →
  wp (m ≫= f) Q E st.
Proof. intros. by eapply wp_seq. Qed.

Lemma building_getConsistencyName st0 lo p P c st :
  building consistencies st0 lo p P st →
  wp (getConsistencyName consistencies c)
     (λ _ st', building consistencies st0 lo p P st')
     (thrown consistencies st0) st.
Proof.
  intros Hb. apply wp_getConsistencyName.
  - intros n st' ? ? ? ? _. by eapply building_names.
  - intros e st' ? ? ? ? He. split.
    + eapply building_frame, building_names; eauto.
    + destruct Hb as ((_ & ? & _) & _). by eapply err_ok_step.
Qed.

Lemma createDefaultOptions_spec profileManager baseOptions defaultRetryPolicy profile st :
  wp (createDefaultOptions consistencies proxyExecuteKey profileManager baseOptions
        defaultRetryPolicy profile)
     (λ d st', ∃ p, building consistencies st d p
                 (λ o m, (proxyExecuteKey ∉ graph_keys → default_facts o m) ∧
                         Options.retry o = resolved_retry profileManager baseOptions
                                             defaultRetryPolicy profile) st')
     (thrown consistencies st) st.
Proof.
  set (c := proxyExecuteKey ∉ graph_keys).
  unfold createDefaultOptions.
  set (profileOptions := match js_or (Profile.graphOptions profile) (val emptyObject) with
                         | val g => g | _ => emptyObject end).
  apply wp_bind, wp_allocBufferFromString; [|apply thrown_TypeError, frame_refl].
  intros s1 Hs1.
  apply wp_bind, wp_allocBufferFromString; [|apply thrown_TypeError, frame_refl].
  intros s2 Hs2.
  apply wp_bind, wp_new_payload, wp_bind, wp_new_object.
  match goal with |- wp _ _ _ ?s => set (st1 := s) end.
  set (lo := length (objects (set_payloads _ st))).
  set (p := length (payloads st)).
  assert (building consistencies st lo p (partial_facts c None) st1) as Hb.
  { subst st1 lo p. unfold set_objects, set_payloads.
    cbn [objects payloads consistencyNames graphOptionsCache].
    split; [split; [split; by apply prefix_app_r | split; [by left|done]]|].
    split; [done|]. split; [done|]. eexists _, _.
    cbn [objects payloads consistencyNames graphOptionsCache]. split_and!.
    - by apply list_lookup_middle.
    - done.
    - by apply list_lookup_middle.
    - rewrite Hs1, Hs2. split_and!; eauto. done. }
  clearbody st1 lo p.
  set (R := resolved_retry profileManager baseOptions defaultRetryPolicy profile).
  eapply (building_seq st lo p (partial_facts c (Some R))); [| |done].
  { unfold R, resolved_retry.
    destruct (same_profile profile (getDefault profileManager)); simpl;
      (eapply building_update_object; [exact Hb|done| |done]);
      intros o m (? & ? & ? & ? & ? & ?); split_and!; try done;
      by intros ? [= <-]. }
  clear st1 Hb. intros _ st1 Hb.
  eapply building_seq; [| |done].
  { apply building_text_block; [exact Hb|].
    intros. eapply partial_facts_insert; [apply proxy_key_not_timeout|done]. }
  clear st1 Hb. intros _ st1 Hb. simpl in Hb.
  eapply building_seq; [| |done].
  { apply building_text_block; [exact Hb|].
    intros. by apply partial_facts_insert. }
  clear st1 Hb. intros _ st1 Hb. simpl in Hb.
  eapply building_seq; [| |done].
  { apply building_key_block; [exact Hb| |].
    - intros. by apply partial_facts_insert.
    - intros st2 Hb2. by apply building_getConsistencyName. }
  clear st1 Hb. intros _ st1 Hb. simpl in Hb.
  eapply building_seq; [| |done].
  { apply building_key_block; [exact Hb| |].
    - intros. by apply partial_facts_insert.
    - intros st2 Hb2. by apply building_getConsistencyName. }
  clear st1 Hb. intros _ st1 Hb. simpl in Hb.
  set (T := ifUndefined3 _ _ _).
  apply wp_bind.
  eapply (building_update_object _ _ _ _ _
            (λ o m, partial_facts c (Some R) o m ∧ Options.readTimeout o = T));
    [exact Hb|done| |].
  { intros o m (? & ? & ? & ? & ? & ?). by split_and!. }
  clear st1 Hb. intros st1 Hb.
  eapply (building_seq st lo p (λ o m, (c → default_facts o m) ∧ Options.retry o = R));
    [| |done]; cycle 1.
  { intros _ st2 Hb2. apply wp_ret. by exists p. }
  apply wp_when.
  - intros Hpos. destruct T as [| |t] eqn:HT; try done. simpl in Hpos.
    eapply building_set_key; [exact Hb| |done].
    intros o m ((? & ? & Hl & Hs & ? & Hr) & Ht). split; [intros Hc|by apply Hr].
    unfold default_facts. rewrite Ht, Hpos. split_and!; try done.
    + rewrite lookup_insert. by case_decide.
    + rewrite lookup_insert. by case_decide.
    + by rewrite lookup_insert_eq.
  - intros Hpos. eapply building_weaken; [exact Hb|].
    intros o m ((? & ? & Hl & Hs & Hnone & Hr) & Ht). split; [intros Hc|by apply Hr].
    unfold default_facts. rewrite Ht. split_and!; try done.
    destruct T as [| |t]; auto. simpl in Hpos. rewrite Hpos. auto.
Qed.
End Defaults.

(** ** [getDefaultGraphOptions] *)

Section GetDefaults.
Variable consistencies : list (string * Z).
Variable proxyExecuteKey : string.
Hypothesis proxy_key_distinct : proxyExecuteKey ∉ graph_keys.

Lemma frame_error_post st st' :
  frame consistencies st st' → error_post consistencies st st'.
Proof.
  intros Hf. pose proof Hf as (? & ? & Hc). split_and!; try done.
  - by rewrite Hc.
  - by apply cache_ok_frame with consistencies.
Qed.

Lemma error_post_trans st0 st1 st2 :
  error_post consistencies st0 st1 → error_post consistencies st1 st2 →
  error_post consistencies st0 st2.
Proof.
  intros (? & ? & ? & ?) (? & ? & ? & ?). split_and!.
  - by eapply extends_trans.
  - by eapply names_step_trans.
  - by etrans.
  - auto.
Qed.

Lemma getDefaultGraphOptions_spec profileManager baseOptions defaultRetryPolicy profile st :
  cache_ok st →
  wp (getDefaultGraphOptions consistencies proxyExecuteKey profileManager baseOptions
        defaultRetryPolicy profile)
     (λ d st', defaults_post consistencies profileManager baseOptions
                 defaultRetryPolicy profile st d st')
     (thrown consistencies st) st.
Proof.
  intros Hok. unfold getDefaultGraphOptions, getOrCreateGraphOptions.
  apply wp_bind, wp_gets.
  destruct (graphOptionsCache st !! Profile.name profile) as [d|] eqn:Hd.
  - apply wp_ret. unfold defaults_post. rewrite Hd.
    split_and!; try done. apply names_step_refl.
  - eapply wp_seq; [by apply createDefaultOptions_spec| |done].
    intros d st1 [p (Hf & Hlo & Hlp & Hown)]. simpl.
    apply wp_bind, wp_modify, wp_ret.
    pose proof Hf as (Hext & Hn & Hc).
    assert (owns d p (λ o m, default_facts o m ∧
              Options.retry o = resolved_retry profileManager baseOptions
                                  defaultRetryPolicy profile)
              (set_graphOptionsCache
                 (<[Profile.name profile := d]> (graphOptionsCache st1)) st1)) as Hown'.
    { destruct Hown as (o & m & ? & ? & ? & Hfacts & ?). exists o, m.
      split_and!; auto. }
    unfold defaults_post. rewrite Hd. split_and!; try done.
    + intros name d' Hd'. simpl in Hd'. rewrite lookup_insert in Hd'.
      case_decide; simplify_eq.
      * exists p. destruct Hown' as (o & m & ? & ? & ? & ? & ?). by exists o, m.
      * rewrite Hc in Hd'. destruct (Hok name d' Hd') as [p' Hp']. exists p'.
        apply (extends_owns st); [done|done].
    + simpl. by rewrite lookup_insert_eq.
    + simpl. by rewrite Hc.
    + by exists p.
Qed.
End GetDefaults.

(** ** [setPayloadKey] on a payload under construction *)

Section PayloadKeys.
Variable consistencies : list (string * Z).

Lemma building_setPayloadKey {A : Type} st0 lo p o' (S : Payload → Prop)
    d dobj pd md key (value : js A) (converter : A → M Buffer) (enc : A → Buffer) st :
  building consistencies st0 lo p (λ o m, o = o' ∧ S m) st →
  objects st0 !! d = Some dobj → Options.customPayload dobj = val pd →
  payloads st0 !! pd = Some md →
  (∀ v s, converter v s = (inr (enc v), s)) →
  wp (setPayloadKey lo d key value converter)
     (λ _ st', building consistencies st0 lo p
                 (λ o m, o = o' ∧ ∃ m0, S m0 ∧ m = payloadKey md key value enc m0) st')
     (thrown consistencies st0) st.
Proof.
  intros Hb Hd Hcp Hmd Hconv. unfold setPayloadKey.
  destruct value as [| |v].
  - pose proof Hb as (Hf & _). destruct Hf as (Hext & _).
    apply wp_bind. unfold get_customPayload_key, get_field.
    apply wp_bind, wp_bind, wp_read_object.
    2:{ intros Hnone. by rewrite (extends_object _ _ _ _ Hext Hd) in Hnone. }
    intros o Ho. rewrite (extends_object _ _ _ _ Hext Hd) in Ho. injection Ho as <-.
    apply wp_ret. rewrite Hcp. apply wp_bind, wp_read_payload.
    2:{ intros Hnone. by rewrite (extends_payload _ _ _ _ Hext Hmd) in Hnone. }
    intros m Hm. rewrite (extends_payload _ _ _ _ Hext Hmd) in Hm. injection Hm as <-.
    apply wp_ret. simpl. destruct (md !! key) as [b|] eqn:Hkey.
    + eapply building_set_key; [exact Hb| |done].
      intros o m0 [-> ?]. split; [done|]. exists m0. unfold payloadKey. by rewrite ?Hkey.
    + apply wp_ret. eapply building_weaken; [exact Hb|].
      intros o m0 [-> ?]. split; [done|]. exists m0. unfold payloadKey. by rewrite ?Hkey.
  - apply wp_ret. eapply building_weaken; [exact Hb|].
    intros o m0 [-> ?]. split; [done|]. by exists m0.
  - apply wp_bind. unfold wp at 1. rewrite Hconv.
    eapply building_set_key; [exact Hb| |done].
    intros o m0 [-> ?]. split; [done|]. by exists m0.
Qed.

Lemma stringConverter_run v s :
  stringConverter v s = (inr (list_byte_of_string v), s).
Proof. done. Qed.

Lemma longConverter_run v s : longConverter v s = (inr (longBuffer v), s).
Proof. done. Qed.

End PayloadKeys.

(** ** [createQueryOptions] with the options of a known profile *)

Section Query.
Variable consistencies : list (string * Z).
Variable proxyExecuteKey : string.
Hypothesis proxy_key_distinct : proxyExecuteKey ∉ graph_keys.

Lemma wp_extend_fresh tgt s user ou (Q : loc → State → Prop) E :
  objects s !! user = Some ou →
  Q (length (objects s)) (set_objects (objects s ++ [extend_record tgt ou]) s) →
  wp (extend (length (objects s)) user) Q E (set_objects (objects s ++ [tgt]) s).
Proof.
  intros Hu HQ. unfold extend.
  assert (objects (set_objects (objects s ++ [tgt]) s) !! user = Some ou) as Hu'.
  { cbn [objects set_objects]. by apply lookup_app_l_Some. }
  assert (objects (set_objects (objects s ++ [tgt]) s) !! length (objects s) = Some tgt)
    as Ht.
  { cbn [objects set_objects]. by apply list_lookup_middle. }
  apply wp_bind, wp_read_object; [|by rewrite Hu'].
  intros o Ho. rewrite Hu' in Ho. injection Ho as <-.
  apply wp_bind. unfold update_object.
  apply wp_bind, wp_read_object; [|by rewrite Ht].
  intros o Ho. rewrite Ht in Ho. injection Ho as <-.
  apply wp_modify, wp_ret.
  unfold set_objects. cbn [objects payloads consistencyNames graphOptionsCache].
  rewrite insert_app_r_alt, Nat.sub_diag by done. exact HQ.
Qed.

Lemma read_field_run {A : Type} l o (f : Options.t → A) s :
  objects s !! l = Some o → get_field l f s = (inr (f o), s).
Proof.
  intros H. unfold get_field, mbind, M_bind, read_object. by rewrite H.
Qed.

Lemma update_object_run l o upd s :
  objects s !! l = Some o →
  update_object l upd s = (inr (), set_objects (<[l := upd o]> (objects s)) s).
Proof.
  intros H. unfold update_object, mbind, M_bind, read_object. by rewrite H.
Qed.

(** [setPayloadKey(options, defaults, key, g(options.field))], and what
    follows it. *)
Lemma building_field_key_then {A B : Type} st0 lo p o' (S : Payload → Prop)
    d dobj pd md key (f : Options.t → js A) (g : js A → js A)
    (converter : A → M Buffer) (enc : A → Buffer) (K : unit → M B) Q E st :
  building consistencies st0 lo p (λ o m, o = o' ∧ S m) st →
  objects st0 !! d = Some dobj → Options.customPayload dobj = val pd →
  payloads st0 !! pd = Some md →
  (∀ v s, converter v s = (inr (enc v), s)) →
  (∀ st', building consistencies st0 lo p
            (λ o m, o = o' ∧ ∃ m0, S m0 ∧ m = payloadKey md key (g (f o')) enc m0) st' →
          wp (K ()) Q E st') →
  (∀ e st', thrown consistencies st0 e st' → E e st') →
  wp (value ← get_field lo f; setPayloadKey lo d key (g value) converter ≫= K) Q E st.
Proof.
  intros Hb Hd Hcp Hmd Hconv HK HE. apply wp_bind.
  eapply building_get_field; [exact Hb|]. intros a Hb1.
  assert (a = f o') as ->.
  { destruct Hb1 as (_ & _ & _ & o & m & _ & _ & _ & [-> _] & <-). done. }
  eapply wp_seq; [by eapply building_setPayloadKey| |exact HE].
  intros [] st' Hb'. by apply HK.
Qed.

Lemma building_consistency_key_then {B : Type} st0 lo p o' (S : Payload → Prop)
    d dobj pd md key (f : Options.t → js Z) (K : unit → M B) Q E st :
  building consistencies st0 lo p (λ o m, o = o' ∧ S m) st →
  objects st0 !! d = Some dobj → Options.customPayload dobj = val pd →
  payloads st0 !! pd = Some md →
  (∀ st', building consistencies st0 lo p
            (λ o m, o = o' ∧ ∃ n m0, name_ok consistencies st0 (f o') n ∧ S m0 ∧
                      m = payloadKey md key n list_byte_of_string m0) st' →
          wp (K ()) Q E st') →
  (∀ e st', thrown consistencies st0 e st' → E e st') →
  wp (value ← get_field lo f;
      n ← getConsistencyName consistencies value;
      setPayloadKey lo d key n stringConverter ≫= K) Q E st.
Proof.
  intros Hb Hd Hcp Hmd HK HE. apply wp_bind.
  eapply building_get_field; [exact Hb|]. intros a Hb1.
  assert (a = f o') as ->.
  { destruct Hb1 as (_ & _ & _ & o & m & _ & _ & _ & [-> _] & <-). done. }
  assert (names_step consistencies st0 st) as Hstep.
  { by destruct Hb as ((_ & ? & _) & _). }
  apply wp_bind, wp_getConsistencyName.
  - intros n st' ? ? ? ? Hname.
    eapply wp_seq;
      [eapply (building_setPayloadKey _ st0 lo p o' S); eauto using stringConverter_run;
       by eapply building_names| |exact HE].
    intros [] st2 Hb2. apply HK. eapply building_weaken; [exact Hb2|].
    intros o m [Ho (m0 & ? & Hm)]. split; [exact Ho|]. exists n, m0.
    split_and!; try done. by eapply name_ok_step.
  - intros e st' ? ? ? ? He. apply HE. split.
    + eapply building_frame, building_names; eauto.
    + by eapply err_ok_step.
Qed.

(** The payload that [createQueryOptions] makes for the merged options
    before it sets the keys: a new empty map, or a new map with the
    entries of the user's. *)
Lemma clone_phase sA sB lo mo :
  frame consistencies sA sB →
  (length (objects sA) ≤ lo)%nat →
  objects sB !! lo = Some mo →
  wp (if negb (js_truthy (Options.customPayload mo))
      then p ← new_payload ∅; update_object lo (Options.set_customPayload (val p))
      else match Options.customPayload mo with
           | val source =>
               target ← new_payload ∅;
               p ← extend_payload target source;
               update_object lo (Options.set_customPayload (val p))
           | _ => mret ()
           end)
     (λ _ s', ∃ m0,
        building consistencies sA lo (length (payloads sB))
          (λ o m, o = Options.set_customPayload (val (length (payloads sB))) mo ∧ m = m0) s' ∧
        match Options.customPayload mo with
        | val pu => ∀ mu, payloads sB !! pu = Some mu → m0 = mu
        | _ => m0 = ∅
        end)
     (thrown consistencies sA) sB.
Proof.
  intros HfB Hlo Hmo.
  assert (∀ m0, building consistencies sA lo (length (payloads sB))
            (λ o m, o = Options.set_customPayload (val (length (payloads sB))) mo ∧ m = m0)
            (set_objects
               (<[lo := Options.set_customPayload (val (length (payloads sB))) mo]>
                  (objects sB))
               (set_payloads (payloads sB ++ [m0]) sB))) as Hfinal.
  { intros m0. pose proof HfB as ((Ho & Hp) & Hn & Hc).
    unfold building, frame, extends, names_step, owns, set_objects, set_payloads in *.
    cbn [objects payloads consistencyNames graphOptionsCache].
    split_and!; [by apply prefix_insert_ge|by apply prefix_app_r|exact Hn|exact Hc|exact Hlo
                |by apply prefix_length|].
    exists (Options.set_customPayload (val (length (payloads sB))) mo), m0.
    split_and!; [|done| |done|done].
    + apply list_lookup_insert_eq. apply (lookup_lt_Some _ _ _ Hmo).
    + by apply list_lookup_middle. }
  destruct (Options.customPayload mo) as [| |pu] eqn:Hcp; simpl.
  - apply wp_bind, wp_new_payload. unfold wp.
    rewrite (update_object_run _ mo); [|done]. exists ∅. split; [apply Hfinal|done].
  - apply wp_bind, wp_new_payload. unfold wp.
    rewrite (update_object_run _ mo); [|done]. exists ∅. split; [apply Hfinal|done].
  - apply wp_bind, wp_new_payload. apply wp_bind. unfold extend_payload.
    apply wp_bind, wp_read_payload.
    2:{ intros _. apply thrown_TypeError. eapply frame_trans; [exact HfB|].
        split; [split; cbn; [done|by apply prefix_app_r]|split; [by left|done]]. }
    intros mu Hmu. cbn [payloads set_payloads] in Hmu.
    apply wp_bind, wp_read_payload.
    2:{ cbn [payloads set_payloads]. by rewrite list_lookup_middle. }
    intros mt Hmt. cbn [payloads set_payloads] in Hmt.
    rewrite list_lookup_middle in Hmt by done. injection Hmt as <-.
    apply wp_bind, wp_modify, wp_ret. unfold wp.
    rewrite (update_object_run _ mo); [|done]. exists mu.
    replace (mu ∪ ∅) with mu by (by rewrite (right_id_L ∅ (∪))).
    split.
    { pose proof (Hfinal mu) as HF. unfold set_objects, set_payloads in *.
      cbn [objects payloads consistencyNames graphOptionsCache] in *.
      rewrite insert_app_r_alt, Nat.sub_diag by done. exact HF. }
    intros mu' Hmu'. apply (lookup_app_l_Some _ [∅]) in Hmu'. congruence.
Qed.

Lemma createQueryOptions_object_spec profileManager baseOptions defaultRetryPolicy
    user ou profile st :
  cache_ok st →
  objects st !! user = Some ou →
  getProfile profileManager (Options.executionProfile ou) = Some profile →
  wp (createQueryOptions consistencies proxyExecuteKey profileManager baseOptions
        defaultRetryPolicy (VObject user))
     (λ r st', error_post consistencies st st' ∧ cache_ok st' ∧
               query_post consistencies proxyExecuteKey profile st ou r st')
     (λ e st', error_post consistencies st st' ∧ err_ok consistencies st e) st.
Proof.
  intros Hok Hu Hprofile. unfold createQueryOptions.
  apply wp_bind. unfold executionProfile_of, wp. rewrite (read_field_run _ _ _ _ Hu).
  rewrite Hprofile.
  eapply wp_seq; [by apply getDefaultGraphOptions_spec|
                 |intros ? ? [? ?]; split; [by apply frame_error_post|done]].
  intros d sA Hpost. cbv beta in Hpost.
  assert (error_post consistencies st sA ∧ cache_ok sA ∧
          graphOptionsCache sA !! Profile.name profile = Some d) as (HeA & HokA & HdA).
  { destruct Hpost as (Hext & Hn & HokA & Hd & Hcase). split; [|done].
    unfold error_post. split_and!; try done.
    destruct (graphOptionsCache st !! Profile.name profile) eqn:Hc.
    - by destruct Hcase as [_ ->].
    - destruct Hcase as [-> _]. by apply insert_subseteq. }
  clear Hpost.
  destruct (HokA _ _ HdA) as (pd & dobj & md & Hdobj & Hdcp & Hmd & Hfacts).
  pose proof HeA as (HextA & _).
  pose proof (extends_object _ _ _ _ HextA Hu) as HuA.
  assert (∀ st', frame consistencies sA st' → error_post consistencies st st') as HE.
  { intros st' Hf. eapply error_post_trans; [exact HeA|by apply frame_error_post]. }
  assert (∀ e st', thrown consistencies sA e st' →
                   error_post consistencies st st' ∧ err_ok consistencies st e) as HT.
  { intros e st' [Hf He]. split; [by apply HE|].
    destruct HeA as (_ & ? & _). by eapply err_ok_step. }
  apply wp_bind, wp_read_object; [|by rewrite HuA].
  intros o Ho. rewrite HuA in Ho. injection Ho as <-.
  apply wp_bind, wp_read_object; [|by rewrite Hdobj].
  intros o Ho. rewrite Hdobj in Ho. injection Ho as <-.
  apply wp_bind, wp_new_object, wp_bind.
  eapply wp_extend_fresh; [exact HuA|].
  fold (target_of dobj). fold (merged_options dobj ou).
  set (lo := length (objects sA)).
  set (sB := set_objects (objects sA ++ [merged_options dobj ou]) sA).
  assert (objects sB !! lo = Some (merged_options dobj ou)) as Hlo.
  { subst sB lo. cbn [objects set_objects]. by apply list_lookup_middle. }
  assert (frame consistencies sA sB) as HfB.
  { subst sB. split; [split; cbn [objects payloads set_objects]; [by apply prefix_app_r|done]|].
    split; [by left|done]. }
  destruct (noGraphPayloadOptions ou) eqn:Hfast.
  - (* the payload of the defaults is reused *)
    pose proof HfB as (HextB & _).
    apply wp_bind. unfold wp at 1.
    rewrite (read_field_run _ _ _ _ (extends_object _ _ _ _ HextB Hdobj)).
    apply wp_bind. unfold wp at 1. rewrite (update_object_run _ _ _ _ Hlo).
    apply wp_ret.
    set (sC := set_objects _ sB).
    assert (frame consistencies sA sC) as HfC.
    { subst sC sB. unfold set_objects.
      cbn [objects payloads consistencyNames graphOptionsCache].
      split; [split; cbn [objects payloads]; [|done]|split; [by left|done]].
      apply prefix_insert_ge; [by apply prefix_app_r|done]. }
    pose proof HfC as (HextC & _ & HcC).
    split; [by apply HE|]. split; [by eapply cache_ok_frame|].
    exists d, dobj, pd, md, lo, pd, md. rewrite Hfast.
    split_and!;
      [done | by rewrite HcC | by eapply extends_object | done
      | by eapply extends_payload | done | | by eapply extends_payload | | done].
    + subst sC. cbn [objects set_objects]. rewrite Hdcp.
      apply list_lookup_insert_eq. by eapply lookup_lt_Some.
    + subst lo. destruct HextA as [Hp _]. by apply prefix_length.
  - (* the payload is rebuilt *)
    apply wp_bind. unfold wp at 1. rewrite (read_field_run _ _ _ _ Hlo).
    eapply wp_seq;
      [apply (clone_phase sA sB lo (merged_options dobj ou)); [exact HfB|done|exact Hlo]
      | |exact HT].
    intros [] sC (m0 & Hb & Hm0).
    set (p' := length (payloads sB)) in *.
    set (o' := Options.set_customPayload (val p') (merged_options dobj ou)) in *.
    eapply (building_field_key_then sA lo p' o' _ d dobj pd md proxyExecuteKey
              Options.executeAs (λ v, v) stringConverter list_byte_of_string);
      [exact Hb|exact Hdobj|exact Hdcp|exact Hmd|apply stringConverter_run|
      |exact HT].
    clear sC Hb. intros sC Hb.
    eapply (building_field_key_then sA lo p' o' _ d dobj pd md "graph-language"
              Options.graphLanguage (λ v, v) stringConverter list_byte_of_string);
      [exact Hb|exact Hdobj|exact Hdcp|exact Hmd|apply stringConverter_run|
      |exact HT].
    clear sC Hb. intros sC Hb.
    eapply (building_field_key_then sA lo p' o' _ d dobj pd md "graph-source"
              Options.graphSource (λ v, v) stringConverter list_byte_of_string);
      [exact Hb|exact Hdobj|exact Hdcp|exact Hmd|apply stringConverter_run|
      |exact HT].
    clear sC Hb. intros sC Hb.
    eapply (building_field_key_then sA lo p' o' _ d dobj pd md "graph-name"
              Options.graphName (λ v, v) stringConverter list_byte_of_string);
      [exact Hb|exact Hdobj|exact Hdcp|exact Hmd|apply stringConverter_run|
      |exact HT].
    clear sC Hb. intros sC Hb.
    eapply (building_consistency_key_then sA lo p' o' _ d dobj pd md
              "graph-read-consistency" Options.graphReadConsistency);
      [exact Hb|exact Hdobj|exact Hdcp|exact Hmd| |exact HT].
    clear sC Hb. intros sC Hb.
    eapply (building_consistency_key_then sA lo p' o' _ d dobj pd md
              "graph-write-consistency" Options.graphWriteConsistency);
      [exact Hb|exact Hdobj|exact Hdcp|exact Hmd| |exact HT].
    clear sC Hb. intros sC Hb.
    eapply (building_field_key_then sA lo p' o' _ d dobj pd md "request-timeout"
              Options.readTimeout (λ v, if js_positive v then v else null)
              longConverter longBuffer);
      [exact Hb|exact Hdobj|exact Hdcp|exact Hmd|apply longConverter_run|
      |exact HT].
    clear sC Hb. intros sC Hb. apply wp_ret.
    pose proof Hb as (HfC & HloC & HpC & o & m' & Ho & Hocp & Hm' & -> & HS).
    pose proof HfC as (HextC & _ & HcC).
    split; [by apply HE|]. split; [by eapply cache_ok_frame|].
    exists d, dobj, pd, md, lo, p', m'. rewrite Hfast.
    split_and!;
      [done | by rewrite HcC | by eapply extends_object | done
      | by eapply extends_payload | done | done | done | | |].
    + subst lo. destruct HextA as [Hp _]. by apply prefix_length.
    + subst p' sB. cbn [payloads set_objects]. destruct HextA as [_ Hp].
      by apply prefix_length.
    + destruct HS as (m6 & (wn & m5 & Hwn & (rn & m4 & Hrn & (m3 & (m2 & (m1 & (mi & -> & ->)
                        & ->) & ->) & ->) & ->) & ->) & ->).
      assert (names_step consistencies st sA) as Hstep by (by destruct HeA as (_ & ? & _)).
      exists rn, wn, m0.
      split; [by eapply name_ok_step|]. split; [by eapply name_ok_step|].
      split; [|done].
      unfold merged_options, extend_record, target_of in Hm0. simpl in Hm0.
      destruct (Options.customPayload ou) as [| |pu]; simpl in Hm0; try done.
      intros mu Hmu. apply Hm0. subst sB. cbn [payloads set_objects].
      by eapply extends_payload.
Qed.
End Query.

(** ** The table of consistency names *)

Section Registry.
Variable consistencies : list (string * Z).
Hypothesis keys_distinct : NoDup consistencies.*1.
Hypothesis codes_distinct : NoDup consistencies.*2.

Lemma consistencies_get_elem name code :
  consistencies_get consistencies name = Some code → (name, code) ∈ consistencies.
Proof.
  unfold consistencies_get. destruct (find _ _) as [[n c]|] eqn:Hfind; [|done].
  intros [= <-]. apply find_some in Hfind as [Hin Heq]. simpl in Heq.
  apply String.eqb_eq in Heq as ->. by apply list_elem_of_In.
Qed.

Lemma elem_consistencies_get name code :
  (name, code) ∈ consistencies → consistencies_get consistencies name = Some code.
Proof.
  unfold consistencies_get. revert keys_distinct. clear codes_distinct.
  induction consistencies as [|[n c] l IH]; intros Hnd Hin; [by apply elem_of_nil in Hin|].
  apply NoDup_cons in Hnd as [Hn Hnd]. simpl.
  destruct (String.eqb n name) eqn:Heq.
  - apply String.eqb_eq in Heq as ->.
    apply elem_of_cons in Hin as [Heq|Hin]; [by simplify_eq|].
    exfalso. apply Hn. apply list_elem_of_fmap. by exists (name, code).
  - apply elem_of_cons in Hin as [Heq'|Hin];
      [simplify_eq; by rewrite String.eqb_refl in Heq|].
    by apply IH.
Qed.

Lemma consistencies_code_inj name name' code :
  (name, code) ∈ consistencies → (name', code) ∈ consistencies → name = name'.
Proof.
  revert codes_distinct. clear keys_distinct.
  induction consistencies as [|[n c] l IH]; intros Hnd Hin Hin';
    [by apply elem_of_nil in Hin|].
  apply NoDup_cons in Hnd as [Hc Hnd].
  apply elem_of_cons in Hin as [Heq|Hin];
    apply elem_of_cons in Hin' as [Heq'|Hin']; simplify_eq; try done.
  - exfalso. apply Hc. apply list_elem_of_fmap. by exists (name', c).
  - exfalso. apply Hc. apply list_elem_of_fmap. by exists (name, c).
  - by apply IH.
Qed.

(** A key of the table other than the code of [name]. *)
Lemma other_key name name' code :
  (name, code) ∈ consistencies → name' ≠ name →
  consistencies_get consistencies name' ≠ Some code.
Proof.
  intros Hin Hne Hget. apply consistencies_get_elem in Hget.
  apply Hne. by eapply consistencies_code_inj.
Qed.

Lemma fold_names_other (names : list string) (table : gmap (option Z) string) key :
  (∀ n, n ∈ names → consistencies_get consistencies n ≠ key) →
  fold_left (λ names name, <[consistencies_get consistencies name := toUpperCase name]> names)
            names table !! key = table !! key.
Proof.
  revert table. induction names as [|n names IH]; intros table Hne; [done|].
  simpl. rewrite IH.
  - apply lookup_insert_ne, Hne. apply elem_of_cons. by left.
  - intros n' Hn'. apply Hne. apply elem_of_cons. by right.
Qed.

Lemma fold_names_lookup (names : list string) (table : gmap (option Z) string) name code :
  (name, code) ∈ consistencies → name ∈ names →
  fold_left (λ names name, <[consistencies_get consistencies name := toUpperCase name]> names)
            names table !! Some code = Some (toUpperCase name).
Proof.
  intros Hin. revert table. induction names as [|n names IH]; intros table Hname;
    [by apply elem_of_nil in Hname|].
  simpl. destruct (decide (name ∈ names)) as [Hrest|Hrest]; [by apply IH|].
  apply elem_of_cons in Hname as [<-|Hname]; [|done].
  rewrite fold_names_other.
  - rewrite (elem_consistencies_get _ _ Hin). apply lookup_insert_eq.
  - intros n' Hn'. apply (other_key name); [done|]. by intros ->.
Qed.

Lemma built_lookup name code :
  (name, code) ∈ consistencies →
  builtConsistencyNames consistencies !! Some code = Some (canonical_name name).
Proof.
  intros Hin. unfold builtConsistencyNames, canonical_name.
  pose proof (elem_consistencies_get _ _ Hin) as Hget.
  destruct (String.eqb name "localOne") eqn:E1.
  { apply String.eqb_eq in E1 as ->. rewrite Hget. apply lookup_insert_eq. }
  apply String.eqb_neq in E1.
  rewrite lookup_insert_ne by (apply (other_key name); [done|by intros <-]).
  destruct (String.eqb name "localSerial") eqn:E2.
  { apply String.eqb_eq in E2 as ->. rewrite Hget. apply lookup_insert_eq. }
  apply String.eqb_neq in E2.
  rewrite lookup_insert_ne by (apply (other_key name); [done|by intros <-]).
  destruct (String.eqb name "eachQuorum") eqn:E3.
  { apply String.eqb_eq in E3 as ->. rewrite Hget. apply lookup_insert_eq. }
  apply String.eqb_neq in E3.
  rewrite lookup_insert_ne by (apply (other_key name); [done|by intros <-]).
  destruct (String.eqb name "localQuorum") eqn:E4.
  { apply String.eqb_eq in E4 as ->. rewrite Hget. apply lookup_insert_eq. }
  apply String.eqb_neq in E4.
  rewrite lookup_insert_ne by (apply (other_key name); [done|by intros <-]).
  apply fold_names_lookup; [done|].
  apply list_elem_of_fmap. by exists (name, code).
Qed.

Lemma canonical_name_truthy name : name ≠ "" → truthy (canonical_name name) = true.
Proof.
  intros Hne. unfold canonical_name.
  repeat (match goal with |- context [if ?b then _ else _] => destruct b end; [done|]).
  by destruct name.
Qed.
End Registry.

Section NameOf.
Variable consistencies : list (string * Z).

(** [getConsistencyName] on a code, from a state whose table is not built
    or is the built one. *)
Lemma getConsistencyName_run code st :
  registry_ok consistencies st →
  getConsistencyName consistencies (val code) st =
    (match builtConsistencyNames consistencies !! Some code with
     | Some name => if truthy name then inr (val name)
                    else inl (UnknownConsistencyLevel code)
     | None => inl (UnknownConsistencyLevel code)
     end,
     set_consistencyNames (builtConsistencyNames consistencies) st).
Proof.
  intros Hreg. unfold getConsistencyName.
  unfold mbind at 1, M_bind. rewrite loadConsistencyNames_run.
  assert ((match consistencyNames st with
           | Some _ => st
           | None => set_consistencyNames (builtConsistencyNames consistencies) st
           end) = set_consistencyNames (builtConsistencyNames consistencies) st) as ->.
  { destruct st as [names os ps c]. destruct Hreg as [Hn|Hn]; simpl in *; by rewrite Hn. }
  unfold mbind, M_bind, gets. simpl.
  destruct (builtConsistencyNames consistencies !! Some code) as [name|]; [|done].
  by destruct (truthy name).
Qed.
End NameOf.

(** ** The 64-bit encoding of the read timeout *)

Lemma Z_of_byte_of_Z z : Z_of_byte (byte_of_Z z) = z mod 256.
Proof.
  unfold Z_of_byte, byte_of_Z.
  assert (0 ≤ z mod 256 < 256) as Hr by (apply Z.mod_pos_bound; lia).
  destruct (Byte.of_N (Z.to_N (z mod 256))) as [b|] eqn:E; simpl.
  - rewrite (Byte.to_of_N _ E). lia.
  - apply Byte.of_N_None_iff in E. lia.
Qed.

Lemma base256_digits v :
  0 ≤ v < 2 ^ 64 →
  (((((((v / 2 ^ 56) mod 256 * 256 + (v / 2 ^ 48) mod 256) * 256 +
        (v / 2 ^ 40) mod 256) * 256 + (v / 2 ^ 32) mod 256) * 256 +
      (v / 2 ^ 24) mod 256) * 256 + (v / 2 ^ 16) mod 256) * 256 +
    (v / 2 ^ 8) mod 256) * 256 + v mod 256 = v.
Proof.
  intros Hv.
  change (2 ^ 56) with 72057594037927936. change (2 ^ 48) with 281474976710656.
  change (2 ^ 40) with 1099511627776. change (2 ^ 32) with 4294967296.
  change (2 ^ 24) with 16777216. change (2 ^ 16) with 65536. change (2 ^ 8) with 256.
  change (2 ^ 64) with 18446744073709551616 in Hv.
  Z.div_mod_to_equations. lia.
Qed.

Lemma Long_fromBuffer_toBuffer v :
  0 ≤ v < 2 ^ 64 →
  Long_fromBuffer (Long_toBuffer v) = if v <? 2 ^ 63 then v else v - 2 ^ 64.
Proof.
  intros Hv. unfold Long_fromBuffer, Long_toBuffer. cbn [fmap list_fmap fold_left].
  rewrite !Z_of_byte_of_Z, !Z.shiftr_div_pow2 by lia.
  change (8 * 7) with 56. change (8 * 6) with 48. change (8 * 5) with 40.
  change (8 * 4) with 32. change (8 * 3) with 24. change (8 * 2) with 16.
  change (8 * 1) with 8. change (8 * 0) with 0.
  change (2 ^ 0) with 1. rewrite Z.div_1_r. simpl (0 * 256).
  rewrite Z.add_0_l. by rewrite base256_digits.
Qed.

Lemma longBuffer_roundtrip value :
  - 2 ^ 63 ≤ value < 2 ^ 63 → Long_fromBuffer (longBuffer value) = value.
Proof.
  intros Hv. unfold longBuffer, Long_fromNumber.
  assert (0 ≤ value mod 2 ^ 64 < 2 ^ 64) as Hm by (apply Z.mod_pos_bound; lia).
  rewrite Long_fromBuffer_toBuffer by done.
  destruct (Z.ltb_spec (value mod 2 ^ 64) (2 ^ 63)) as [Hlt|Hge].
  - destruct (Z.le_gt_cases 0 value) as [Hpos|Hneg].
    + apply Z.mod_small. lia.
    + exfalso. rewrite <- (Z.mod_add value 1 (2 ^ 64)) in Hlt by lia.
      rewrite Z.mod_small in Hlt by lia. lia.
  - destruct (Z.le_gt_cases 0 value) as [Hpos|Hneg].
    + exfalso. rewrite Z.mod_small in Hge by lia. lia.
    + rewrite <- (Z.mod_add value 1 (2 ^ 64)) by lia.
      rewrite Z.mod_small by lia. lia.
Qed.

(** ** The rebuilt payload, key by key *)

Lemma payloadKey_other {A : Type} md k (value : js A) enc m key :
  k ≠ key → payloadKey md k value enc m !! key = m !! key.
Proof.
  intros Hne. unfold payloadKey. destruct value; [|done|by rewrite lookup_insert_ne].
  destruct (md !! k); [by rewrite lookup_insert_ne|done].
Qed.

Lemma payloadKey_null {A : Type} md k (enc : A → Buffer) m :
  payloadKey md k null enc m = m.
Proof. done. Qed.

Lemma payloadKey_val {A : Type} md k (v : A) enc m :
  payloadKey md k (val v) enc m !! k = Some (enc v).
Proof. apply lookup_insert_eq. Qed.

Lemma payloadKey_is_Some {A : Type} md k (value : js A) enc m key :
  is_Some (m !! key) → is_Some (payloadKey md k value enc m !! key).
Proof.
  intros Hm. unfold payloadKey. destruct value; [|done|].
  - destruct (md !! k); [|done]. rewrite lookup_insert. by case_decide.
  - rewrite lookup_insert. by case_decide.
Qed.

Section Rebuilt.
Variable proxyExecuteKey : string.
Hypothesis proxy_key_distinct : proxyExecuteKey ∉ graph_keys.

Lemma proxy_key_other key : key ∈ graph_keys → proxyExecuteKey ≠ key.
Proof. by intros Hkey ->. Qed.

(** A key suppressed with [null] is in the rebuilt payload only if the
    map one started from has it. *)
Lemma rebuilt_suppressed md o rn wn m0 (f : GraphField) :
  f = GraphName ∨ f = GraphLanguage ∨ f = GraphSource →
  field_null f o →
  rebuilt_payload proxyExecuteKey md o rn wn m0 !! wire_key f = m0 !! wire_key f.
Proof.
  intros Hf Hnull. unfold rebuilt_payload.
  assert (proxyExecuteKey ≠ wire_key f) as Hproxy.
  { apply proxy_key_other. apply list_elem_of_In. destruct f; simpl; tauto. }
  destruct Hf as [->|[->| ->]]; simpl in *; rewrite Hnull;
    rewrite ?payloadKey_null, ?payloadKey_other; done.
Qed.

Lemma rebuilt_timeout md o rn wn m0 :
  rebuilt_payload proxyExecuteKey md o rn wn m0 !! "request-timeout" =
    match Options.readTimeout o with
    | val t => if 0 <? t then Some (longBuffer t) else m0 !! "request-timeout"
    | _ => m0 !! "request-timeout"
    end.
Proof.
  unfold rebuilt_payload.
  assert (proxyExecuteKey ≠ "request-timeout") as Hproxy.
  { apply proxy_key_other. apply list_elem_of_In. simpl. tauto. }
  destruct (Options.readTimeout o) as [| |t]; simpl;
    [| |destruct (0 <? t); [apply payloadKey_val|]];
    rewrite ?payloadKey_null, ?payloadKey_other; done.
Qed.

Lemma rebuilt_language md o rn wn m0 :
  Options.graphLanguage o ≠ null →
  (Options.graphLanguage o = undefined → is_Some (md !! "graph-language")) →
  is_Some (rebuilt_payload proxyExecuteKey md o rn wn m0 !! "graph-language").
Proof.
  intros Hnull Hmd. unfold rebuilt_payload.
  do 5 apply payloadKey_is_Some.
  destruct (Options.graphLanguage o) as [| |s]; [|done|by rewrite payloadKey_val].
  unfold payloadKey at 1. destruct (Hmd eq_refl) as [b ->]. by rewrite lookup_insert_eq.
Qed.

Lemma rebuilt_source md o rn wn m0 :
  Options.graphSource o ≠ null →
  (Options.graphSource o = undefined → is_Some (md !! "graph-source")) →
  is_Some (rebuilt_payload proxyExecuteKey md o rn wn m0 !! "graph-source").
Proof.
  intros Hnull Hmd. unfold rebuilt_payload.
  do 4 apply payloadKey_is_Some.
  destruct (Options.graphSource o) as [| |s]; [|done|by rewrite payloadKey_val].
  unfold payloadKey at 1. destruct (Hmd eq_refl) as [b ->]. by rewrite lookup_insert_eq.
Qed.
End Rebuilt.

(** ** Runs that cannot throw *)

Lemma wp_run {A : Type} (m : M A) (x : A) (st st' : State) :
  wp m (λ a s, a = x ∧ s = st') (λ _ _, False) st → m st = (inr x, st').
Proof.
  unfold wp. destruct (m st) as [[e|a] s]; [done|]. by intros [-> ->].
Qed.

Lemma run_wp {A : Type} (m : M A) Q E (x : A) (st st' : State) :
  wp m Q E st → m st = (inr x, st') → Q x st'.
Proof. unfold wp. intros H Heq. by rewrite Heq in H. Qed.

Lemma throw_wp {A : Type} (m : M A) Q E e (st st' : State) :
  wp m Q E st → m st = (inl e, st') → E e st'.
Proof. unfold wp. intros H Heq. by rewrite Heq in H. Qed.

Lemma no_graph_fields_fast o : no_graph_fields o → noGraphPayloadOptions o = true.
Proof.
  intros (H1 & H2 & H3 & H4 & H5 & H6 & H7 & H8). unfold noGraphPayloadOptions.
  by rewrite H1, H2, H3, H4, H5, H6, H7, H8.
Qed.

Section Calls.
Variable consistencies : list (string * Z).
Variable proxyExecuteKey : string.

(** A second call for the options of a profile whose defaults are cached,
    with nothing that changes the payload: a new object with the merged
    options and the payload of the defaults; no payload is made or
    changed. *)
Lemma createQueryOptions_hit_fast profileManager baseOptions defaultRetryPolicy
    user ou profile d dobj st :
  objects st !! user = Some ou →
  getProfile profileManager (Options.executionProfile ou) = Some profile →
  graphOptionsCache st !! Profile.name profile = Some d →
  objects st !! d = Some dobj →
  noGraphPayloadOptions ou = true →
  createQueryOptions consistencies proxyExecuteKey profileManager baseOptions
    defaultRetryPolicy (VObject user) st =
    (inr (VObject (length (objects st))),
     set_objects (objects st ++
                    [Options.set_customPayload (Options.customPayload dobj)
                       (merged_options dobj ou)]) st).
Proof.
  intros Hu Hprofile Hd Hdobj Hfast. apply wp_run. unfold createQueryOptions.
  apply wp_bind. unfold executionProfile_of, wp at 1. rewrite (read_field_run _ _ _ _ Hu).
  rewrite Hprofile. apply wp_bind.
  unfold getDefaultGraphOptions, getOrCreateGraphOptions.
  apply wp_bind, wp_gets. rewrite Hd. apply wp_ret.
  apply wp_bind, wp_read_object; [|by rewrite Hu].
  intros o Ho. rewrite Hu in Ho. injection Ho as <-.
  apply wp_bind, wp_read_object; [|by rewrite Hdobj].
  intros o Ho. rewrite Hdobj in Ho. injection Ho as <-.
  apply wp_bind, wp_new_object, wp_bind.
  eapply wp_extend_fresh; [exact Hu|].
  fold (target_of dobj). fold (merged_options dobj ou). rewrite Hfast.
  set (sB := set_objects (objects st ++ [merged_options dobj ou]) st).
  assert (objects sB !! d = Some dobj) as HdB.
  { subst sB. cbn [objects set_objects]. by apply lookup_app_l_Some. }
  assert (objects sB !! length (objects st) = Some (merged_options dobj ou)) as Hlo.
  { subst sB. cbn [objects set_objects]. by apply list_lookup_middle. }
  apply wp_bind. unfold wp at 1. rewrite (read_field_run _ _ _ _ HdB).
  apply wp_bind. unfold wp at 1. rewrite (update_object_run _ _ _ _ Hlo).
  apply wp_ret. split; [done|]. subst sB. unfold set_objects.
  cbn [objects payloads consistencyNames graphOptionsCache].
  by rewrite insert_app_r_alt, Nat.sub_diag.
Qed.
End Calls.

(** ** What no call changes *)

Section Grows.
Variable consistencies : list (string * Z).
Variable proxyExecuteKey : string.

Lemma grows_refl st : grows consistencies st st.
Proof. split; [apply extends_refl|]. split; [apply names_step_refl|done]. Qed.

Lemma grows_trans st0 st1 st2 :
  grows consistencies st0 st1 → grows consistencies st1 st2 →
  grows consistencies st0 st2.
Proof.
  intros (? & ? & ?) (? & ? & ?). split; [by eapply extends_trans|].
  split; [by eapply names_step_trans|by etrans].
Qed.

Lemma frame_grows st st' : frame consistencies st st' → grows consistencies st st'.
Proof. intros (? & ? & Hc). split; [done|]. split; [done|by rewrite Hc]. Qed.

(** [getDefaultGraphOptions] returns what the slot of the profile holds
    afterwards; on a hit it changes nothing. *)
Lemma getDefaultGraphOptions_grows profileManager baseOptions defaultRetryPolicy profile st :
  wp (getDefaultGraphOptions consistencies proxyExecuteKey profileManager baseOptions
        defaultRetryPolicy profile)
     (λ d st', grows consistencies st st' ∧
               graphOptionsCache st' !! Profile.name profile = Some d ∧
               (∀ d0, graphOptionsCache st !! Profile.name profile = Some d0 →
                      d = d0 ∧ st' = st))
     (λ _ st', grows consistencies st st') st.
Proof.
  unfold getDefaultGraphOptions, getOrCreateGraphOptions.
  apply wp_bind, wp_gets.
  destruct (graphOptionsCache st !! Profile.name profile) as [d|] eqn:Hd.
  - apply wp_ret. split; [apply grows_refl|]. split; [done|]. by intros ? [= <-].
  - eapply wp_seq; [by apply createDefaultOptions_spec| |].
    + intros d st1 [p (Hf & _)]. simpl. apply wp_bind, wp_modify, wp_ret.
      destruct Hf as (? & ? & Hc).
      cbn [graphOptionsCache set_graphOptionsCache].
      split; [|split; [by rewrite lookup_insert_eq|done]].
      split; [done|]. split; [done|].
      cbn [graphOptionsCache set_graphOptionsCache]. rewrite Hc.
      by apply insert_subseteq.
    + intros e st1 [Hf _]. by apply frame_grows.
Qed.

(** [setPayloadKey] on the payload of a new object, whatever the
    defaults are. *)
Lemma building_setPayloadKey_any {A : Type} st0 lo p d key (value : js A)
    (converter : A → M Buffer) (enc : A → Buffer) st :
  (∀ v s, converter v s = (inr (enc v), s)) →
  building consistencies st0 lo p (λ _ _, True) st →
  wp (setPayloadKey lo d key value converter)
     (λ _ st', building consistencies st0 lo p (λ _ _, True) st')
     (thrown consistencies st0) st.
Proof.
  intros Hconv Hb. pose proof (building_frame _ _ _ _ _ _ Hb) as Hf.
  unfold setPayloadKey. destruct value as [| |v].
  - apply wp_bind. unfold get_customPayload_key, get_field.
    apply wp_bind, wp_bind, wp_read_object; [|intros _; by apply thrown_TypeError].
    intros o _. apply wp_ret.
    destruct (Options.customPayload o);
      [by apply wp_throw, thrown_TypeError|by apply wp_throw, thrown_TypeError|].
    apply wp_bind, wp_read_payload; [|intros _; by apply thrown_TypeError].
    intros m _. apply wp_ret. simpl.
    destruct (m !! key); [|by apply wp_ret].
    eapply (building_set_key _ _ _ _ _ (λ _ _, True)); [exact Hb|done|done].
  - by apply wp_ret.
  - apply wp_bind. unfold wp at 1. rewrite Hconv.
    eapply (building_set_key _ _ _ _ _ (λ _ _, True)); [exact Hb|done|done].
Qed.

Lemma building_field_key_any_then {A B : Type} st0 lo p d key
    (f : Options.t → js A) (g : js A → js A)
    (converter : A → M Buffer) (enc : A → Buffer) (K : unit → M B) Q E st :
  (∀ v s, converter v s = (inr (enc v), s)) →
  building consistencies st0 lo p (λ _ _, True) st →
  (∀ st', building consistencies st0 lo p (λ _ _, True) st' → wp (K ()) Q E st') →
  (∀ e st', thrown consistencies st0 e st' → E e st') →
  wp (value ← get_field lo f; setPayloadKey lo d key (g value) converter ≫= K) Q E st.
Proof.
  intros Hconv Hb HK HE. apply wp_bind.
  eapply building_get_field; [exact Hb|]. intros a _.
  eapply wp_seq; [eapply building_setPayloadKey_any; [exact Hconv|exact Hb]| |exact HE].
  intros [] st' Hb'. by apply HK.
Qed.

Lemma building_consistency_key_any_then {B : Type} st0 lo p d key
    (f : Options.t → js Z) (K : unit → M B) Q E st :
  building consistencies st0 lo p (λ _ _, True) st →
  (∀ st', building consistencies st0 lo p (λ _ _, True) st' → wp (K ()) Q E st') →
  (∀ e st', thrown consistencies st0 e st' → E e st') →
  wp (value ← get_field lo f;
      n ← getConsistencyName consistencies value;
      setPayloadKey lo d key n stringConverter ≫= K) Q E st.
Proof.
  intros Hb HK HE. apply wp_bind.
  eapply building_get_field; [exact Hb|]. intros a _.
  eapply wp_seq; [by apply building_getConsistencyName| |exact HE].
  intros n st1 Hb1.
  eapply wp_seq;
    [eapply building_setPayloadKey_any; [apply stringConverter_run|exact Hb1]| |exact HE].
  intros [] st' Hb'. by apply HK.
Qed.

Lemma createQueryOptions_grows profileManager baseOptions defaultRetryPolicy options st :
  wp (createQueryOptions consistencies proxyExecuteKey profileManager baseOptions
        defaultRetryPolicy options)
     (λ _ st', grows consistencies st st')
     (λ _ st', grows consistencies st st') st.
Proof.
  unfold createQueryOptions.
  eapply (wp_seq _ _ (λ _ st', st' = st) (λ _ st', st' = st)).
  { destruct options; try by apply wp_ret.
    unfold executionProfile_of, get_field.
    apply wp_bind, wp_read_object; [by intros; apply wp_ret|done]. }
  2:{ intros _ ? ->. apply grows_refl. }
  intros executionProfile ? ->.
  destruct (getProfile profileManager executionProfile) as [profile|];
    [|apply wp_ret, grows_refl].
  eapply wp_seq; [apply getDefaultGraphOptions_grows| |done].
  intros d sA [HgA _]. cbv beta in HgA.
  assert (∀ st', frame consistencies sA st' → grows consistencies st st') as HG.
  { intros st' Hf. eapply grows_trans; [exact HgA|by apply frame_grows]. }
  assert (∀ (e : Error) st', thrown consistencies sA e st' → grows consistencies st st')
    as HT.
  { intros e st' [Hf _]. by apply HG. }
  destruct options as [| | |user]; try by apply wp_ret.
  apply wp_bind, wp_read_object; [|done]. intros ou Hu.
  apply wp_bind, wp_read_object; [|done]. intros dobj Hdobj.
  apply wp_bind, wp_new_object, wp_bind.
  eapply wp_extend_fresh; [exact Hu|].
  fold (target_of dobj). fold (merged_options dobj ou).
  set (lo := length (objects sA)).
  set (sB := set_objects (objects sA ++ [merged_options dobj ou]) sA).
  assert (objects sB !! lo = Some (merged_options dobj ou)) as Hlo.
  { subst sB lo. cbn [objects set_objects]. by apply list_lookup_middle. }
  assert (frame consistencies sA sB) as HfB.
  { subst sB. split; [split; cbn [objects payloads set_objects]; [by apply prefix_app_r|done]|].
    split; [by left|done]. }
  destruct (noGraphPayloadOptions ou).
  - apply wp_bind. unfold get_field.
    apply wp_bind, wp_read_object; [|intros _; by apply HG].
    intros o _. apply wp_ret, wp_bind. unfold wp at 1.
    rewrite (update_object_run _ _ _ _ Hlo). apply wp_ret, HG.
    subst sB. unfold set_objects.
    cbn [objects payloads consistencyNames graphOptionsCache].
    split; [split; cbn [objects payloads]; [|done]|split; [by left|done]].
    apply prefix_insert_ge; [by apply prefix_app_r|done].
  - apply wp_bind. unfold wp at 1. rewrite (read_field_run _ _ _ _ Hlo).
    eapply wp_seq;
      [apply (clone_phase consistencies sA sB lo (merged_options dobj ou));
         [exact HfB|done|exact Hlo]
      | |exact HT].
    intros [] sC (m0 & Hb & _).
    apply (building_weaken _ _ _ _ _ (λ _ _, True)) in Hb; [|done].
    set (p' := length (payloads sB)) in *.
    eapply (building_field_key_any_then sA lo p' d proxyExecuteKey
              Options.executeAs (λ v, v) stringConverter list_byte_of_string);
      [apply stringConverter_run|exact Hb| |exact HT].
    clear sC Hb. intros sC Hb.
    eapply (building_field_key_any_then sA lo p' d "graph-language"
              Options.graphLanguage (λ v, v) stringConverter list_byte_of_string);
      [apply stringConverter_run|exact Hb| |exact HT].
    clear sC Hb. intros sC Hb.
    eapply (building_field_key_any_then sA lo p' d "graph-source"
              Options.graphSource (λ v, v) stringConverter list_byte_of_string);
      [apply stringConverter_run|exact Hb| |exact HT].
    clear sC Hb. intros sC Hb.
    eapply (building_field_key_any_then sA lo p' d "graph-name"
              Options.graphName (λ v, v) stringConverter list_byte_of_string);
      [apply stringConverter_run|exact Hb| |exact HT].
    clear sC Hb. intros sC Hb.
    eapply (building_consistency_key_any_then sA lo p' d "graph-read-consistency"
              Options.graphReadConsistency); [exact Hb| |exact HT].
    clear sC Hb. intros sC Hb.
    eapply (building_consistency_key_any_then sA lo p' d "graph-write-consistency"
              Options.graphWriteConsistency); [exact Hb| |exact HT].
    clear sC Hb. intros sC Hb.
    eapply (building_field_key_any_then sA lo p' d "request-timeout"
              Options.readTimeout (λ v, if js_positive v then v else null)
              longConverter longBuffer);
      [apply longConverter_run|exact Hb| |exact HT].
    clear sC Hb. intros sC Hb. apply wp_ret, HG. by eapply building_frame.
Qed.

(** The call with no options object: the defaults of the profile
    themselves. *)
Lemma createQueryOptions_no_object profileManager baseOptions defaultRetryPolicy
    options profile st :
  options = VUndefined ∨ options = VNull ∨ options = VFunction →
  selects profileManager st options profile →
  createQueryOptions consistencies proxyExecuteKey profileManager baseOptions
    defaultRetryPolicy options st =
  match getDefaultGraphOptions consistencies proxyExecuteKey profileManager baseOptions
          defaultRetryPolicy profile st with
  | (inr d, st') => (inr (VObject d), st')
  | (inl e, st') => (inl e, st')
  end.
Proof.
  intros Hopt Hsel. unfold createQueryOptions, mbind, M_bind.
  destruct Hopt as [->|[->| ->]]; simpl in *; rewrite Hsel;
    by destruct (getDefaultGraphOptions _ _ _ _ _ _ st) as [[e|d] st'].
Qed.

(** The call that changes nothing in the payload: a new object with the
    merged options and the payload of the profile's defaults. *)
Lemma createQueryOptions_fast_spec profileManager baseOptions defaultRetryPolicy
    user ou profile st :
  objects st !! user = Some ou →
  getProfile profileManager (Options.executionProfile ou) = Some profile →
  noGraphPayloadOptions ou = true →
  wp (createQueryOptions consistencies proxyExecuteKey profileManager baseOptions
        defaultRetryPolicy (VObject user))
     (λ r st', ∃ d dobj lo,
        r = VObject lo ∧ grows consistencies st st' ∧
        graphOptionsCache st' !! Profile.name profile = Some d ∧
        objects st' !! d = Some dobj ∧
        objects st' !! lo =
          Some (Options.set_customPayload (Options.customPayload dobj)
                  (merged_options dobj ou)))
     (λ _ _, True) st.
Proof.
  intros Hu Hprofile Hfast. unfold createQueryOptions.
  apply wp_bind. unfold executionProfile_of, wp at 1. rewrite (read_field_run _ _ _ _ Hu).
  rewrite Hprofile.
  eapply wp_seq; [apply getDefaultGraphOptions_grows| |done].
  intros d sA (HgA & HdA & _). cbv beta in HgA.
  pose proof HgA as (HextA & _).
  pose proof (extends_object _ _ _ _ HextA Hu) as HuA.
  apply wp_bind, wp_read_object; [|done].
  intros o Ho. rewrite HuA in Ho. injection Ho as <-.
  apply wp_bind, wp_read_object; [|done]. intros dobj Hdobj.
  apply wp_bind, wp_new_object, wp_bind.
  eapply wp_extend_fresh; [exact HuA|].
  fold (target_of dobj). fold (merged_options dobj ou). rewrite Hfast.
  set (lo := length (objects sA)).
  set (sB := set_objects (objects sA ++ [merged_options dobj ou]) sA).
  assert (objects sB !! d = Some dobj) as HdB.
  { subst sB. cbn [objects set_objects]. by apply lookup_app_l_Some. }
  assert (objects sB !! lo = Some (merged_options dobj ou)) as Hlo.
  { subst sB lo. cbn [objects set_objects]. by apply list_lookup_middle. }
  apply wp_bind. unfold wp at 1. rewrite (read_field_run _ _ _ _ HdB).
  apply wp_bind. unfold wp at 1. rewrite (update_object_run _ _ _ _ Hlo).
  apply wp_ret. exists d, dobj, lo.
  assert (set_objects
            (<[lo := Options.set_customPayload (Options.customPayload dobj)
                       (merged_options dobj ou)]> (objects sB)) sB =
          set_objects (objects sA ++
                         [Options.set_customPayload (Options.customPayload dobj)
                            (merged_options dobj ou)]) sA) as ->.
  { subst sB lo. unfold set_objects.
    cbn [objects payloads consistencyNames graphOptionsCache].
    by rewrite insert_app_r_alt, Nat.sub_diag. }
  split; [done|]. split_and!.
  - eapply grows_trans; [exact HgA|]. apply frame_grows.
    split; [split; cbn [objects payloads set_objects]; [by apply prefix_app_r|done]|].
    split; [by left|done].
  - done.
  - cbn [objects set_objects]. by apply lookup_app_l_Some.
  - cbn [objects set_objects]. by apply list_lookup_middle.
Qed.
End Grows.

(** * Main results *)

Section Results.
Variable consistencies : list (string * Z).
Variable proxyExecuteKey : string.

(** C4. Options that name an execution profile the profile manager does
    not know come back as they are: [createQueryOptions] returns the very
    object it was given and changes nothing in the state, so no defaults
    are computed, no payload is built and nothing is thrown. *)
Theorem C4_unknown_profile_returns_options profileManager baseOptions defaultRetryPolicy
    user ou st :
  objects st !! user = Some ou →
  getProfile profileManager (Options.executionProfile ou) = None →
  createQueryOptions consistencies proxyExecuteKey profileManager baseOptions
    defaultRetryPolicy (VObject user) st = (inr (VObject user), st).
Proof.
  intros Hu Hnone. unfold createQueryOptions.
  unfold mbind at 1, M_bind. unfold executionProfile_of.
  rewrite (read_field_run _ _ _ _ Hu). by rewrite Hnone.
Qed.

(** C5 (as amended). [setPayloadKey] on the payload [m] of the options,
    with [md] the payload of the profile's defaults, never throws, touches
    no key of the payload but [key], and
    - for [null] it writes nothing: the state is as it was, so the payload
      keeps the entry it had under the key, and is without the key only if
      it was so before, whatever the defaults have;
    - for a value it sets the key to the encoded value, whatever the
      value (the empty string included);
    - for [undefined] it sets the key to the entry of the defaults when
      they have one, and otherwise writes nothing: the payload keeps the
      entry it had. *)
Theorem C5_setPayloadKey_policy {A : Type} options profileOptions key (value : js A)
    (converter : A → M Buffer) (enc : A → Buffer) o p m dobj pd md st :
  objects st !! options = Some o → Options.customPayload o = val p →
  payloads st !! p = Some m →
  objects st !! profileOptions = Some dobj → Options.customPayload dobj = val pd →
  payloads st !! pd = Some md →
  (∀ v s, converter v s = (inr (enc v), s)) →
  ∃ st' m',
    setPayloadKey options profileOptions key value converter st = (inr (), st') ∧
    payload_of st' (VObject options) = Some m' ∧
    (∀ k, k ≠ key → m' !! k = m !! k) ∧
    (value = null → st' = st ∧ m' !! key = m !! key) ∧
    (∀ v, value = val v →
       st' = set_payloads (<[p := <[key := enc v]> m]> (payloads st)) st ∧
       m' !! key = Some (enc v)) ∧
    (∀ b, value = undefined → md !! key = Some b →
       st' = set_payloads (<[p := <[key := b]> m]> (payloads st)) st ∧
       m' !! key = Some b) ∧
    (value = undefined → md !! key = None → st' = st ∧ m' !! key = m !! key).
Proof.
  intros Ho Hcp Hm Hd Hdcp Hmd Hconv. unfold setPayloadKey.
  assert (∀ b, set_customPayload_key options key b st =
               (inr (), set_payloads (<[p := <[key := b]> m]> (payloads st)) st)) as Hset.
  { intros b. unfold set_customPayload_key, mbind, M_bind.
    rewrite (read_field_run _ _ _ _ Ho), Hcp. unfold read_payload. by rewrite Hm. }
  assert (get_customPayload_key profileOptions key st = (inr (md !! key), st)) as Hget.
  { unfold get_customPayload_key, mbind, M_bind.
    rewrite (read_field_run _ _ _ _ Hd), Hdcp. unfold read_payload. by rewrite Hmd. }
  assert (payload_of st (VObject options) = Some m) as Hkept.
  { unfold payload_of. simpl. by rewrite Ho, Hcp. }
  assert (∀ b, payload_of (set_payloads (<[p := <[key := b]> m]> (payloads st)) st)
                 (VObject options) = Some (<[key := b]> m)) as Hwritten.
  { intros b. unfold payload_of. destruct st. simpl in *. rewrite Ho, Hcp.
    apply list_lookup_insert_eq. by apply lookup_lt_Some in Hm. }
  destruct value as [| |v].
  - unfold mbind, M_bind. rewrite Hget.
    destruct (md !! key) as [b|] eqn:Hb.
    + eexists _, _. split; [apply Hset|]. split; [apply Hwritten|].
      split_and!; try done.
      * intros k Hk. by apply lookup_insert_ne.
      * intros b' _ [= <-]. split; [done|apply lookup_insert_eq].
    + exists st, m. split_and!; try done.
  - exists st, m. split_and!; try done.
  - unfold mbind, M_bind. rewrite Hconv.
    eexists _, _. split; [apply Hset|]. split; [apply Hwritten|].
    split_and!; try done.
    + intros k Hk. by apply lookup_insert_ne.
    + intros v' [= <-]. split; [done|apply lookup_insert_eq].
Qed.

(** C6. With a registry whose property names and whose codes are each
    distinct, [getConsistencyName] returns for the code of every level the
    upper case of its property name, and [LOCAL_QUORUM], [EACH_QUORUM],
    [LOCAL_SERIAL], [LOCAL_ONE] for the four levels [localQuorum],
    [eachQuorum], [localSerial], [localOne]; for [null] and for
    [undefined] it returns [undefined], throws nothing and leaves the
    state as it is. *)
Theorem C6_consistency_names st :
  NoDup consistencies.*1 → NoDup consistencies.*2 →
  registry_ok consistencies st →
  (∀ name code, (name, code) ∈ consistencies → name ≠ "" →
     (getConsistencyName consistencies (val code) st).1 =
       inr (val (canonical_name name))) ∧
  (∀ name, name ∉ ["localQuorum"; "eachQuorum"; "localSerial"; "localOne"] →
     canonical_name name = toUpperCase name) ∧
  canonical_name "localQuorum" = "LOCAL_QUORUM" ∧
  canonical_name "eachQuorum" = "EACH_QUORUM" ∧
  canonical_name "localSerial" = "LOCAL_SERIAL" ∧
  canonical_name "localOne" = "LOCAL_ONE" ∧
  getConsistencyName consistencies null st = (inr undefined, st) ∧
  getConsistencyName consistencies undefined st = (inr undefined, st).
Proof.
  intros Hkeys Hcodes Hreg. split_and!; try done.
  - intros name code Hin Hne. rewrite getConsistencyName_run by done. simpl.
    rewrite (built_lookup _ Hkeys Hcodes _ _ Hin).
    by rewrite canonical_name_truthy.
  - intros name Hname. unfold canonical_name.
    repeat (match goal with
            | |- context [String.eqb name ?s] =>
                destruct (String.eqb_spec name s) as [->|_];
                [exfalso; apply Hname, list_elem_of_In; simpl; tauto|]
            end).
    done.
Qed.

(** C2. The retry policy of the graph options that are made and cached for
    a profile: for a profile other than the default one, the profile's own
    retry policy if it has one and else the one of the base options; for
    the default profile, the given default retry policy for graph
    statements if there is one and else the one of the base options, the
    retry policy of the default profile itself playing no part. The
    default profile is the object that the profile manager has as its
    default: another profile object is another profile, whatever its
    name. *)
Theorem C2_cached_retry_policy profileManager baseOptions defaultRetryPolicy profile
    st d st' :
  graphOptionsCache st !! Profile.name profile = None →
  getDefaultGraphOptions consistencies proxyExecuteKey profileManager baseOptions
    defaultRetryPolicy profile st = (inr d, st') →
  graphOptionsCache st' !! Profile.name profile = Some d ∧
  ∃ o, objects st' !! d = Some o ∧
       Options.retry o =
         if same_profile profile (getDefault profileManager)
         then js_or defaultRetryPolicy (Base.retry baseOptions)
         else js_or (Profile.retry profile) (Base.retry baseOptions).
Proof.
  intros Hmiss. unfold getDefaultGraphOptions, getOrCreateGraphOptions.
  unfold mbind at 1, M_bind. unfold gets. rewrite Hmiss.
  unfold mbind at 1, M_bind.
  destruct (createDefaultOptions _ _ _ _ _ _ st) as [[e|d0] s1] eqn:Hrun; [done|].
  intros [= <- <-].
  pose proof (run_wp _ _ _ _ _ _
                (createDefaultOptions_spec consistencies proxyExecuteKey profileManager
                   baseOptions defaultRetryPolicy profile st) Hrun)
    as (p & _ & _ & _ & o & m & Ho & _ & _ & _ & Hretry).
  split; [apply lookup_insert_eq|]. by exists o.
Qed.

(** C10. [createQueryOptions] changes no payload map that is in the store
    when it is called, the map the caller gave as [customPayload] among
    them: whether the call returns or throws, every such map holds
    afterwards exactly the entries it held before; and so does every
    options object. *)
Theorem C10_caller_payload_untouched profileManager baseOptions defaultRetryPolicy
    options st pu mu :
  payloads st !! pu = Some mu →
  payloads (createQueryOptions consistencies proxyExecuteKey profileManager baseOptions
              defaultRetryPolicy options st).2 !! pu = Some mu ∧
  ∀ l o, objects st !! l = Some o →
         objects (createQueryOptions consistencies proxyExecuteKey profileManager
                    baseOptions defaultRetryPolicy options st).2 !! l = Some o.
Proof.
  intros Hpu.
  pose proof (createQueryOptions_grows consistencies proxyExecuteKey profileManager
                baseOptions defaultRetryPolicy options st) as Hwp.
  unfold wp in Hwp.
  destruct (createQueryOptions _ _ _ _ _ _ st) as [[e|r] st'];
    destruct Hwp as (Hext & _); simpl;
    (split; [by eapply extends_payload|intros l o Hl; by eapply extends_object]).
Qed.

(** C3. Without an options object ([undefined], [null] or a callback)
    [createQueryOptions] returns the object that the slot of the profile
    holds, and when the slot was filled already it changes nothing. With
    an options object that has none of [customPayload], [graphLanguage],
    [graphSource], [executeAs], [graphName], [graphReadConsistency],
    [graphWriteConsistency], [readTimeout], the object returned has as its
    [customPayload] the very payload object of the cached defaults; a
    second call returns again an object with that same payload object, and
    makes or changes no payload. *)
Theorem C3_defaults_payload_by_reference profileManager baseOptions defaultRetryPolicy
    profile st :
  (∀ options r st',
     options = VUndefined ∨ options = VNull ∨ options = VFunction →
     selects profileManager st options profile →
     createQueryOptions consistencies proxyExecuteKey profileManager baseOptions
       defaultRetryPolicy options st = (inr r, st') →
     ∃ d, r = VObject d ∧
          graphOptionsCache st' !! Profile.name profile = Some d ∧
          (∀ d0, graphOptionsCache st !! Profile.name profile = Some d0 →
                 d = d0 ∧ st' = st)) ∧
  (∀ user ou r1 st1,
     objects st !! user = Some ou →
     getProfile profileManager (Options.executionProfile ou) = Some profile →
     no_graph_fields ou →
     createQueryOptions consistencies proxyExecuteKey profileManager baseOptions
       defaultRetryPolicy (VObject user) st = (inr r1, st1) →
     ∃ d dobj o1 r2 st2 o2,
       graphOptionsCache st1 !! Profile.name profile = Some d ∧
       objects st1 !! d = Some dobj ∧
       object_of st1 r1 = Some o1 ∧
       Options.customPayload o1 = Options.customPayload dobj ∧
       createQueryOptions consistencies proxyExecuteKey profileManager baseOptions
         defaultRetryPolicy (VObject user) st1 = (inr r2, st2) ∧
       object_of st2 r2 = Some o2 ∧
       Options.customPayload o2 = Options.customPayload dobj ∧
       payloads st2 = payloads st1 ∧
       graphOptionsCache st2 = graphOptionsCache st1).
Proof.
  split.
  - intros options r st' Hopt Hsel.
    rewrite (createQueryOptions_no_object _ _ _ _ _ _ _ _ Hopt Hsel).
    pose proof (getDefaultGraphOptions_grows consistencies proxyExecuteKey profileManager
                  baseOptions defaultRetryPolicy profile st) as Hwp.
    unfold wp in Hwp.
    destruct (getDefaultGraphOptions _ _ _ _ _ _ st) as [[e|d] s1]; [done|].
    intros [= <- <-]. destruct Hwp as (_ & Hd & Hhit). by exists d.
  - intros user ou r1 st1 Hu Hprofile Hnone Hrun.
    pose proof (no_graph_fields_fast _ Hnone) as Hfast.
    pose proof (run_wp _ _ _ _ _ _
                  (createQueryOptions_fast_spec consistencies proxyExecuteKey
                     profileManager baseOptions defaultRetryPolicy user ou profile st
                     Hu Hprofile Hfast) Hrun)
      as (d & dobj & lo & -> & (Hext & _) & Hd & Hdobj & Hlo).
    pose proof (extends_object _ _ _ _ Hext Hu) as Hu1.
    eexists d, dobj, _, _, _, _. split_and!.
    + exact Hd.
    + exact Hdobj.
    + exact Hlo.
    + done.
    + apply (createQueryOptions_hit_fast consistencies proxyExecuteKey profileManager
               baseOptions defaultRetryPolicy user ou profile d dobj st1
               Hu1 Hprofile Hd Hdobj Hfast).
    + cbn [object_of objects set_objects]. by apply list_lookup_middle.
    + done.
    + done.
    + done.
Qed.
End Results.

(** ** Every call on a well-formed cache *)

Section Resolved.
Variable consistencies : list (string * Z).
Variable proxyExecuteKey : string.
Hypothesis proxy_key_distinct : proxyExecuteKey ∉ graph_keys.

(** What a call returns for a known profile: an object with the payload
    and the read timeout of the profile's defaults, or the merged options
    with a rebuilt payload. *)
Lemma createQueryOptions_resolved profileManager baseOptions defaultRetryPolicy
    options profile st r st' :
  cache_ok st →
  selects profileManager st options profile →
  createQueryOptions consistencies proxyExecuteKey profileManager baseOptions
    defaultRetryPolicy options st = (inr r, st') →
  ∃ o p m dobj md,
    object_of st' r = Some o ∧ Options.customPayload o = val p ∧
    payloads st' !! p = Some m ∧ default_facts dobj md ∧
    ((m = md ∧ Options.readTimeout o = Options.readTimeout dobj ∧
      ∀ user ou, options = VObject user → objects st !! user = Some ou →
                 noGraphPayloadOptions ou = true) ∨
     (∃ user ou readName writeName m0,
        options = VObject user ∧ objects st !! user = Some ou ∧
        noGraphPayloadOptions ou = false ∧
        o = Options.set_customPayload (val p) (merged_options dobj ou) ∧
        name_ok consistencies st
          (Options.graphReadConsistency (merged_options dobj ou)) readName ∧
        name_ok consistencies st
          (Options.graphWriteConsistency (merged_options dobj ou)) writeName ∧
        match Options.customPayload ou with
        | val pu => ∀ mu, payloads st !! pu = Some mu → m0 = mu
        | _ => m0 = ∅
        end ∧
        m = rebuilt_payload proxyExecuteKey md (merged_options dobj ou)
              readName writeName m0)).
Proof.
  intros Hok Hsel Hrun.
  assert (∀ d s1,
    getDefaultGraphOptions consistencies proxyExecuteKey profileManager baseOptions
      defaultRetryPolicy profile st = (inr d, s1) →
    ∃ dobj pd md, objects s1 !! d = Some dobj ∧ Options.customPayload dobj = val pd ∧
                  payloads s1 !! pd = Some md ∧ default_facts dobj md) as Hdefaults.
  { intros d s1 Hd.
    pose proof (run_wp _ _ _ _ _ _
                  (getDefaultGraphOptions_spec consistencies proxyExecuteKey
                     proxy_key_distinct profileManager baseOptions defaultRetryPolicy
                     profile st Hok) Hd) as (_ & _ & Hok1 & Hslot & _).
    destruct (Hok1 _ _ Hslot) as (pd & dobj & md & ? & ? & ? & ?).
    by exists dobj, pd, md. }
  destruct options as [| | |user].
  1-3: rewrite (createQueryOptions_no_object _ _ _ _ _ _ profile) in Hrun by tauto;
    destruct (getDefaultGraphOptions _ _ _ _ _ _ st) as [[e|d] s1] eqn:Hd; [done|];
    injection Hrun as <- <-;
    destruct (Hdefaults _ _ eq_refl) as (dobj & pd & md & ? & ? & ? & ?);
    exists dobj, pd, md, dobj, md; split_and!; try done;
    left; by split_and!.
  destruct Hsel as (ou & Hu & Hprofile).
  pose proof (run_wp _ _ _ _ _ _
                (createQueryOptions_object_spec consistencies proxyExecuteKey
                   proxy_key_distinct profileManager baseOptions defaultRetryPolicy
                   user ou profile st Hok Hu Hprofile) Hrun)
    as (_ & _ & d & dobj & pd & md & lo & p' & m' & -> & _ & _ & Hdcp & Hmd & Hfacts
        & Hlo & Hm' & _ & Hcase).
  exists (Options.set_customPayload (val p') (merged_options dobj ou)), p', m', dobj, md.
  split_and!; try done.
  destruct (noGraphPayloadOptions ou) eqn:Hfast.
  - left. subst p'. rewrite Hmd in Hm'. injection Hm' as <-. split; [done|]. split.
    + simpl. unfold noGraphPayloadOptions in Hfast.
      destruct (Options.readTimeout ou); [done| |];
        by rewrite !andb_false_r in Hfast.
    + intros user' ou' [= <-] Hu'. rewrite Hu in Hu'. by injection Hu' as <-.
  - right. destruct Hcase as (_ & rn & wn & m0 & ? & ? & ? & ?).
    exists user, ou, rn, wn, m0. by split_and!.
Qed.

(** Every slot holds well-formed graph options after a call if it did
    before, whether the call returns or throws; and an
    [UnknownConsistencyLevel] error is for a code without a name. *)
Lemma createQueryOptions_sound profileManager baseOptions defaultRetryPolicy options st :
  cache_ok st →
  wp (createQueryOptions consistencies proxyExecuteKey profileManager baseOptions
        defaultRetryPolicy options)
     (λ _ st', cache_ok st')
     (λ e st', cache_ok st' ∧ err_ok consistencies st e) st.
Proof.
  intros Hok.
  assert (∀ profile,
    wp (getDefaultGraphOptions consistencies proxyExecuteKey profileManager baseOptions
          defaultRetryPolicy profile ≫= λ d, mret (VObject d))
       (λ _ st', cache_ok st')
       (λ e st', cache_ok st' ∧ err_ok consistencies st e) st) as Hdefaults.
  { intros profile. eapply wp_seq; [by apply getDefaultGraphOptions_spec| |].
    - intros d s1 (_ & _ & ? & _). by apply wp_ret.
    - intros e s1 [Hf He]. split; [by eapply cache_ok_frame|done]. }
  unfold createQueryOptions. destruct options as [| | |user].
  1-3: apply wp_bind, wp_ret;
    destruct (getProfile profileManager _) as [profile|]; [apply Hdefaults|by apply wp_ret].
  destruct (objects st !! user) as [ou|] eqn:Hu.
  - destruct (getProfile profileManager (Options.executionProfile ou)) as [profile|]
      eqn:Hprofile.
    + eapply wp_mono;
        [by apply (createQueryOptions_object_spec consistencies proxyExecuteKey
                     proxy_key_distinct profileManager baseOptions defaultRetryPolicy
                     user ou profile)| |].
      * by intros r st' (_ & ? & _).
      * intros e st' [(_ & _ & _ & Hc) He]. by split; [apply Hc|].
    + apply wp_bind. unfold executionProfile_of, wp at 1.
      rewrite (read_field_run _ _ _ _ Hu), Hprofile. by apply wp_ret.
  - apply wp_bind. unfold executionProfile_of, get_field.
    apply wp_bind, wp_read_object; [by intros o Ho; rewrite Hu in Ho|].
    intros _. split; [done|apply err_ok_TypeError].
Qed.
End Resolved.

(** * Main results on the payload of a known profile *)

Section PayloadResults.
Variable consistencies : list (string * Z).
Variable proxyExecuteKey : string.

(** C1 (as amended). For [graphName], [graphLanguage] and [graphSource]:
    when the caller passes [null] for the field and the payload is
    rebuilt, which is always so for [graphName], and for [graphLanguage]
    and [graphSource] when the options have something else that changes
    the payload, the resolved [customPayload] has no entry for the wire
    key of the field, whatever the defaults of the profile and the base
    options supply, provided the caller's own [customPayload] does not
    carry that key. *)
Theorem C1_null_suppresses_key profileManager baseOptions defaultRetryPolicy
    user ou profile field st r st' :
  proxyExecuteKey ∉ graph_keys →
  cache_ok st →
  objects st !! user = Some ou →
  getProfile profileManager (Options.executionProfile ou) = Some profile →
  field = GraphName ∨
    ((field = GraphLanguage ∨ field = GraphSource) ∧ noGraphPayloadOptions ou = false) →
  field_null field ou →
  user_lacks st (VObject user) (wire_key field) →
  createQueryOptions consistencies proxyExecuteKey profileManager baseOptions
    defaultRetryPolicy (VObject user) st = (inr r, st') →
  ∃ m, payload_of st' r = Some m ∧ m !! wire_key field = None.
Proof.
  intros Hproxy Hok Hu Hprofile Hfield Hnull Hlacks Hrun.
  assert (noGraphPayloadOptions ou = false) as Hrebuilt.
  { destruct Hfield as [->|[_ ?]]; [|done]. simpl in Hnull.
    unfold noGraphPayloadOptions. rewrite Hnull. simpl.
    by rewrite !andb_false_r. }
  assert (field = GraphName ∨ field = GraphLanguage ∨ field = GraphSource) as Hfield'
    by tauto.
  destruct (createQueryOptions_resolved consistencies proxyExecuteKey Hproxy
              profileManager baseOptions defaultRetryPolicy (VObject user) profile
              st r st' Hok (ex_intro _ ou (conj Hu Hprofile)) Hrun)
    as (o & p & m & dobj & md & Ho & Hcp & Hm & Hfacts & Hcase).
  exists m. split; [unfold payload_of; by rewrite Ho, Hcp|].
  destruct Hcase as [(_ & _ & Hfast)|Hcase].
  { rewrite (Hfast user ou eq_refl Hu) in Hrebuilt. done. }
  destruct Hcase as (user' & ou' & rn & wn & m0 & [= <-] & Hu' & _ & -> & _ & _ & Hm0 & ->).
  rewrite Hu in Hu'. injection Hu' as <-.
  rewrite (rebuilt_suppressed proxyExecuteKey Hproxy); [|done|].
  - destruct (Options.customPayload ou) as [| |pu] eqn:Hpu; try by subst m0.
    destruct (Hlacks ou pu Hu Hpu) as (mu & Hmu & Hnone).
    by rewrite (Hm0 mu Hmu).
  - unfold merged_options, extend_record.
    destruct Hfield' as [->|[->| ->]]; simpl in *; by rewrite Hnull.
Qed.

(** C8 (as amended). Whenever the resolved [readTimeout] is strictly
    positive, the resolved payload has the [request-timeout] key, and its
    value is the 8 bytes of [longBuffer] for the timeout, which read back
    as a big-endian two's-complement integer give the timeout when it is
    below 2^63: 5000 for 5000. When the resolved [readTimeout] is not
    positive or is absent, nothing is written under the key: the key is
    absent if the caller's own [customPayload] does not carry it, and
    present if it does. *)
Theorem C8_request_timeout profileManager baseOptions defaultRetryPolicy
    options profile st r st' :
  proxyExecuteKey ∉ graph_keys →
  cache_ok st →
  selects profileManager st options profile →
  createQueryOptions consistencies proxyExecuteKey profileManager baseOptions
    defaultRetryPolicy options st = (inr r, st') →
  ∃ o m, object_of st' r = Some o ∧ payload_of st' r = Some m ∧
    (js_positive (Options.readTimeout o) = true → is_Some (m !! "request-timeout")) ∧
    (∀ t, Options.readTimeout o = val t → 0 < t →
       m !! "request-timeout" = Some (longBuffer t) ∧
       length (longBuffer t) = 8%nat ∧
       (t < 2 ^ 63 → Long_fromBuffer (longBuffer t) = t)) ∧
    (js_positive (Options.readTimeout o) = false →
       (user_lacks st options "request-timeout" → m !! "request-timeout" = None) ∧
       (user_has st options "request-timeout" → is_Some (m !! "request-timeout"))) ∧
    Long_fromBuffer (longBuffer 5000) = 5000.
Proof.
  intros Hproxy Hok Hsel Hrun.
  destruct (createQueryOptions_resolved consistencies proxyExecuteKey Hproxy
              profileManager baseOptions defaultRetryPolicy options profile
              st r st' Hok Hsel Hrun)
    as (o & p & m & dobj & md & Ho & Hcp & Hm & Hfacts & Hcase).
  exists o, m. split; [done|]. split; [unfold payload_of; by rewrite Ho, Hcp|].
  assert (∃ own : option Buffer,
            m !! "request-timeout" =
              match Options.readTimeout o with
              | val t => if 0 <? t then Some (longBuffer t) else own
              | _ => own
              end ∧
            (user_lacks st options "request-timeout" → own = None) ∧
            (user_has st options "request-timeout" → is_Some own))
    as (own & Hkey & Hnone & Hsome).
  { destruct Hcase as [(-> & -> & Hfast)|Hcase].
    - exists None. split_and!; [|done|].
      + destruct Hfacts as (_ & _ & _ & _ & Ht).
        destruct (Options.readTimeout dobj) as [| |t]; [done|done|].
        by destruct (0 <? t).
      + intros (user & ou & pu & mu & -> & Hu & Hpu & _).
        specialize (Hfast user ou eq_refl Hu).
        unfold noGraphPayloadOptions in Hfast. rewrite Hpu in Hfast. done.
    - destruct Hcase as (user & ou & rn & wn & m0 & -> & Hu & _ & -> & _ & _ & Hm0 & ->).
      exists (m0 !! "request-timeout").
      split; [by rewrite (rebuilt_timeout proxyExecuteKey Hproxy)|]. split.
      + intros Hlacks.
        destruct (Options.customPayload ou) as [| |pu] eqn:Hpu; try by subst m0.
        destruct (Hlacks ou pu Hu Hpu) as (mu & Hmu & Hnone).
        by rewrite (Hm0 mu Hmu).
      + intros (user' & ou' & pu & mu & [= <-] & Hu' & Hpu & Hmu & Hhas).
        rewrite Hu in Hu'. injection Hu' as <-. rewrite Hpu in Hm0.
        by rewrite (Hm0 mu Hmu). }
  split_and!.
  - rewrite Hkey. unfold js_positive.
    destruct (Options.readTimeout o) as [| |t]; [done|done|].
    intros Hpos. by rewrite Hpos.
  - intros t Ht Hpos. rewrite Hkey, Ht.
    assert ((0 <? t) = true) as -> by (by apply Z.ltb_lt).
    split_and!; [done|done|].
    intros Hmax. apply longBuffer_roundtrip. lia.
  - intros Hpos.
    assert (m !! "request-timeout" = own) as ->; [|by split; [intros ?%Hnone|]].
    rewrite Hkey. unfold js_positive in Hpos.
    destruct (Options.readTimeout o) as [| |t]; [done|done|]. by rewrite Hpos.
  - done.
Qed.

(** C9 (as amended). Whenever [createQueryOptions] returns for a known
    profile, the resolved payload has the [graph-language] key, except when
    the caller passed [null] for [graphLanguage] in a call that rebuilds
    the payload: then nothing is written under the key, which is present
    if the caller's own [customPayload] carries it and absent if that does
    not. A [null] in a call that does not rebuild the payload leaves the
    key of the profile's payload in place. The same holds of
    [graph-source] and [graphSource]. *)
Theorem C9_language_and_source_present profileManager baseOptions defaultRetryPolicy
    options profile st r st' :
  proxyExecuteKey ∉ graph_keys →
  cache_ok st →
  selects profileManager st options profile →
  createQueryOptions consistencies proxyExecuteKey profileManager baseOptions
    defaultRetryPolicy options st = (inr r, st') →
  ∃ m, payload_of st' r = Some m ∧
    (¬ (user_null st options Options.graphLanguage ∧ rebuilds st options) ∨
     user_has st options "graph-language" →
       is_Some (m !! "graph-language")) ∧
    (user_null st options Options.graphLanguage → rebuilds st options →
     user_lacks st options "graph-language" → m !! "graph-language" = None) ∧
    (¬ (user_null st options Options.graphSource ∧ rebuilds st options) ∨
     user_has st options "graph-source" →
       is_Some (m !! "graph-source")) ∧
    (user_null st options Options.graphSource → rebuilds st options →
     user_lacks st options "graph-source" → m !! "graph-source" = None).
Proof.
  intros Hproxy Hok Hsel Hrun.
  destruct (createQueryOptions_resolved consistencies proxyExecuteKey Hproxy
              profileManager baseOptions defaultRetryPolicy options profile
              st r st' Hok Hsel Hrun)
    as (o & p & m & dobj & md & Ho & Hcp & Hm & Hfacts & Hcase).
  exists m. split; [unfold payload_of; by rewrite Ho, Hcp|].
  destruct Hfacts as ([sl Hsl] & [ss Hss] & Hl & Hs & _).
  destruct Hcase as [(-> & _ & Hfast)|Hcase].
  { assert (¬ rebuilds st options) as Hnot.
    { intros (user & ou & -> & Hu & Hrebuilt).
      by rewrite (Hfast user ou eq_refl Hu) in Hrebuilt. }
    split_and!; try done; intros _ Hre; by destruct Hnot. }
  destruct Hcase as (user & ou & rn & wn & m0 & -> & Hu & Hrebuilt & _ & _ & _ & Hm0 & ->).
  assert (rebuilds st (VObject user)) as Hre by (by exists user, ou).
  assert (∀ key, user_has st (VObject user) key → is_Some (m0 !! key)) as Hhas.
  { intros key (user' & ou' & pu & mu & [= <-] & Hu' & Hpu & Hmu & Hkey).
    rewrite Hu in Hu'. injection Hu' as <-. rewrite Hpu in Hm0.
    by rewrite (Hm0 mu Hmu). }
  assert (∀ key, user_lacks st (VObject user) key → m0 !! key = None) as Hlacks.
  { intros key Hkey.
    destruct (Options.customPayload ou) as [| |pu] eqn:Hpu; try by subst m0.
    destruct (Hkey ou pu Hu Hpu) as (mu & Hmu & Hnone).
    by rewrite (Hm0 mu Hmu). }
  assert (∀ {A} (f : Options.t → js A) v, f ou = v → v = null →
            user_null st (VObject user) f) as Hnull.
  { intros A f v Hf ->. exists ou. by split. }
  split_and!.
  - intros Hcase.
    destruct (Options.graphLanguage ou) as [| |s] eqn:Hgl.
    + apply (rebuilt_language proxyExecuteKey); [|done].
      unfold merged_options, extend_record. simpl. by rewrite Hgl, Hsl.
    + rewrite (rebuilt_suppressed proxyExecuteKey Hproxy _ _ _ _ _ GraphLanguage);
        [|tauto|simpl; unfold merged_options, extend_record; simpl; by rewrite Hgl].
      destruct Hcase as [Hnot|Hown]; [|by apply Hhas].
      destruct Hnot. split; [by eapply Hnull|done].
    + apply (rebuilt_language proxyExecuteKey); [|done].
      unfold merged_options, extend_record. simpl. by rewrite Hgl.
  - intros (ou' & Hu' & Hgl) _ Hkey. simpl in Hu'. rewrite Hu in Hu'. injection Hu' as <-.
    rewrite (rebuilt_suppressed proxyExecuteKey Hproxy _ _ _ _ _ GraphLanguage);
      [by apply Hlacks|tauto|].
    simpl. unfold merged_options, extend_record. simpl. by rewrite Hgl.
  - intros Hcase.
    destruct (Options.graphSource ou) as [| |s] eqn:Hgs.
    + apply (rebuilt_source proxyExecuteKey); [|done].
      unfold merged_options, extend_record. simpl. by rewrite Hgs, Hss.
    + rewrite (rebuilt_suppressed proxyExecuteKey Hproxy _ _ _ _ _ GraphSource);
        [|tauto|simpl; unfold merged_options, extend_record; simpl; by rewrite Hgs].
      destruct Hcase as [Hnot|Hown]; [|by apply Hhas].
      destruct Hnot. split; [by eapply Hnull|done].
    + apply (rebuilt_source proxyExecuteKey); [|done].
      unfold merged_options, extend_record. simpl. by rewrite Hgs.
  - intros (ou' & Hu' & Hgs) _ Hkey. simpl in Hu'. rewrite Hu in Hu'. injection Hu' as <-.
    rewrite (rebuilt_suppressed proxyExecuteKey Hproxy _ _ _ _ _ GraphSource);
      [by apply Hlacks|tauto|].
    simpl. unfold merged_options, extend_record. simpl. by rewrite Hgs.
Qed.

(** C7 (as amended). From a state whose table of names is not built or is
    the built one:
    - [getConsistencyName] throws exactly when it is given a code that has
      no name in the table, and what it throws is the
      [UnknownConsistencyLevel] error for that code;
    - [createQueryOptions] does not return but throws when the read or the
      write consistency of the options is such a code;
    - a call of [createQueryOptions] that throws leaves every object,
      every payload and every filled slot of the cache as it was: the
      state has at most more of them, and a built table; the slots still
      hold well-formed graph options, and an [UnknownConsistencyLevel]
      error is for a code without a name. *)
Theorem C7_unknown_consistency_level profileManager baseOptions defaultRetryPolicy st :
  registry_ok consistencies st →
  (∀ c e st',
     getConsistencyName consistencies c st = (inl e, st') ↔
     ∃ code, c = val code ∧ ¬ registered consistencies code ∧
             e = UnknownConsistencyLevel code ∧
             st' = set_consistencyNames (builtConsistencyNames consistencies) st) ∧
  (∀ user ou profile code,
     proxyExecuteKey ∉ graph_keys → cache_ok st →
     objects st !! user = Some ou →
     getProfile profileManager (Options.executionProfile ou) = Some profile →
     Options.graphReadConsistency ou = val code ∨
       Options.graphWriteConsistency ou = val code →
     ¬ registered consistencies code →
     ∃ e st',
       createQueryOptions consistencies proxyExecuteKey profileManager baseOptions
         defaultRetryPolicy (VObject user) st = (inl e, st')) ∧
  (∀ options e st',
     createQueryOptions consistencies proxyExecuteKey profileManager baseOptions
       defaultRetryPolicy options st = (inl e, st') →
     grows consistencies st st' ∧ registry_ok consistencies st' ∧
     (proxyExecuteKey ∉ graph_keys → cache_ok st →
      cache_ok st' ∧
      ∀ code, e = UnknownConsistencyLevel code → ¬ registered consistencies code)).
Proof.
  intros Hreg. split_and!.
  - intros c e st'. split.
    + destruct c as [| |code]; [done|done|].
      rewrite getConsistencyName_run by done.
      destruct (builtConsistencyNames consistencies !! Some code) as [name|] eqn:Hl.
      * destruct (truthy name) eqn:Ht; [done|]. intros [= <- <-].
        exists code. split_and!; try done. intros (name' & Hl' & Ht'). congruence.
      * intros [= <- <-]. exists code. split_and!; try done.
        intros (name' & Hl' & Ht'). congruence.
    + intros (code & -> & Hun & -> & ->). rewrite getConsistencyName_run by done.
      destruct (builtConsistencyNames consistencies !! Some code) as [name|] eqn:Hl;
        [|done].
      destruct (truthy name) eqn:Ht; [|done]. exfalso. apply Hun. by exists name.
  - intros user ou profile code Hproxy Hok Hu Hprofile Hcode Hun.
    destruct (createQueryOptions _ _ _ _ _ (VObject user) st) as [[e|r] st'] eqn:Hrun;
      [by exists e, st'|].
    exfalso.
    pose proof (run_wp _ _ _ _ _ _
                  (createQueryOptions_object_spec consistencies proxyExecuteKey
                     Hproxy profileManager baseOptions defaultRetryPolicy
                     user ou profile st Hok Hu Hprofile) Hrun)
      as (_ & _ & d & dobj & pd & md & lo & p' & m' & _ & _ & _ & _ & _ & _
          & _ & _ & _ & Hcase).
    assert (noGraphPayloadOptions ou = false) as Hrebuilt.
    { unfold noGraphPayloadOptions.
      destruct Hcode as [-> | ->]; simpl; by rewrite !andb_false_r. }
    rewrite Hrebuilt in Hcase.
    destruct Hcase as (_ & rn & wn & m0 & (_ & _ & Hrn) & (_ & _ & Hwn) & _).
    unfold merged_options, extend_record in Hrn, Hwn. simpl in Hrn, Hwn.
    destruct Hcode as [Hc|Hc]; rewrite Hc in *; simpl in *.
    + destruct (Hrn Hreg code eq_refl) as (name & ? & ? & _). apply Hun. by exists name.
    + destruct (Hwn Hreg code eq_refl) as (name & ? & ? & _). apply Hun. by exists name.
  - intros options e st' Hrun.
    pose proof (throw_wp _ _ _ _ _ _
                  (createQueryOptions_grows consistencies proxyExecuteKey profileManager
                     baseOptions defaultRetryPolicy options st) Hrun) as Hg.
    split; [done|]. split.
    { destruct Hg as (_ & ? & _). by eapply names_step_registry. }
    intros Hproxy Hok.
    pose proof (throw_wp _ _ _ _ _ _
                  (createQueryOptions_sound consistencies proxyExecuteKey Hproxy
                     profileManager baseOptions defaultRetryPolicy options st Hok) Hrun)
      as [Hok' He].
    split; [done|]. intros code ->. by apply He.
Qed.
End PayloadResults.

(** * Further properties of the module *)

(** ** The table of names, once it is there *)

Section Table.
Variable consistencies : list (string * Z).

Lemma getConsistencyName_loaded code st names :
  consistencyNames st = Some names →
  getConsistencyName consistencies (val code) st =
    (match names !! Some code with
     | Some name => if truthy name then inr (val name)
                    else inl (UnknownConsistencyLevel code)
     | None => inl (UnknownConsistencyLevel code)
     end, st).
Proof.
  intros Hn. unfold getConsistencyName.
  unfold mbind at 1, M_bind. rewrite loadConsistencyNames_run, Hn.
  unfold mbind, M_bind, gets. rewrite Hn.
  destruct (names !! Some code) as [name|]; [|done]. by destruct (truthy name).
Qed.

Lemma upper_ascii_not_lower c : is_lower (upper_ascii c) = false.
Proof. by destruct c as [[] [] [] [] [] [] [] []]. Qed.

Lemma toUpperCase_no_lower s : has_lower (toUpperCase s) = false.
Proof.
  induction s as [|c s IH]; [done|]. simpl. by rewrite upper_ascii_not_lower, IH.
Qed.

Lemma fold_names_no_lower (names : list string) (table : gmap (option Z) string) :
  map_Forall (λ _ v, has_lower v = false) table →
  map_Forall (λ _ v, has_lower v = false)
    (fold_left (λ names name, <[consistencies_get consistencies name := toUpperCase name]> names)
               names table).
Proof.
  revert table. induction names as [|n names IH]; intros table Ht; [done|].
  simpl. apply IH, map_Forall_insert_2; [apply toUpperCase_no_lower|done].
Qed.

Lemma built_no_lower :
  map_Forall (λ _ v, has_lower v = false) (builtConsistencyNames consistencies).
Proof.
  unfold builtConsistencyNames.
  do 4 (apply map_Forall_insert_2; [done|]).
  apply fold_names_no_lower, map_Forall_empty.
Qed.

(** X1. The lazy table settles with the first call: whatever
    [getConsistencyName] does for [c], returning or throwing, it does again
    when called in the state it left, and that state is left as it is; after
    a call for a code no further call changes the state, for any argument. *)
Theorem getConsistencyName_settles c st :
  getConsistencyName consistencies c (getConsistencyName consistencies c st).2 =
    getConsistencyName consistencies c st ∧
  ∀ c', (∃ code, c = val code) →
        (getConsistencyName consistencies c'
           (getConsistencyName consistencies c st).2).2 =
        (getConsistencyName consistencies c st).2.
Proof.
  destruct c as [| |code].
  - split; [done|]. by intros c' [code ?].
  - split; [done|]. by intros c' [code ?].
  - assert (∃ names, consistencyNames
              (getConsistencyName consistencies (val code) st).2 = Some names) as [names Hn].
    { destruct (consistencyNames st) as [names|] eqn:Hn.
      - exists names. by rewrite (getConsistencyName_loaded _ _ _ Hn).
      - exists (builtConsistencyNames consistencies).
        rewrite getConsistencyName_run by (by left). done. }
    split.
    + rewrite (getConsistencyName_loaded _ _ _ Hn).
      destruct (consistencyNames st) as [names0|] eqn:Hn0.
      * rewrite (getConsistencyName_loaded _ _ _ Hn0) in *. simpl in Hn.
        rewrite Hn0 in Hn. by injection Hn as <-.
      * rewrite getConsistencyName_run in * by (by left). simpl in Hn.
        by injection Hn as <-.
    + intros c' _. destruct c' as [| |code']; [done|done|].
      by rewrite (getConsistencyName_loaded _ _ _ Hn).
Qed.

(** X2. [getConsistencyName] gives the name "in upper case": from a state
    whose table is not built or is the built one, a name it returns is not
    empty and has no lower-case ASCII letter, whatever the registry. *)
Theorem getConsistencyName_upper_case c st n st' :
  registry_ok consistencies st →
  getConsistencyName consistencies c st = (inr (val n), st') →
  n ≠ "" ∧ has_lower n = false.
Proof.
  intros Hreg. destruct c as [| |code]; [done|done|].
  rewrite getConsistencyName_run by done.
  destruct (builtConsistencyNames consistencies !! Some code) as [name|] eqn:Hl; [|done].
  destruct (truthy name) eqn:Ht; [|done]. intros [= <- _]. split.
  - intros ->. done.
  - by apply (built_no_lower _ _ Hl).
Qed.
End Table.

(** ** What [setPayloadKey] can touch *)

Lemma set_customPayload_key_state options key b st :
  (set_customPayload_key options key b st).2 = st ∨
  ∃ o p m, objects st !! options = Some o ∧ Options.customPayload o = val p ∧
           payloads st !! p = Some m ∧
           (set_customPayload_key options key b st).2 =
             set_payloads (<[p := <[key := b]> m]> (payloads st)) st.
Proof.
  unfold set_customPayload_key, get_field, mbind, M_bind, read_object.
  destruct (objects st !! options) as [o|] eqn:Ho; [|by left]. simpl.
  destruct (Options.customPayload o) as [| |p] eqn:Hcp; [by left|by left|].
  unfold read_payload. destruct (payloads st !! p) as [m|] eqn:Hm; [|by left].
  right. by exists o, p, m.
Qed.

Lemma get_customPayload_key_state options key st :
  (get_customPayload_key options key st).2 = st.
Proof.
  unfold get_customPayload_key, get_field, mbind, M_bind, read_object.
  destruct (objects st !! options) as [o|]; [|done]. simpl.
  destruct (Options.customPayload o) as [| |p]; [done|done|].
  unfold read_payload. by destruct (payloads st !! p).
Qed.

Lemma setPayloadKey_state {A : Type} options profileOptions key (value : js A)
    (converter : A → M Buffer) (enc : A → Buffer) st :
  (∀ v s, converter v s = (inr (enc v), s)) →
  (setPayloadKey options profileOptions key value converter st).2 = st ∨
  ∃ o p m b, objects st !! options = Some o ∧ Options.customPayload o = val p ∧
             payloads st !! p = Some m ∧
             (setPayloadKey options profileOptions key value converter st).2 =
               set_payloads (<[p := <[key := b]> m]> (payloads st)) st.
Proof.
  intros Hconv. unfold setPayloadKey. destruct value as [| |v].
  - unfold mbind, M_bind.
    pose proof (get_customPayload_key_state profileOptions key st) as Hget.
    destruct (get_customPayload_key profileOptions key st) as [[e|[b|]] s]; simpl in Hget;
      subst s; [by left| |by left].
    destruct (set_customPayload_key_state options key b st) as [?|(o & p & m & ? & ? & ? & ?)];
      [by left|right; by exists o, p, m, b].
  - by left.
  - unfold mbind, M_bind. rewrite Hconv.
    destruct (set_customPayload_key_state options key (enc v) st)
      as [?|(o & p & m & ? & ? & ? & ?)];
      [by left|right; by exists o, p, m, (enc v)].
Qed.

(** X3. [setPayloadKey] writes at most one entry: whatever the arguments and
    the state, and whether it returns or throws, it leaves the option
    objects, the table of names and the slots as they are; it adds and
    removes no payload map; in every map every other key is as it was and
    [key] is still there if it was; and the only map that can differ is the
    [customPayload] of [options]. *)
Theorem setPayloadKey_footprint {A : Type} options profileOptions key (value : js A)
    (converter : A → M Buffer) (enc : A → Buffer) st :
  (∀ v s, converter v s = (inr (enc v), s)) →
  objects (setPayloadKey options profileOptions key value converter st).2 = objects st ∧
  consistencyNames (setPayloadKey options profileOptions key value converter st).2 =
    consistencyNames st ∧
  graphOptionsCache (setPayloadKey options profileOptions key value converter st).2 =
    graphOptionsCache st ∧
  length (payloads (setPayloadKey options profileOptions key value converter st).2) =
    length (payloads st) ∧
  ∀ p m, payloads st !! p = Some m →
    ∃ m', payloads (setPayloadKey options profileOptions key value converter st).2 !! p =
            Some m' ∧
          (∀ k, k ≠ key → m' !! k = m !! k) ∧
          (is_Some (m !! key) → is_Some (m' !! key)) ∧
          (m' = m ∨
           ∃ o, objects st !! options = Some o ∧ Options.customPayload o = val p).
Proof.
  intros Hconv.
  destruct (setPayloadKey_state options profileOptions key value converter enc st Hconv)
    as [->|(o & p0 & m0 & b & Ho & Hcp & Hm0 & ->)].
  - split_and!; try done. intros p m Hm. exists m. split_and!; auto.
  - unfold set_payloads. cbn [objects payloads consistencyNames graphOptionsCache].
    split_and!; try done; [by rewrite length_insert|].
    intros p m Hm. destruct (decide (p = p0)) as [->|Hne].
    + rewrite Hm0 in Hm. injection Hm as <-. exists (<[key := b]> m0). split_and!.
      * apply list_lookup_insert_eq. by eapply lookup_lt_Some.
      * intros k Hk. by rewrite lookup_insert_ne.
      * intros _. by rewrite lookup_insert_eq.
      * right. by exists o.
    + exists m. split_and!; auto. by rewrite list_lookup_insert_ne.
Qed.

(** ** [createDefaultOptions], entry by entry *)

Lemma wp_allocBufferFromString_text text (Q : Buffer → State → Prop)
    (E : Error → State → Prop) st :
  (∀ s, text = val s → Q (list_byte_of_string s) st) →
  ((∀ s, text ≠ val s) → E TypeError st) →
  wp (allocBufferFromString text) Q E st.
Proof.
  intros HQ HE. destruct text as [| |s]; simpl; [by apply HE|by apply HE|by apply HQ].
Qed.

Lemma js_truthy_val {A : Type} `{!Truthy A} (v : js A) :
  js_truthy v = true → ∃ a, v = val a.
Proof. destruct v as [| |a]; [done|done|by exists a]. Qed.

Section DefaultsExact.
Variable consistencies : list (string * Z).
Variable proxyExecuteKey : string.

(** [getConsistencyName] on a code, during the filling of an object. *)
Lemma building_getConsistencyName_code st0 lo p P code
    (Q : js string → State → Prop) (E : Error → State → Prop) st :
  building consistencies st0 lo p P st →
  (∀ name st', building consistencies st0 lo p P st' →
               name_ok consistencies st0 (val code) (val name) → Q (val name) st') →
  (∀ st', frame consistencies st0 st' →
          err_ok consistencies st0 (UnknownConsistencyLevel code) →
          E (UnknownConsistencyLevel code) st') →
  wp (getConsistencyName consistencies (val code)) Q E st.
Proof.
  intros Hb HQ HE.
  assert (names_step consistencies st0 st) as Hstep0.
  { by destruct Hb as ((_ & ? & _) & _). }
  unfold getConsistencyName.
  apply wp_bind, wp_loadConsistencyNames. intros st1 Ho Hp Hc Hstep [names Hnames].
  pose proof (building_names _ _ _ _ _ _ _ Hb Ho Hp Hc Hstep) as Hb1.
  apply wp_bind, wp_gets. rewrite Hnames.
  assert (registry_ok consistencies st0 →
          names = builtConsistencyNames consistencies) as Hbuilt.
  { intros Hreg. apply (names_step_registry _ _ _ Hstep0) in Hreg.
    apply (names_step_registry _ _ _ Hstep) in Hreg.
    destruct Hreg as [Hreg|Hreg]; congruence. }
  assert ((∀ name, names !! Some code = Some name → truthy name = false) →
          err_ok consistencies st0 (UnknownConsistencyLevel code)) as Herr.
  { intros Hl code' [= <-] Hreg (name' & Hl' & Ht').
    rewrite <- (Hbuilt Hreg) in Hl'. rewrite (Hl _ Hl') in Ht'. done. }
  destruct (names !! Some code) as [name|] eqn:Hl.
  - destruct (truthy name) eqn:Ht.
    + apply wp_ret, HQ; [done|]. split; [done|]. split.
      * split; [done|]. intros []. by exists code.
      * intros Hreg code' [= <-]. exists name. by rewrite <- (Hbuilt Hreg).
    + apply wp_throw, HE; [by eapply building_frame|]. apply Herr.
      intros name' [= <-]. done.
  - apply wp_throw, HE; [by eapply building_frame|]. apply Herr. by intros name' [=].
Qed.

(** [if (text) customPayload[key] = allocBufferFromString(text)] *)
Lemma building_put_truthy st0 lo p o' m0 (text : js string) key
    (Q : unit → State → Prop) (E : Error → State → Prop) st :
  building consistencies st0 lo p (λ o m, o = o' ∧ m = m0) st →
  (∀ st', building consistencies st0 lo p (λ o m, o = o' ∧ m = put_truthy key text m0) st' →
          Q () st') →
  wp (when (js_truthy text)
        (b ← allocBufferFromString text; set_customPayload_key lo key b)) Q E st.
Proof.
  intros Hb HQ. unfold put_truthy in HQ. apply wp_when.
  - intros Ht. rewrite Ht in HQ. destruct (js_truthy_val _ Ht) as [s ->].
    apply wp_bind, wp_allocBufferFromString_text; [|by intros Hs; destruct (Hs s)].
    intros s' [= <-].
    eapply (building_set_key _ _ _ _ _
              (λ o m, o = o' ∧ m = put_text key (val s) m0)); [exact Hb| |exact HQ].
    intros o m Hom. by destruct Hom as [-> ->].
  - intros Ht. rewrite Ht in HQ. by apply HQ.
Qed.

(** [if (c !== undefined) customPayload[key] =
    allocBufferFromString(getConsistencyName(c))] *)
Lemma building_put_level st0 lo p o' m0 (c : js Z) key
    (Q : unit → State → Prop) (E : Error → State → Prop) st :
  building consistencies st0 lo p (λ o m, o = o' ∧ m = m0) st →
  (∀ n st', c ≠ null → name_ok consistencies st0 c n →
            building consistencies st0 lo p (λ o m, o = o' ∧ m = put_text key n m0) st' →
            Q () st') →
  (∀ st', frame consistencies st0 st' → c = null → E TypeError st') →
  (∀ code st', frame consistencies st0 st' → c = val code →
               err_ok consistencies st0 (UnknownConsistencyLevel code) →
               E (UnknownConsistencyLevel code) st') →
  wp (when (negb (is_undefined c))
        (n ← getConsistencyName consistencies c;
         b ← allocBufferFromString n;
         set_customPayload_key lo key b)) Q E st.
Proof.
  intros Hb HQ HT HU. destruct c as [| |code]; simpl.
  - apply (HQ undefined); [done| |exact Hb].
    split; [done|]. split; [|done]. split; [|done]. by intros _ [? ?].
  - apply wp_bind, wp_ret. simpl. apply wp_bind, wp_throw, HT; [|done].
    by eapply building_frame.
  - apply wp_bind. eapply building_getConsistencyName_code; [exact Hb| |].
    + intros name st' Hb' Hname.
      apply wp_bind, wp_ret.
      eapply (building_set_key _ _ _ _ _
                (λ o m, o = o' ∧ m = put_text key (val name) m0)); [exact Hb'| |].
      * intros o m Hom. destruct Hom as [-> ->]. split; reflexivity.
      * intros st2 Hb2. by apply (HQ (val name)).
    + intros st' Hf He. by apply (HU code).
Qed.

(** What [createDefaultOptions] makes, and why it throws when it does. *)
Lemma createDefaultOptions_exact profileManager baseOptions defaultRetryPolicy profile st :
  wp (createDefaultOptions consistencies proxyExecuteKey profileManager baseOptions
        defaultRetryPolicy profile)
     (λ d st', ∃ p, building consistencies st d p
                 (defaults_made consistencies proxyExecuteKey profileManager baseOptions
                    defaultRetryPolicy profile st p) st')
     (λ e st', frame consistencies st st' ∧
               defaults_failed consistencies baseOptions profile st e) st.
Proof.
  unfold createDefaultOptions. fold (graphOptions_of profile).
  fold (default_language baseOptions profile). fold (default_source baseOptions profile).
  fold (default_name baseOptions profile).
  fold (default_readConsistency baseOptions profile).
  fold (default_writeConsistency baseOptions profile).
  fold (default_readTimeout profileManager baseOptions profile).
  set (E := λ (e : Error) st', frame consistencies st st' ∧
                 defaults_failed consistencies baseOptions profile st e).
  assert (∀ st', frame consistencies st st' →
                 default_readConsistency baseOptions profile = null ∨
                 default_writeConsistency baseOptions profile = null → E TypeError st')
    as HT.
  { intros st' Hf Hnull. split; [done|]. split; [apply err_ok_TypeError|]. tauto. }
  assert (∀ code st', frame consistencies st st' →
            default_readConsistency baseOptions profile = val code ∨
            default_writeConsistency baseOptions profile = val code →
            err_ok consistencies st (UnknownConsistencyLevel code) →
            E (UnknownConsistencyLevel code) st') as HU.
  { intros code st' Hf Hcode He. by split. }
  apply wp_bind, wp_allocBufferFromString_text.
  2:{ intros Hs. split; [apply frame_refl|]. split; [apply err_ok_TypeError|]. by left. }
  intros s1 Hs1.
  apply wp_bind, wp_allocBufferFromString_text.
  2:{ intros Hs. split; [apply frame_refl|]. split; [apply err_ok_TypeError|].
      right. by left. }
  intros s2 Hs2.
  apply wp_bind, wp_new_payload, wp_bind, wp_new_object.
  match goal with |- wp _ _ _ ?s => set (st1 := s) end.
  set (lo := length (objects (set_payloads _ st))).
  set (p := length (payloads st)).
  set (o0 := Options.mk undefined (val p) (default_language baseOptions profile)
               (default_source baseOptions profile) undefined undefined undefined
               undefined undefined undefined ∅).
  set (m0 := put_text "graph-source" (default_source baseOptions profile)
               (put_text "graph-language" (default_language baseOptions profile) ∅)).
  assert (building consistencies st lo p (λ o m, o = o0 ∧ m = m0) st1) as Hb.
  { subst st1 lo p o0 m0. unfold set_objects, set_payloads.
    cbn [objects payloads consistencyNames graphOptionsCache].
    split; [split; [split; by apply prefix_app_r | split; [by left|done]]|].
    split; [done|]. split; [done|]. eexists _, _.
    cbn [objects payloads consistencyNames graphOptionsCache]. split_and!.
    - by apply list_lookup_middle.
    - done.
    - by apply list_lookup_middle.
    - done.
    - by rewrite Hs1, Hs2. }
  clearbody st1 lo.
  set (R := resolved_retry profileManager baseOptions defaultRetryPolicy profile).
  eapply (wp_seq _ _ (λ _ st', building consistencies st lo p
                                 (λ o m, o = Options.set_retry R o0 ∧ m = m0) st')
                     (λ _ _, False)); [| |done].
  { unfold R, resolved_retry.
    destruct (same_profile profile (getDefault profileManager)); simpl;
      (eapply building_update_object; [exact Hb|done| |done]);
      by intros o m [-> ->]. }
  clear st1 Hb. intros _ st1 Hb. cbv beta in Hb.
  apply wp_bind. eapply building_put_truthy; [exact Hb|].
  clear st1 Hb. intros st1 Hb.
  apply wp_bind. eapply building_put_truthy; [exact Hb|].
  clear st1 Hb. intros st1 Hb.
  apply wp_bind. eapply building_put_level; [exact Hb| |intros; apply HT; auto
                                            |intros; eapply HU; eauto].
  clear st1 Hb. intros readName st1 Hrnull Hread Hb.
  apply wp_bind. eapply building_put_level; [exact Hb| |intros; apply HT; auto
                                            |intros; eapply HU; eauto].
  clear st1 Hb. intros writeName st1 Hwnull Hwrite Hb.
  apply wp_bind.
  eapply (building_update_object _ _ _ _ _
            (λ o m, o = Options.set_readTimeout
                          (default_readTimeout profileManager baseOptions profile)
                          (Options.set_retry R o0) ∧
                    m = put_text "graph-write-consistency" writeName
                          (put_text "graph-read-consistency" readName
                          (put_truthy "graph-name" (default_name baseOptions profile)
                          (put_truthy proxyExecuteKey (Base.executeAs baseOptions) m0)))));
    [exact Hb|done| |].
  { by intros o m [-> ->]. }
  clear st1 Hb. intros st1 Hb.
  assert (∀ st', building consistencies st lo p
            (λ o m, o = default_object profileManager baseOptions defaultRetryPolicy profile p ∧
                    m = default_payload proxyExecuteKey profileManager baseOptions profile
                          readName writeName) st' →
          ∃ p0, building consistencies st lo p0
                  (defaults_made consistencies proxyExecuteKey profileManager baseOptions
                     defaultRetryPolicy profile st p0) st') as Hdone.
  { intros st' Hb'. exists p. eapply building_weaken; [exact Hb'|].
    intros o m [-> ->]. unfold defaults_made. split_and!; eauto. }
  apply wp_bind. apply wp_when.
  - intros Hpos.
    destruct (default_readTimeout profileManager baseOptions profile) as [| |t] eqn:HT';
      [done|done|]. simpl in Hpos.
    eapply (building_set_key _ _ _ _ _
              (λ o m, o = Options.set_readTimeout (val t) (Options.set_retry R o0) ∧
                      m = <["request-timeout" := longBuffer t]>
                            (put_text "graph-write-consistency" writeName
                            (put_text "graph-read-consistency" readName
                            (put_truthy "graph-name" (default_name baseOptions profile)
                            (put_truthy proxyExecuteKey (Base.executeAs baseOptions) m0))))));
      [exact Hb| |].
    + intros o m Hom. destruct Hom as [-> ->]. split; reflexivity.
    + intros st2 Hb2. apply wp_ret, Hdone.
      eapply building_weaken; [exact Hb2|]. intros o m [-> ->].
      unfold default_object, default_payload, put_timeout. rewrite HT', Hpos. done.
  - intros Hpos. apply wp_ret, Hdone.
    eapply building_weaken; [exact Hb|]. intros o m [-> ->].
    unfold default_object, default_payload, put_timeout.
    destruct (default_readTimeout profileManager baseOptions profile) as [| |t] eqn:HT';
      [done|done|]. simpl in Hpos. rewrite Hpos. done.
Qed.
End DefaultsExact.

(** ** The entries of a payload made by [createDefaultOptions] *)

Lemma put_text_other key text m k : k ≠ key → put_text key text m !! k = m !! k.
Proof. intros Hne. destruct text; simpl; [done|done|by rewrite lookup_insert_ne]. Qed.

Lemma put_truthy_other key text m k : k ≠ key → put_truthy key text m !! k = m !! k.
Proof.
  intros Hne. unfold put_truthy. destruct (js_truthy text); [by apply put_text_other|done].
Qed.

Lemma put_timeout_other t m k : k ≠ "request-timeout" → put_timeout t m !! k = m !! k.
Proof.
  intros Hne. destruct t as [| |n]; simpl; [done|done|].
  destruct (0 <? n); [by rewrite lookup_insert_ne|done].
Qed.

Lemma put_text_is_Some key text m k :
  is_Some (put_text key text m !! k) → k = key ∨ is_Some (m !! k).
Proof.
  destruct text as [| |s]; simpl; [by right|by right|].
  rewrite lookup_insert. case_decide; [by left|by right].
Qed.

Lemma put_truthy_is_Some key text m k :
  is_Some (put_truthy key text m !! k) → k = key ∨ is_Some (m !! k).
Proof.
  unfold put_truthy. destruct (js_truthy text); [apply put_text_is_Some|by right].
Qed.

Lemma put_timeout_is_Some t m k :
  is_Some (put_timeout t m !! k) → k = "request-timeout" ∨ is_Some (m !! k).
Proof.
  destruct t as [| |n]; simpl; [by right|by right|].
  destruct (0 <? n); [|by right].
  rewrite lookup_insert. case_decide; [by left|by right].
Qed.

Section DefaultPayload.
Variable proxyExecuteKey : string.
Hypothesis proxy_key_distinct : proxyExecuteKey ∉ graph_keys.

Lemma graph_key_not_proxy key : key ∈ graph_keys → key ≠ proxyExecuteKey.
Proof. by intros Hkey ->. Qed.

Lemma default_payload_keys profileManager baseOptions profile rn wn key :
  is_Some (default_payload proxyExecuteKey profileManager baseOptions profile rn wn !! key) →
  key = proxyExecuteKey ∨ key ∈ graph_keys.
Proof.
  unfold default_payload. intros H.
  assert (∀ k, k ∈ graph_keys ↔
               k = "graph-language" ∨ k = "graph-source" ∨ k = "graph-name" ∨
               k = "graph-read-consistency" ∨ k = "graph-write-consistency" ∨
               k = "request-timeout") as Hk.
  { intros k. unfold graph_keys. rewrite !elem_of_cons, elem_of_nil. tauto. }
  rewrite Hk.
  apply put_timeout_is_Some in H as [->|H]; [tauto|].
  apply put_text_is_Some in H as [->|H]; [tauto|].
  apply put_text_is_Some in H as [->|H]; [tauto|].
  apply put_truthy_is_Some in H as [->|H]; [tauto|].
  apply put_truthy_is_Some in H as [->|H]; [tauto|].
  apply put_text_is_Some in H as [->|H]; [tauto|].
  apply put_text_is_Some in H as [->|H]; [tauto|].
  rewrite lookup_empty in H. by destruct H.
Qed.

Lemma default_payload_language profileManager baseOptions profile rn wn :
  default_payload proxyExecuteKey profileManager baseOptions profile rn wn
    !! "graph-language" =
  match default_language baseOptions profile with
  | val s => Some (list_byte_of_string s)
  | _ => None
  end.
Proof.
  unfold default_payload.
  rewrite put_timeout_other, !put_text_other, put_truthy_other by done.
  rewrite put_truthy_other by (apply graph_key_not_proxy, list_elem_of_In; simpl; tauto).
  rewrite put_text_other by done.
  destruct (default_language baseOptions profile); simpl; [done|done|].
  apply lookup_insert_eq.
Qed.

Lemma default_payload_source profileManager baseOptions profile rn wn :
  default_payload proxyExecuteKey profileManager baseOptions profile rn wn
    !! "graph-source" =
  match default_source baseOptions profile with
  | val s => Some (list_byte_of_string s)
  | _ => default_payload proxyExecuteKey profileManager baseOptions profile rn wn
           !! "graph-source"
  end.
Proof.
  destruct (default_source baseOptions profile) as [| |s] eqn:Hs; [done|done|].
  unfold default_payload.
  rewrite put_timeout_other, !put_text_other, put_truthy_other by done.
  rewrite put_truthy_other by (apply graph_key_not_proxy, list_elem_of_In; simpl; tauto).
  rewrite Hs. apply lookup_insert_eq.
Qed.

Lemma default_payload_name profileManager baseOptions profile rn wn :
  default_payload proxyExecuteKey profileManager baseOptions profile rn wn
    !! "graph-name" =
  match default_name baseOptions profile with
  | val s => if truthy s then Some (list_byte_of_string s) else None
  | _ => None
  end.
Proof.
  unfold default_payload.
  rewrite put_timeout_other, !put_text_other by done.
  unfold put_truthy at 1.
  assert (∀ m : Payload,
            put_truthy proxyExecuteKey (Base.executeAs baseOptions) m !! "graph-name" =
            m !! "graph-name") as Hproxy.
  { intros m. apply put_truthy_other, graph_key_not_proxy, list_elem_of_In. simpl. tauto. }
  destruct (default_name baseOptions profile) as [| |s]; simpl.
  - rewrite Hproxy, !put_text_other by done. apply lookup_empty.
  - rewrite Hproxy, !put_text_other by done. apply lookup_empty.
  - destruct (truthy s); [apply lookup_insert_eq|].
    rewrite Hproxy, !put_text_other by done. apply lookup_empty.
Qed.

Lemma default_payload_proxy profileManager baseOptions profile rn wn :
  default_payload proxyExecuteKey profileManager baseOptions profile rn wn
    !! proxyExecuteKey =
  match Base.executeAs baseOptions with
  | val s => if truthy s then Some (list_byte_of_string s) else None
  | _ => None
  end.
Proof.
  assert (∀ key, key ∈ graph_keys → proxyExecuteKey ≠ key) as Hne.
  { intros key Hkey Heq. apply proxy_key_distinct. by rewrite Heq. }
  assert (∀ k, k = "graph-language" ∨ k = "graph-source" ∨ k = "graph-name" ∨
               k = "graph-read-consistency" ∨ k = "graph-write-consistency" ∨
               k = "request-timeout" → proxyExecuteKey ≠ k) as Hk.
  { intros k Hk. apply Hne. unfold graph_keys. rewrite !elem_of_cons, elem_of_nil. tauto. }
  unfold default_payload.
  rewrite put_timeout_other, !put_text_other, put_truthy_other by (apply Hk; tauto).
  unfold put_truthy.
  destruct (Base.executeAs baseOptions) as [| |s]; simpl.
  - rewrite !put_text_other by (apply Hk; tauto). apply lookup_empty.
  - rewrite !put_text_other by (apply Hk; tauto). apply lookup_empty.
  - destruct (truthy s); [apply lookup_insert_eq|].
    rewrite !put_text_other by (apply Hk; tauto). apply lookup_empty.
Qed.

Lemma default_payload_read profileManager baseOptions profile rn wn :
  default_payload proxyExecuteKey profileManager baseOptions profile rn wn
    !! "graph-read-consistency" =
  match rn with
  | val s => Some (list_byte_of_string s)
  | _ => None
  end.
Proof.
  unfold default_payload. rewrite put_timeout_other, put_text_other by done.
  assert (∀ m : Payload,
            put_truthy proxyExecuteKey (Base.executeAs baseOptions) m
              !! "graph-read-consistency" = m !! "graph-read-consistency") as Hproxy.
  { intros m. apply put_truthy_other, graph_key_not_proxy, list_elem_of_In. simpl. tauto. }
  destruct rn as [| |s]; simpl; [| |apply lookup_insert_eq];
    rewrite put_truthy_other, Hproxy, !put_text_other by done; apply lookup_empty.
Qed.

Lemma default_payload_write profileManager baseOptions profile rn wn :
  default_payload proxyExecuteKey profileManager baseOptions profile rn wn
    !! "graph-write-consistency" =
  match wn with
  | val s => Some (list_byte_of_string s)
  | _ => None
  end.
Proof.
  unfold default_payload. rewrite put_timeout_other by done.
  assert (∀ m : Payload,
            put_truthy proxyExecuteKey (Base.executeAs baseOptions) m
              !! "graph-write-consistency" = m !! "graph-write-consistency") as Hproxy.
  { intros m. apply put_truthy_other, graph_key_not_proxy, list_elem_of_In. simpl. tauto. }
  destruct wn as [| |s]; simpl; [| |apply lookup_insert_eq];
    rewrite put_text_other, put_truthy_other, Hproxy, !put_text_other by done;
    apply lookup_empty.
Qed.

Lemma default_payload_timeout profileManager baseOptions profile rn wn :
  default_payload proxyExecuteKey profileManager baseOptions profile rn wn
    !! "request-timeout" =
  match default_readTimeout profileManager baseOptions profile with
  | val t => if 0 <? t then Some (longBuffer t) else None
  | _ => None
  end.
Proof.
  unfold default_payload.
  assert (∀ m : Payload,
            put_truthy proxyExecuteKey (Base.executeAs baseOptions) m
              !! "request-timeout" = m !! "request-timeout") as Hproxy.
  { intros m. apply put_truthy_other, graph_key_not_proxy, list_elem_of_In. simpl. tauto. }
  assert (∀ m : Payload,
            m = put_text "graph-write-consistency" wn
                  (put_text "graph-read-consistency" rn
                  (put_truthy "graph-name" (default_name baseOptions profile)
                  (put_truthy proxyExecuteKey (Base.executeAs baseOptions)
                  (put_text "graph-source" (default_source baseOptions profile)
                  (put_text "graph-language" (default_language baseOptions profile) ∅))))) →
            m !! "request-timeout" = None) as Hnone.
  { intros m ->.
    rewrite !put_text_other, put_truthy_other, Hproxy, !put_text_other by done.
    apply lookup_empty. }
  destruct (default_readTimeout profileManager baseOptions profile) as [| |t]; simpl;
    [by apply Hnone|by apply Hnone|].
  destruct (0 <? t); [apply lookup_insert_eq|by apply Hnone].
Qed.
End DefaultPayload.

(** ** The graph options made for a profile *)

Section DefaultsMade.
Variable consistencies : list (string * Z).
Variable proxyExecuteKey : string.

(** On a miss [getDefaultGraphOptions] runs the factory and fills the slot
    with what it returns. *)
Lemma getDefaultGraphOptions_miss_run profileManager baseOptions defaultRetryPolicy
    profile st :
  graphOptionsCache st !! Profile.name profile = None →
  getDefaultGraphOptions consistencies proxyExecuteKey profileManager baseOptions
    defaultRetryPolicy profile st =
  match createDefaultOptions consistencies proxyExecuteKey profileManager baseOptions
          defaultRetryPolicy profile st with
  | (inr d, s1) =>
      (inr d, set_graphOptionsCache (<[Profile.name profile := d]> (graphOptionsCache s1)) s1)
  | (inl e, s1) => (inl e, s1)
  end.
Proof.
  intros Hmiss. unfold getDefaultGraphOptions, getOrCreateGraphOptions.
  unfold mbind at 1, M_bind. unfold gets. rewrite Hmiss.
  unfold mbind at 1, M_bind.
  by destruct (createDefaultOptions _ _ _ _ _ _ st) as [[e|d] s1].
Qed.

Lemma getDefaultGraphOptions_made profileManager baseOptions defaultRetryPolicy
    profile st d st' :
  graphOptionsCache st !! Profile.name profile = None →
  getDefaultGraphOptions consistencies proxyExecuteKey profileManager baseOptions
    defaultRetryPolicy profile st = (inr d, st') →
  ∃ p o m,
    extends st st' ∧ names_step consistencies st st' ∧
    graphOptionsCache st' = <[Profile.name profile := d]> (graphOptionsCache st) ∧
    (length (objects st) ≤ d)%nat ∧ (length (payloads st) ≤ p)%nat ∧
    objects st' !! d = Some o ∧ Options.customPayload o = val p ∧
    payloads st' !! p = Some m ∧
    defaults_made consistencies proxyExecuteKey profileManager baseOptions
      defaultRetryPolicy profile st p o m.
Proof.
  intros Hmiss. rewrite getDefaultGraphOptions_miss_run by done.
  pose proof (createDefaultOptions_exact consistencies proxyExecuteKey profileManager
                baseOptions defaultRetryPolicy profile st) as Hwp.
  unfold wp in Hwp.
  destruct (createDefaultOptions _ _ _ _ _ _ st) as [[e|d0] s1]; [done|].
  intros [= <- <-].
  destruct Hwp as (p & (Hext & Hn & Hc) & Hlo & Hlp & o & m & Ho & Hcp & Hm & Hmade).
  exists p, o, m. cbn [objects payloads consistencyNames graphOptionsCache
                        set_graphOptionsCache].
  rewrite Hc. by split_and!.
Qed.

Lemma getDefaultGraphOptions_failed profileManager baseOptions defaultRetryPolicy
    profile st e st' :
  getDefaultGraphOptions consistencies proxyExecuteKey profileManager baseOptions
    defaultRetryPolicy profile st = (inl e, st') →
  graphOptionsCache st !! Profile.name profile = None ∧
  frame consistencies st st' ∧
  defaults_failed consistencies baseOptions profile st e.
Proof.
  destruct (graphOptionsCache st !! Profile.name profile) as [d|] eqn:Hslot.
  - unfold getDefaultGraphOptions, getOrCreateGraphOptions.
    unfold mbind at 1, M_bind. unfold gets. by rewrite Hslot.
  - rewrite getDefaultGraphOptions_miss_run by done.
    pose proof (createDefaultOptions_exact consistencies proxyExecuteKey profileManager
                  baseOptions defaultRetryPolicy profile st) as Hwp.
    unfold wp in Hwp.
    destruct (createDefaultOptions _ _ _ _ _ _ st) as [[e0|d0] s1]; [|done].
    intros [= <- <-]. by destruct Hwp.
Qed.

(** X4. The graph options made for a profile have the language and the
    source of the profile's graph options, or else of the base options (an
    empty string counts as none), both as their properties and, as bytes,
    under [graph-language] and [graph-source] in their payload; and the
    payload has no key but the six graph keys and the proxy-execute key. *)
Theorem defaults_language_and_source profileManager baseOptions defaultRetryPolicy
    profile st d st' :
  proxyExecuteKey ∉ graph_keys →
  graphOptionsCache st !! Profile.name profile = None →
  getDefaultGraphOptions consistencies proxyExecuteKey profileManager baseOptions
    defaultRetryPolicy profile st = (inr d, st') →
  ∃ o p m language source,
    objects st' !! d = Some o ∧ Options.customPayload o = val p ∧
    payloads st' !! p = Some m ∧
    js_or (ProfileGraph.language (graphOptions_of profile)) (Base.language baseOptions) =
      val language ∧
    js_or (ProfileGraph.source (graphOptions_of profile)) (Base.source baseOptions) =
      val source ∧
    Options.graphLanguage o = val language ∧ Options.graphSource o = val source ∧
    m !! "graph-language" = Some (list_byte_of_string language) ∧
    m !! "graph-source" = Some (list_byte_of_string source) ∧
    ∀ key, is_Some (m !! key) → key = proxyExecuteKey ∨ key ∈ graph_keys.
Proof.
  intros Hproxy Hmiss Hrun.
  destruct (getDefaultGraphOptions_made _ _ _ _ _ _ _ Hmiss Hrun)
    as (p & o & m & _ & _ & _ & _ & _ & Ho & Hcp & Hm & Hmade).
  destruct Hmade as ([sl Hsl] & [ss Hss] & _ & _ & -> & rn & wn & _ & _ & ->).
  exists (default_object profileManager baseOptions defaultRetryPolicy profile p), p,
         (default_payload proxyExecuteKey profileManager baseOptions profile rn wn), sl, ss.
  split_and!; try done.
  - by rewrite (default_payload_language _ Hproxy), Hsl.
  - by rewrite (default_payload_source _ Hproxy), Hss.
  - by apply default_payload_keys.
Qed.

(** X5. The graph name of a profile is the name of the profile's graph
    options unless that is [undefined], and then the name of the base
    options: the payload made for the profile has it under [graph-name] when
    it is a string that is not empty, and has no [graph-name] otherwise, so
    that [null] or an empty name in the profile hides the name of the base
    options. *)
Theorem defaults_graph_name profileManager baseOptions defaultRetryPolicy
    profile st d st' :
  proxyExecuteKey ∉ graph_keys →
  graphOptionsCache st !! Profile.name profile = None →
  getDefaultGraphOptions consistencies proxyExecuteKey profileManager baseOptions
    defaultRetryPolicy profile st = (inr d, st') →
  ∃ o p m,
    objects st' !! d = Some o ∧ Options.customPayload o = val p ∧
    payloads st' !! p = Some m ∧
    m !! "graph-name" =
      match ifUndefined (ProfileGraph.name (graphOptions_of profile))
                        (Base.name baseOptions) with
      | val name => if String.eqb name "" then None else Some (list_byte_of_string name)
      | _ => None
      end.
Proof.
  intros Hproxy Hmiss Hrun.
  destruct (getDefaultGraphOptions_made _ _ _ _ _ _ _ Hmiss Hrun)
    as (p & o & m & _ & _ & _ & _ & _ & Ho & Hcp & Hm & Hmade).
  destruct Hmade as (_ & _ & _ & _ & -> & rn & wn & _ & _ & ->).
  eexists _, p, _. split_and!; [exact Ho|done|exact Hm|].
  rewrite (default_payload_name _ Hproxy). unfold default_name.
  destruct (ifUndefined _ _) as [| |name]; [done|done|].
  unfold truthy, string_truthy. by destruct (String.eqb name "").
Qed.

(** X6. The payload made for a profile has the proxy-execute key just when
    the base options have an [executeAs] that is a string and not empty,
    with the bytes of that string. *)
Theorem defaults_proxy_execute profileManager baseOptions defaultRetryPolicy
    profile st d st' :
  proxyExecuteKey ∉ graph_keys →
  graphOptionsCache st !! Profile.name profile = None →
  getDefaultGraphOptions consistencies proxyExecuteKey profileManager baseOptions
    defaultRetryPolicy profile st = (inr d, st') →
  ∃ o p m,
    objects st' !! d = Some o ∧ Options.customPayload o = val p ∧
    payloads st' !! p = Some m ∧
    m !! proxyExecuteKey =
      match Base.executeAs baseOptions with
      | val user => if String.eqb user "" then None else Some (list_byte_of_string user)
      | _ => None
      end.
Proof.
  intros Hproxy Hmiss Hrun.
  destruct (getDefaultGraphOptions_made _ _ _ _ _ _ _ Hmiss Hrun)
    as (p & o & m & _ & _ & _ & _ & _ & Ho & Hcp & Hm & Hmade).
  destruct Hmade as (_ & _ & _ & _ & -> & rn & wn & _ & _ & ->).
  eexists _, p, _. split_and!; [exact Ho|done|exact Hm|].
  rewrite (default_payload_proxy _ Hproxy).
  destruct (Base.executeAs baseOptions) as [| |user]; [done|done|].
  unfold truthy, string_truthy. by destruct (String.eqb user "").
Qed.

(** X7. The read and the write consistency of a profile are those of the
    profile's graph options unless [undefined], and then those of the base
    options. From a state whose table of names is not built or is the built
    one, the payload made for the profile has under [graph-read-consistency]
    the bytes of the name that the table has for the read consistency, and
    no such key when none is given; and likewise under
    [graph-write-consistency]. *)
Theorem defaults_consistency_levels profileManager baseOptions defaultRetryPolicy
    profile st d st' :
  proxyExecuteKey ∉ graph_keys →
  registry_ok consistencies st →
  graphOptionsCache st !! Profile.name profile = None →
  getDefaultGraphOptions consistencies proxyExecuteKey profileManager baseOptions
    defaultRetryPolicy profile st = (inr d, st') →
  ∃ o p m,
    objects st' !! d = Some o ∧ Options.customPayload o = val p ∧
    payloads st' !! p = Some m ∧
    match ifUndefined (ProfileGraph.readConsistency (graphOptions_of profile))
                      (Base.readConsistency baseOptions) with
    | undefined => m !! "graph-read-consistency" = None
    | null => False
    | val code =>
        ∃ name, builtConsistencyNames consistencies !! Some code = Some name ∧
                name ≠ "" ∧
                m !! "graph-read-consistency" = Some (list_byte_of_string name)
    end ∧
    match ifUndefined (ProfileGraph.writeConsistency (graphOptions_of profile))
                      (Base.writeConsistency baseOptions) with
    | undefined => m !! "graph-write-consistency" = None
    | null => False
    | val code =>
        ∃ name, builtConsistencyNames consistencies !! Some code = Some name ∧
                name ≠ "" ∧
                m !! "graph-write-consistency" = Some (list_byte_of_string name)
    end.
Proof.
  intros Hproxy Hreg Hmiss Hrun.
  destruct (getDefaultGraphOptions_made _ _ _ _ _ _ _ Hmiss Hrun)
    as (p & o & m & _ & _ & _ & _ & _ & Ho & Hcp & Hm & Hmade).
  destruct Hmade as (_ & _ & Hrnull & Hwnull & -> & rn & wn & Hrn & Hwn & ->).
  eexists _, p, _. split_and!; [exact Ho|done|exact Hm| |].
  - rewrite (default_payload_read _ Hproxy). unfold default_readConsistency in *.
    destruct Hrn as (Hnn & Hund & Hname).
    destruct (ifUndefined _ _) as [| |code]; [|done|].
    + destruct rn as [| |s]; [done|done|].
      destruct Hund as [_ Hund]. discriminate Hund. by intros [code ?].
    + destruct (Hname Hreg code eq_refl) as (name & Hl & Ht & ->).
      exists name. split_and!; [done| |done]. by intros ->.
  - rewrite (default_payload_write _ Hproxy). unfold default_writeConsistency in *.
    destruct Hwn as (Hnn & Hund & Hname).
    destruct (ifUndefined _ _) as [| |code]; [|done|].
    + destruct wn as [| |s]; [done|done|].
      destruct Hund as [_ Hund]. discriminate Hund. by intros [code ?].
    + destruct (Hname Hreg code eq_refl) as (name & Hl & Ht & ->).
      exists name. split_and!; [done| |done]. by intros ->.
Qed.

(** X8. The read timeout of the graph options made for a profile is the one
    of the profile unless [undefined], then the one of the default profile
    unless [undefined], and then the one of the base options; the payload
    has [request-timeout], the 8 bytes of the timeout, just when it is above
    zero. *)
Theorem defaults_read_timeout profileManager baseOptions defaultRetryPolicy
    profile st d st' :
  proxyExecuteKey ∉ graph_keys →
  graphOptionsCache st !! Profile.name profile = None →
  getDefaultGraphOptions consistencies proxyExecuteKey profileManager baseOptions
    defaultRetryPolicy profile st = (inr d, st') →
  ∃ o p m,
    objects st' !! d = Some o ∧ Options.customPayload o = val p ∧
    payloads st' !! p = Some m ∧
    Options.readTimeout o =
      ifUndefined3 (Profile.readTimeout profile)
                   (Profile.readTimeout (getDefault profileManager))
                   (Base.readTimeout baseOptions) ∧
    m !! "request-timeout" =
      match Options.readTimeout o with
      | val t => if 0 <? t then Some (longBuffer t) else None
      | _ => None
      end.
Proof.
  intros Hproxy Hmiss Hrun.
  destruct (getDefaultGraphOptions_made _ _ _ _ _ _ _ Hmiss Hrun)
    as (p & o & m & _ & _ & _ & _ & _ & Ho & Hcp & Hm & Hmade).
  destruct Hmade as (_ & _ & _ & _ & -> & rn & wn & _ & _ & ->).
  eexists _, p, _. split_and!; [exact Ho|done|exact Hm|done|].
  by rewrite (default_payload_timeout _ Hproxy).
Qed.

(** X9. When the graph options of a profile are to be made, from a state
    whose table of names is not built or is the built one,
    [getDefaultGraphOptions] returns exactly when the language and the
    source resolve to strings and the read and the write consistency are
    each not given or a code that has a name; otherwise it throws. *)
Theorem defaults_made_iff_resolvable profileManager baseOptions defaultRetryPolicy
    profile st :
  registry_ok consistencies st →
  graphOptionsCache st !! Profile.name profile = None →
  (∃ d st', getDefaultGraphOptions consistencies proxyExecuteKey profileManager
              baseOptions defaultRetryPolicy profile st = (inr d, st')) ↔
  defaults_resolvable consistencies baseOptions profile.
Proof.
  intros Hreg Hmiss. split.
  - intros (d & st' & Hrun).
    destruct (getDefaultGraphOptions_made _ _ _ _ _ _ _ Hmiss Hrun)
      as (p & o & m & _ & _ & _ & _ & _ & _ & _ & _ & Hmade).
    destruct Hmade as (Hl & Hs & Hrnull & Hwnull & _ & rn & wn & Hrn & Hwn & _).
    split; [done|]. split; [done|].
    destruct Hrn as (_ & _ & Hrname), Hwn as (_ & _ & Hwname). split.
    + destruct (default_readConsistency baseOptions profile) as [| |code]; [done|done|].
      destruct (Hrname Hreg code eq_refl) as (name & ? & ? & _). by exists name.
    + destruct (default_writeConsistency baseOptions profile) as [| |code]; [done|done|].
      destruct (Hwname Hreg code eq_refl) as (name & ? & ? & _). by exists name.
  - intros ([sl Hsl] & [ss Hss] & Hr & Hw).
    destruct (getDefaultGraphOptions _ _ _ _ _ _ st) as [[e|d] st'] eqn:Hrun;
      [|by exists d, st'].
    exfalso.
    destruct (getDefaultGraphOptions_failed _ _ _ _ _ _ _ Hrun) as (_ & _ & He & Hwhy).
    destruct e as [code|].
    + destruct Hwhy as [Hc|Hc]; rewrite Hc in *; by apply (He code).
    + destruct Hwhy as [Hc|[Hc|[Hc|Hc]]].
      * by apply (Hc sl).
      * by apply (Hc ss).
      * by rewrite Hc in Hr.
      * by rewrite Hc in Hw.
Qed.

(** X10. A throw of [getDefaultGraphOptions] comes from the factory: the
    slot of the profile was empty, and it is empty afterwards, as every slot
    is what it was; every object and payload there was is as it was; and the
    error is a [TypeError] for a language or a source that is no string or a
    consistency level that is [null], or the error of [getConsistencyName]
    for the read or the write consistency of the profile. Graph options that
    could not be made are not cached. *)
Theorem failed_defaults_not_cached profileManager baseOptions defaultRetryPolicy
    profile st e st' :
  getDefaultGraphOptions consistencies proxyExecuteKey profileManager baseOptions
    defaultRetryPolicy profile st = (inl e, st') →
  graphOptionsCache st !! Profile.name profile = None ∧
  graphOptionsCache st' = graphOptionsCache st ∧
  objects st `prefix_of` objects st' ∧ payloads st `prefix_of` payloads st' ∧
  match e with
  | TypeError =>
      (∀ s, js_or (ProfileGraph.language (graphOptions_of profile))
                  (Base.language baseOptions) ≠ val s) ∨
      (∀ s, js_or (ProfileGraph.source (graphOptions_of profile))
                  (Base.source baseOptions) ≠ val s) ∨
      ifUndefined (ProfileGraph.readConsistency (graphOptions_of profile))
                  (Base.readConsistency baseOptions) = null ∨
      ifUndefined (ProfileGraph.writeConsistency (graphOptions_of profile))
                  (Base.writeConsistency baseOptions) = null
  | UnknownConsistencyLevel code =>
      ifUndefined (ProfileGraph.readConsistency (graphOptions_of profile))
                  (Base.readConsistency baseOptions) = val code ∨
      ifUndefined (ProfileGraph.writeConsistency (graphOptions_of profile))
                  (Base.writeConsistency baseOptions) = val code
  end.
Proof.
  intros Hrun.
  destruct (getDefaultGraphOptions_failed _ _ _ _ _ _ _ Hrun)
    as (Hmiss & ((Ho & Hp) & _ & Hc) & _ & Hwhy).
  by split_and!.
Qed.
End DefaultsMade.

(** ** The options that [createQueryOptions] returns *)

Lemma ifUndefined_undefined {A : Type} (v : js A) : ifUndefined v undefined = v.
Proof. by destruct v. Qed.

Lemma payloadKey_lookup {A : Type} md k (value : js A) enc m :
  payloadKey md k value enc m !! k = resolved_entry value enc (md !! k) (m !! k).
Proof.
  unfold payloadKey, resolved_entry. destruct value as [| |v];
    [|done|apply lookup_insert_eq].
  destruct (md !! k); [apply lookup_insert_eq|done].
Qed.

Section RebuiltEntries.
Variable proxyExecuteKey : string.
Hypothesis proxy_key_distinct : proxyExecuteKey ∉ graph_keys.

Lemma managed_keys k :
  k = "graph-language" ∨ k = "graph-source" ∨ k = "graph-name" ∨
  k = "graph-read-consistency" ∨ k = "graph-write-consistency" ∨
  k = "request-timeout" → proxyExecuteKey ≠ k.
Proof.
  intros Hk Heq. apply proxy_key_distinct. rewrite Heq.
  unfold graph_keys. rewrite !elem_of_cons, elem_of_nil. tauto.
Qed.

Lemma rebuilt_other md o rn wn m0 key :
  key ≠ proxyExecuteKey → key ∉ graph_keys →
  rebuilt_payload proxyExecuteKey md o rn wn m0 !! key = m0 !! key.
Proof.
  intros Hp Hk. unfold rebuilt_payload.
  assert (∀ k, k ∈ graph_keys → k ≠ key) as Hne by (by intros k ? ->).
  rewrite !payloadKey_other; [done|by apply not_eq_sym|..];
    apply Hne; unfold graph_keys; rewrite !elem_of_cons; tauto.
Qed.

Lemma rebuilt_proxy md o rn wn m0 :
  rebuilt_payload proxyExecuteKey md o rn wn m0 !! proxyExecuteKey =
  resolved_entry (Options.executeAs o) list_byte_of_string
    (md !! proxyExecuteKey) (m0 !! proxyExecuteKey).
Proof.
  unfold rebuilt_payload.
  rewrite !(payloadKey_other _ _ _ _ _ proxyExecuteKey)
    by (apply not_eq_sym, managed_keys; tauto).
  apply payloadKey_lookup.
Qed.

Lemma rebuilt_entry_language md o rn wn m0 :
  rebuilt_payload proxyExecuteKey md o rn wn m0 !! "graph-language" =
  resolved_entry (Options.graphLanguage o) list_byte_of_string
    (md !! "graph-language") (m0 !! "graph-language").
Proof.
  unfold rebuilt_payload. rewrite !(payloadKey_other _ _ _ _ _ "graph-language") by done.
  rewrite payloadKey_lookup. by rewrite payloadKey_other by (apply managed_keys; tauto).
Qed.

Lemma rebuilt_entry_source md o rn wn m0 :
  rebuilt_payload proxyExecuteKey md o rn wn m0 !! "graph-source" =
  resolved_entry (Options.graphSource o) list_byte_of_string
    (md !! "graph-source") (m0 !! "graph-source").
Proof.
  unfold rebuilt_payload. rewrite !(payloadKey_other _ _ _ _ _ "graph-source") by done.
  rewrite payloadKey_lookup. rewrite payloadKey_other by done.
  by rewrite payloadKey_other by (apply managed_keys; tauto).
Qed.

Lemma rebuilt_entry_name md o rn wn m0 :
  rebuilt_payload proxyExecuteKey md o rn wn m0 !! "graph-name" =
  resolved_entry (Options.graphName o) list_byte_of_string
    (md !! "graph-name") (m0 !! "graph-name").
Proof.
  unfold rebuilt_payload. rewrite !(payloadKey_other _ _ _ _ _ "graph-name") by done.
  rewrite payloadKey_lookup. rewrite !(payloadKey_other _ _ _ _ _ "graph-name") by done.
  by rewrite payloadKey_other by (apply managed_keys; tauto).
Qed.

Lemma rebuilt_entry_read md o rn wn m0 :
  rebuilt_payload proxyExecuteKey md o rn wn m0 !! "graph-read-consistency" =
  resolved_entry rn list_byte_of_string
    (md !! "graph-read-consistency") (m0 !! "graph-read-consistency").
Proof.
  unfold rebuilt_payload.
  rewrite !(payloadKey_other _ _ _ _ _ "graph-read-consistency") by done.
  rewrite payloadKey_lookup.
  rewrite !(payloadKey_other _ _ _ _ _ "graph-read-consistency") by done.
  by rewrite payloadKey_other by (apply managed_keys; tauto).
Qed.

Lemma rebuilt_entry_write md o rn wn m0 :
  rebuilt_payload proxyExecuteKey md o rn wn m0 !! "graph-write-consistency" =
  resolved_entry wn list_byte_of_string
    (md !! "graph-write-consistency") (m0 !! "graph-write-consistency").
Proof.
  unfold rebuilt_payload.
  rewrite !(payloadKey_other _ _ _ _ _ "graph-write-consistency") by done.
  rewrite payloadKey_lookup.
  rewrite !(payloadKey_other _ _ _ _ _ "graph-write-consistency") by done.
  by rewrite payloadKey_other by (apply managed_keys; tauto).
Qed.
End RebuiltEntries.

Section QueryResults.
Variable consistencies : list (string * Z).
Variable proxyExecuteKey : string.

Lemma createQueryOptions_object_run profileManager baseOptions defaultRetryPolicy
    user ou profile st r st' :
  proxyExecuteKey ∉ graph_keys →
  cache_ok st →
  objects st !! user = Some ou →
  getProfile profileManager (Options.executionProfile ou) = Some profile →
  createQueryOptions consistencies proxyExecuteKey profileManager baseOptions
    defaultRetryPolicy (VObject user) st = (inr r, st') →
  error_post consistencies st st' ∧ cache_ok st' ∧
  query_post consistencies proxyExecuteKey profile st ou r st'.
Proof.
  intros Hproxy Hok Hu Hprofile Hrun.
  exact (run_wp _ _ _ _ _ _
           (createQueryOptions_object_spec consistencies proxyExecuteKey Hproxy
              profileManager baseOptions defaultRetryPolicy user ou profile st
              Hok Hu Hprofile) Hrun).
Qed.

(** A call that rebuilds the payload. *)
Lemma createQueryOptions_rebuilt_any profileManager baseOptions defaultRetryPolicy
    user ou profile st r st' :
  proxyExecuteKey ∉ graph_keys →
  cache_ok st →
  objects st !! user = Some ou →
  getProfile profileManager (Options.executionProfile ou) = Some profile →
  noGraphPayloadOptions ou = false →
  createQueryOptions consistencies proxyExecuteKey profileManager baseOptions
    defaultRetryPolicy (VObject user) st = (inr r, st') →
  ∃ d dobj pd md lo p' rn wn m0,
    r = VObject lo ∧
    graphOptionsCache st' !! Profile.name profile = Some d ∧
    objects st' !! d = Some dobj ∧ Options.customPayload dobj = val pd ∧
    payloads st' !! pd = Some md ∧ default_facts dobj md ∧
    objects st' !! lo =
      Some (Options.set_customPayload (val p') (merged_options dobj ou)) ∧
    payloads st' !! p' =
      Some (rebuilt_payload proxyExecuteKey md (merged_options dobj ou) rn wn m0) ∧
    (length (objects st) ≤ lo)%nat ∧ (length (payloads st) ≤ p')%nat ∧
    name_ok consistencies st (Options.graphReadConsistency ou) rn ∧
    name_ok consistencies st (Options.graphWriteConsistency ou) wn ∧
    ∀ m, user_payload st ou = Some m → m0 = m.
Proof.
  intros Hproxy Hok Hu Hprofile Hrebuilt Hrun.
  destruct (createQueryOptions_object_run _ _ _ _ _ _ _ _ _ Hproxy Hok Hu Hprofile Hrun)
    as (_ & _ & d & dobj & pd & md & lo & p' & m' & -> & Hd & Hdobj & Hdcp & Hmd & Hfacts
        & Hlo & Hm' & Hfresh & Hcase).
  rewrite Hrebuilt in Hcase.
  destruct Hcase as (Hp' & rn & wn & m0 & Hrn & Hwn & Hstart & ->).
  unfold merged_options, extend_record, target_of in Hrn, Hwn. simpl in Hrn, Hwn.
  rewrite ifUndefined_undefined in Hrn, Hwn.
  exists d, dobj, pd, md, lo, p', rn, wn, m0. split_and!; try done.
  intros m Hm. unfold user_payload in Hm.
  destruct (Options.customPayload ou) as [| |pu]; [congruence|congruence|].
  by apply Hstart.
Qed.

(** X11. For an options object and a known profile, [createQueryOptions]
    returns an object that takes [graphLanguage], [graphSource],
    [readTimeout] and [retry] from the caller's options where the caller
    gave them ([null] counts as given), and from the graph options cached
    for the profile where the caller left them [undefined]. *)
Theorem merged_fields_caller_first profileManager baseOptions defaultRetryPolicy
    user ou profile st r st' :
  proxyExecuteKey ∉ graph_keys →
  cache_ok st →
  objects st !! user = Some ou →
  getProfile profileManager (Options.executionProfile ou) = Some profile →
  createQueryOptions consistencies proxyExecuteKey profileManager baseOptions
    defaultRetryPolicy (VObject user) st = (inr r, st') →
  ∃ o d dobj,
    object_of st' r = Some o ∧
    graphOptionsCache st' !! Profile.name profile = Some d ∧
    objects st' !! d = Some dobj ∧
    Options.graphLanguage o =
      (if is_undefined (Options.graphLanguage ou) then Options.graphLanguage dobj
       else Options.graphLanguage ou) ∧
    Options.graphSource o =
      (if is_undefined (Options.graphSource ou) then Options.graphSource dobj
       else Options.graphSource ou) ∧
    Options.readTimeout o =
      (if is_undefined (Options.readTimeout ou) then Options.readTimeout dobj
       else Options.readTimeout ou) ∧
    Options.retry o =
      (if is_undefined (Options.retry ou) then Options.retry dobj
       else Options.retry ou).
Proof.
  intros Hproxy Hok Hu Hprofile Hrun.
  destruct (createQueryOptions_object_run _ _ _ _ _ _ _ _ _ Hproxy Hok Hu Hprofile Hrun)
    as (_ & _ & d & dobj & pd & md & lo & p' & m' & -> & Hd & Hdobj & _ & _ & _
        & Hlo & _).
  exists (Options.set_customPayload (val p') (merged_options dobj ou)), d, dobj.
  by split_and!.
Qed.

(** X12. For an options object and a known profile, the object that
    [createQueryOptions] returns is a new one, neither the caller's nor one
    that was in the store, and it has the caller's [executionProfile],
    [executeAs], [graphName], [graphReadConsistency],
    [graphWriteConsistency] and every other property of the caller's options
    as the caller gave them. *)
Theorem caller_fields_kept profileManager baseOptions defaultRetryPolicy
    user ou profile st r st' :
  proxyExecuteKey ∉ graph_keys →
  cache_ok st →
  objects st !! user = Some ou →
  getProfile profileManager (Options.executionProfile ou) = Some profile →
  createQueryOptions consistencies proxyExecuteKey profileManager baseOptions
    defaultRetryPolicy (VObject user) st = (inr r, st') →
  ∃ lo o,
    r = VObject lo ∧ objects st' !! lo = Some o ∧
    lo ≠ user ∧ objects st !! lo = None ∧
    Options.executionProfile o = Options.executionProfile ou ∧
    Options.executeAs o = Options.executeAs ou ∧
    Options.graphName o = Options.graphName ou ∧
    Options.graphReadConsistency o = Options.graphReadConsistency ou ∧
    Options.graphWriteConsistency o = Options.graphWriteConsistency ou ∧
    Options.others o = Options.others ou.
Proof.
  intros Hproxy Hok Hu Hprofile Hrun.
  destruct (createQueryOptions_object_run _ _ _ _ _ _ _ _ _ Hproxy Hok Hu Hprofile Hrun)
    as (_ & _ & d & dobj & pd & md & lo & p' & m' & -> & _ & _ & _ & _ & _
        & Hlo & _ & Hfresh & _).
  exists lo, (Options.set_customPayload (val p') (merged_options dobj ou)).
  split_and!; try done.
  - intros ->. apply lookup_lt_Some in Hu. lia.
  - by apply lookup_ge_None.
  - simpl. apply ifUndefined_undefined.
  - simpl. apply ifUndefined_undefined.
  - simpl. apply ifUndefined_undefined.
  - simpl. apply ifUndefined_undefined.
  - simpl. apply ifUndefined_undefined.
  - simpl. by rewrite (right_id_L ∅ (∪)).
Qed.

(** X13. When the payload is rebuilt, the payload of the options returned is
    a new map, not the [customPayload] of the caller and none that was in
    the store, and under every key that is neither a graph key nor the
    proxy-execute key it has the entries of the caller's [customPayload] and
    no other: none when the caller gave no [customPayload]. *)
Theorem custom_payload_cloned profileManager baseOptions defaultRetryPolicy
    user ou profile m0 st r st' :
  proxyExecuteKey ∉ graph_keys →
  cache_ok st →
  objects st !! user = Some ou →
  getProfile profileManager (Options.executionProfile ou) = Some profile →
  noGraphPayloadOptions ou = false →
  user_payload st ou = Some m0 →
  createQueryOptions consistencies proxyExecuteKey profileManager baseOptions
    defaultRetryPolicy (VObject user) st = (inr r, st') →
  ∃ o p m,
    object_of st' r = Some o ∧ Options.customPayload o = val p ∧
    payloads st' !! p = Some m ∧
    Options.customPayload ou ≠ val p ∧ payloads st !! p = None ∧
    ∀ key, key ≠ proxyExecuteKey → key ∉ graph_keys → m !! key = m0 !! key.
Proof.
  intros Hproxy Hok Hu Hprofile Hrebuilt Hm0 Hrun.
  destruct (createQueryOptions_rebuilt_any _ _ _ _ _ _ _ _ _ Hproxy Hok Hu Hprofile
              Hrebuilt Hrun)
    as (d & dobj & pd & md & lo & p' & rn & wn & m0' & -> & _ & _ & _ & _ & _ & Hlo & Hm'
        & _ & Hfresh & _ & _ & Hstart).
  rewrite (Hstart _ Hm0) in Hm'.
  eexists _, p', _. split_and!; [exact Hlo|done|exact Hm'| | |].
  - intros Hcp. unfold user_payload in Hm0. rewrite Hcp in Hm0.
    apply lookup_lt_Some in Hm0. lia.
  - by apply lookup_ge_None.
  - intros key Hk1 Hk2. by apply rebuilt_other.
Qed.

(** X14. When the payload is rebuilt, what the caller gives wins over the
    defaults of the profile and over the caller's own [customPayload]: a
    string given as [graphName], [graphLanguage], [graphSource] or
    [executeAs] is, as bytes, the entry under [graph-name],
    [graph-language], [graph-source] or the proxy-execute key. *)
Theorem caller_value_wins profileManager baseOptions defaultRetryPolicy
    user ou profile st r st' :
  proxyExecuteKey ∉ graph_keys →
  cache_ok st →
  objects st !! user = Some ou →
  getProfile profileManager (Options.executionProfile ou) = Some profile →
  noGraphPayloadOptions ou = false →
  createQueryOptions consistencies proxyExecuteKey profileManager baseOptions
    defaultRetryPolicy (VObject user) st = (inr r, st') →
  ∃ m, payload_of st' r = Some m ∧
    (∀ s, Options.graphName ou = val s →
          m !! "graph-name" = Some (list_byte_of_string s)) ∧
    (∀ s, Options.graphLanguage ou = val s →
          m !! "graph-language" = Some (list_byte_of_string s)) ∧
    (∀ s, Options.graphSource ou = val s →
          m !! "graph-source" = Some (list_byte_of_string s)) ∧
    (∀ s, Options.executeAs ou = val s →
          m !! proxyExecuteKey = Some (list_byte_of_string s)).
Proof.
  intros Hproxy Hok Hu Hprofile Hrebuilt Hrun.
  destruct (createQueryOptions_rebuilt_any _ _ _ _ _ _ _ _ _ Hproxy Hok Hu Hprofile
              Hrebuilt Hrun)
    as (d & dobj & pd & md & lo & p' & rn & wn & m0 & -> & _ & _ & _ & _ & _ & Hlo & Hm'
        & _).
  eexists. split; [unfold payload_of, object_of; rewrite Hlo; simpl; exact Hm'|].
  split_and!; intros s Hs.
  - rewrite (rebuilt_entry_name _ Hproxy). simpl.
    by rewrite ifUndefined_undefined, Hs.
  - rewrite (rebuilt_entry_language _ Hproxy). simpl. by rewrite Hs.
  - rewrite (rebuilt_entry_source _ Hproxy). simpl. by rewrite Hs.
  - rewrite (rebuilt_proxy _ Hproxy). simpl.
    by rewrite ifUndefined_undefined, Hs.
Qed.

(** X15. A consistency code given as [graphReadConsistency] or
    [graphWriteConsistency] puts the bytes of its name in the table under
    [graph-read-consistency] or [graph-write-consistency], whatever the
    defaults of the profile, when the call returns from a state whose table
    of names is not built or is the built one. *)
Theorem caller_consistency_wins profileManager baseOptions defaultRetryPolicy
    user ou profile st r st' :
  proxyExecuteKey ∉ graph_keys →
  cache_ok st →
  registry_ok consistencies st →
  objects st !! user = Some ou →
  getProfile profileManager (Options.executionProfile ou) = Some profile →
  createQueryOptions consistencies proxyExecuteKey profileManager baseOptions
    defaultRetryPolicy (VObject user) st = (inr r, st') →
  ∃ m, payload_of st' r = Some m ∧
    (∀ code, Options.graphReadConsistency ou = val code →
       ∃ name, builtConsistencyNames consistencies !! Some code = Some name ∧
               m !! "graph-read-consistency" = Some (list_byte_of_string name)) ∧
    (∀ code, Options.graphWriteConsistency ou = val code →
       ∃ name, builtConsistencyNames consistencies !! Some code = Some name ∧
               m !! "graph-write-consistency" = Some (list_byte_of_string name)).
Proof.
  intros Hproxy Hok Hreg Hu Hprofile Hrun.
  destruct (noGraphPayloadOptions ou) eqn:Hrebuilt.
  - destruct (createQueryOptions_object_run _ _ _ _ _ _ _ _ _ Hproxy Hok Hu Hprofile Hrun)
      as (_ & _ & d & dobj & pd & md & lo & p' & m' & -> & _ & _ & _ & _ & _
          & Hlo & Hm' & _ & _).
    exists m'. split; [unfold payload_of, object_of; rewrite Hlo; simpl; exact Hm'|].
    unfold noGraphPayloadOptions in Hrebuilt.
    split; intros code Hcode; rewrite Hcode in Hrebuilt; simpl in Hrebuilt;
      by rewrite !andb_false_r in Hrebuilt.
  - destruct (createQueryOptions_rebuilt_any _ _ _ _ _ _ _ _ _ Hproxy Hok Hu Hprofile
                Hrebuilt Hrun)
      as (d & dobj & pd & md & lo & p' & rn & wn & m0 & -> & _ & _ & _ & _ & _ & Hlo & Hm'
          & _ & _ & (_ & _ & Hrn) & (_ & _ & Hwn) & _).
    eexists. split; [unfold payload_of, object_of; rewrite Hlo; simpl; exact Hm'|].
    split; intros code Hcode.
    + destruct (Hrn Hreg code Hcode) as (name & Hl & _ & ->).
      exists name. split; [done|]. by rewrite (rebuilt_entry_read _ Hproxy).
    + destruct (Hwn Hreg code Hcode) as (name & Hl & _ & ->).
      exists name. split; [done|]. by rewrite (rebuilt_entry_write _ Hproxy).
Qed.

(** X16. When the payload is rebuilt and the caller leaves [graphName] or
    [executeAs] [undefined], or a consistency level [undefined] or [null],
    the entry under the key is the one of the graph options cached for the
    profile when they have one, and else the one of the caller's own
    [customPayload], if any. *)
Theorem unset_fields_inherit profileManager baseOptions defaultRetryPolicy
    user ou profile m0 st r st' :
  proxyExecuteKey ∉ graph_keys →
  cache_ok st →
  objects st !! user = Some ou →
  getProfile profileManager (Options.executionProfile ou) = Some profile →
  noGraphPayloadOptions ou = false →
  user_payload st ou = Some m0 →
  createQueryOptions consistencies proxyExecuteKey profileManager baseOptions
    defaultRetryPolicy (VObject user) st = (inr r, st') →
  ∃ m d dobj pd md,
    payload_of st' r = Some m ∧
    graphOptionsCache st' !! Profile.name profile = Some d ∧
    objects st' !! d = Some dobj ∧ Options.customPayload dobj = val pd ∧
    payloads st' !! pd = Some md ∧
    (Options.graphName ou = undefined →
       m !! "graph-name" = inherited_entry (md !! "graph-name") (m0 !! "graph-name")) ∧
    (Options.executeAs ou = undefined →
       m !! proxyExecuteKey =
         inherited_entry (md !! proxyExecuteKey) (m0 !! proxyExecuteKey)) ∧
    (Options.graphReadConsistency ou = undefined ∨
     Options.graphReadConsistency ou = null →
       m !! "graph-read-consistency" =
         inherited_entry (md !! "graph-read-consistency")
                         (m0 !! "graph-read-consistency")) ∧
    (Options.graphWriteConsistency ou = undefined ∨
     Options.graphWriteConsistency ou = null →
       m !! "graph-write-consistency" =
         inherited_entry (md !! "graph-write-consistency")
                         (m0 !! "graph-write-consistency")).
Proof.
  intros Hproxy Hok Hu Hprofile Hrebuilt Hm0 Hrun.
  destruct (createQueryOptions_rebuilt_any _ _ _ _ _ _ _ _ _ Hproxy Hok Hu Hprofile
              Hrebuilt Hrun)
    as (d & dobj & pd & md & lo & p' & rn & wn & m0' & -> & Hd & Hdobj & Hdcp & Hmd & _
        & Hlo & Hm' & _ & _ & Hrn & Hwn & Hstart).
  rewrite (Hstart _ Hm0) in Hm'. clear Hstart.
  assert (∀ (c : js Z) n, name_ok consistencies st c n → c = undefined ∨ c = null →
                          n = undefined) as Hnone.
  { intros c n (Hnn & [_ Hund] & _) Hc. destruct n as [| |s]; [done|done|].
    discriminate Hund. intros [code ->]. by destruct Hc. }
  eexists _, d, dobj, pd, md.
  split; [unfold payload_of, object_of; rewrite Hlo; simpl; exact Hm'|].
  split_and!; try done.
  - intros Hs. rewrite (rebuilt_entry_name _ Hproxy). simpl.
    by rewrite ifUndefined_undefined, Hs.
  - intros Hs. rewrite (rebuilt_proxy _ Hproxy). simpl.
    by rewrite ifUndefined_undefined, Hs.
  - intros Hs. rewrite (rebuilt_entry_read _ Hproxy). by rewrite (Hnone _ _ Hrn Hs).
  - intros Hs. rewrite (rebuilt_entry_write _ Hproxy). by rewrite (Hnone _ _ Hwn Hs).
Qed.
End QueryResults.

Section QueryAgreement.
Variable consistencies : list (string * Z).
Variable proxyExecuteKey : string.

(** X17. When the payload is rebuilt, it agrees with the options that are
    returned: for [executeAs], [graphLanguage], [graphSource] and
    [graphName], a string that the returned options have is, as bytes, the
    entry under the key of the property; and when the returned options have
    [null] there, the key has no entry but the one of the caller's own
    [customPayload], if any. *)
Theorem rebuilt_payload_matches_options profileManager baseOptions defaultRetryPolicy
    user ou profile m0 st r st' :
  proxyExecuteKey ∉ graph_keys →
  cache_ok st →
  objects st !! user = Some ou →
  getProfile profileManager (Options.executionProfile ou) = Some profile →
  noGraphPayloadOptions ou = false →
  user_payload st ou = Some m0 →
  createQueryOptions consistencies proxyExecuteKey profileManager baseOptions
    defaultRetryPolicy (VObject user) st = (inr r, st') →
  ∃ o m,
    object_of st' r = Some o ∧ payload_of st' r = Some m ∧
    ∀ f,
      (∀ s, text_of f o = val s →
            m !! text_key proxyExecuteKey f = Some (list_byte_of_string s)) ∧
      (text_of f o = null →
         m !! text_key proxyExecuteKey f = m0 !! text_key proxyExecuteKey f).
Proof.
  intros Hproxy Hok Hu Hprofile Hrebuilt Hm0 Hrun.
  destruct (createQueryOptions_rebuilt_any _ _ _ _ _ _ _ _ _ _ _ Hproxy Hok Hu Hprofile
              Hrebuilt Hrun)
    as (d & dobj & pd & md & lo & p' & rn & wn & m0' & -> & _ & _ & _ & _ & _ & Hlo & Hm'
        & _ & _ & _ & _ & Hstart).
  rewrite (Hstart _ Hm0) in Hm'. clear Hstart.
  eexists _, _. split; [exact Hlo|].
  split; [unfold payload_of, object_of; rewrite Hlo; simpl; exact Hm'|].
  intros f.
  assert (rebuilt_payload proxyExecuteKey md (merged_options dobj ou) rn wn m0
            !! text_key proxyExecuteKey f =
          resolved_entry (text_of f (merged_options dobj ou)) list_byte_of_string
            (md !! text_key proxyExecuteKey f) (m0 !! text_key proxyExecuteKey f)) as ->.
  { destruct f; simpl text_key; simpl text_of.
    - by apply rebuilt_proxy.
    - by apply rebuilt_entry_language.
    - by apply rebuilt_entry_source.
    - by apply rebuilt_entry_name. }
  assert (text_of f (Options.set_customPayload (val p') (merged_options dobj ou)) =
          text_of f (merged_options dobj ou)) as -> by (by destruct f).
  split.
  - intros s Hs. by rewrite Hs.
  - intros Hs. by rewrite Hs.
Qed.
End QueryAgreement.

(** ** When [createQueryOptions] throws *)

Section QuerySafe.
Variable consistencies : list (string * Z).
Variable proxyExecuteKey : string.

(** [setPayloadKey] on the payload of a new object, with defaults that
    are in the store, does not throw. *)
Lemma building_setPayloadKey_safe {A : Type} st0 lo p o' d dobj pd md key
    (value : js A) (converter : A → M Buffer) (enc : A → Buffer)
    (Q : unit → State → Prop) (E : Error → State → Prop) st :
  building consistencies st0 lo p (λ o _, o = o') st →
  objects st0 !! d = Some dobj → Options.customPayload dobj = val pd →
  payloads st0 !! pd = Some md →
  (∀ v s, converter v s = (inr (enc v), s)) →
  (∀ st', building consistencies st0 lo p (λ o _, o = o') st' → Q () st') →
  wp (setPayloadKey lo d key value converter) Q E st.
Proof.
  intros Hb Hd Hcp Hmd Hconv HQ. unfold setPayloadKey.
  destruct value as [| |v].
  - pose proof Hb as ((Hext & _) & _).
    apply wp_bind. unfold get_customPayload_key, get_field.
    apply wp_bind, wp_bind, wp_read_object.
    2:{ intros Hnone. by rewrite (extends_object _ _ _ _ Hext Hd) in Hnone. }
    intros o Ho. rewrite (extends_object _ _ _ _ Hext Hd) in Ho. injection Ho as <-.
    apply wp_ret. rewrite Hcp. apply wp_bind, wp_read_payload.
    2:{ intros Hnone. by rewrite (extends_payload _ _ _ _ Hext Hmd) in Hnone. }
    intros m Hm. apply wp_ret. simpl. destruct (m !! key) as [b|].
    + eapply (building_set_key _ _ _ _ _ (λ o _, o = o')); [exact Hb|done|exact HQ].
    + apply wp_ret. by apply HQ.
  - apply wp_ret. by apply HQ.
  - apply wp_bind. unfold wp at 1. rewrite Hconv.
    eapply (building_set_key _ _ _ _ _ (λ o _, o = o')); [exact Hb|done|exact HQ].
Qed.

Lemma building_field_key_safe {A B : Type} st0 lo p o' d dobj pd md key
    (f : Options.t → js A) (g : js A → js A)
    (converter : A → M Buffer) (enc : A → Buffer) (K : unit → M B) Q E st :
  building consistencies st0 lo p (λ o _, o = o') st →
  objects st0 !! d = Some dobj → Options.customPayload dobj = val pd →
  payloads st0 !! pd = Some md →
  (∀ v s, converter v s = (inr (enc v), s)) →
  (∀ st', building consistencies st0 lo p (λ o _, o = o') st' → wp (K ()) Q E st') →
  wp (value ← get_field lo f; setPayloadKey lo d key (g value) converter ≫= K) Q E st.
Proof.
  intros Hb Hd Hcp Hmd Hconv HK. apply wp_bind.
  eapply building_get_field; [exact Hb|]. intros a _.
  apply wp_bind. eapply building_setPayloadKey_safe; eauto.
Qed.

Lemma building_level_key_safe {B : Type} st0 lo p o' d dobj pd md key
    (f : Options.t → js Z) (K : unit → M B) Q E st :
  building consistencies st0 lo p (λ o _, o = o') st →
  objects st0 !! d = Some dobj → Options.customPayload dobj = val pd →
  payloads st0 !! pd = Some md →
  (∀ st', building consistencies st0 lo p (λ o _, o = o') st' → wp (K ()) Q E st') →
  (∀ code st', frame consistencies st0 st' → f o' = val code →
               err_ok consistencies st0 (UnknownConsistencyLevel code) →
               E (UnknownConsistencyLevel code) st') →
  wp (value ← get_field lo f;
      n ← getConsistencyName consistencies value;
      setPayloadKey lo d key n stringConverter ≫= K) Q E st.
Proof.
  intros Hb Hd Hcp Hmd HK HE. apply wp_bind.
  eapply building_get_field; [exact Hb|]. intros a Hb1.
  assert (a = f o') as ->.
  { destruct Hb1 as (_ & _ & _ & o & m & _ & _ & _ & -> & <-). done. }
  assert (∀ n st', building consistencies st0 lo p (λ o _, o = o') st' →
            wp (setPayloadKey lo d key n stringConverter ≫= K) Q E st') as Hset.
  { intros n st' Hb'. apply wp_bind.
    eapply building_setPayloadKey_safe; eauto using stringConverter_run. }
  apply wp_bind. destruct (f o') as [| |code] eqn:Hf.
  - apply wp_ret. by apply Hset.
  - apply wp_ret. by apply Hset.
  - eapply building_getConsistencyName_code; [exact Hb| |].
    + intros name st' Hb' _. by apply Hset.
    + intros st' Hf' He. by apply (HE code).
Qed.

(** The payload that [createQueryOptions] makes for the merged options
    before it sets the keys is a new one; making it throws only when the
    [customPayload] of the options is no map of the store. *)
Lemma clone_phase_safe sA sB lo mo (Q : unit → State → Prop)
    (E : Error → State → Prop) :
  frame consistencies sA sB →
  (length (objects sA) ≤ lo)%nat →
  objects sB !! lo = Some mo →
  (∀ s', building consistencies sA lo (length (payloads sB))
           (λ o _, o = Options.set_customPayload (val (length (payloads sB))) mo) s' →
         Q () s') →
  (∀ s' pu, frame consistencies sA s' → Options.customPayload mo = val pu →
            payloads sB !! pu = None → E TypeError s') →
  wp (if negb (js_truthy (Options.customPayload mo))
      then p ← new_payload ∅; update_object lo (Options.set_customPayload (val p))
      else match Options.customPayload mo with
           | val source =>
               target ← new_payload ∅;
               p ← extend_payload target source;
               update_object lo (Options.set_customPayload (val p))
           | _ => mret ()
           end) Q E sB.
Proof.
  intros HfB Hlo Hmo HQ HE.
  assert (∀ m0, building consistencies sA lo (length (payloads sB))
            (λ o _, o = Options.set_customPayload (val (length (payloads sB))) mo)
            (set_objects
               (<[lo := Options.set_customPayload (val (length (payloads sB))) mo]>
                  (objects sB))
               (set_payloads (payloads sB ++ [m0]) sB))) as Hfinal.
  { intros m0. pose proof HfB as ((Ho & Hp) & Hn & Hc).
    unfold building, frame, extends, names_step, owns, set_objects, set_payloads in *.
    cbn [objects payloads consistencyNames graphOptionsCache].
    split_and!; [by apply prefix_insert_ge|by apply prefix_app_r|exact Hn|exact Hc|exact Hlo
                |by apply prefix_length|].
    exists (Options.set_customPayload (val (length (payloads sB))) mo), m0.
    split_and!; [|done| |done].
    + apply list_lookup_insert_eq. apply (lookup_lt_Some _ _ _ Hmo).
    + by apply list_lookup_middle. }
  destruct (Options.customPayload mo) as [| |pu] eqn:Hcp; simpl.
  - apply wp_bind, wp_new_payload. unfold wp.
    rewrite (update_object_run _ mo); [|done]. apply HQ, Hfinal.
  - apply wp_bind, wp_new_payload. unfold wp.
    rewrite (update_object_run _ mo); [|done]. apply HQ, Hfinal.
  - apply wp_bind, wp_new_payload. apply wp_bind. unfold extend_payload.
    apply wp_bind, wp_read_payload.
    2:{ cbn [payloads set_payloads]. intros Hnone. apply (HE _ pu); [|done|].
        - eapply frame_trans; [exact HfB|].
          split; [split; cbn; [done|by apply prefix_app_r]|split; [by left|done]].
        - apply lookup_ge_None. apply lookup_ge_None in Hnone.
          rewrite length_app in Hnone. simpl in Hnone. lia. }
    intros mu Hmu. cbn [payloads set_payloads] in Hmu.
    apply wp_bind, wp_read_payload.
    2:{ cbn [payloads set_payloads]. by rewrite list_lookup_middle. }
    intros mt Hmt. cbn [payloads set_payloads] in Hmt.
    apply wp_bind, wp_modify, wp_ret. unfold wp.
    rewrite (update_object_run _ mo); [|done]. apply HQ.
    pose proof (Hfinal (mu ∪ mt)) as HF. unfold set_objects, set_payloads in *.
    cbn [objects payloads consistencyNames graphOptionsCache] in *.
    rewrite insert_app_r_alt, Nat.sub_diag by done. exact HF.
Qed.

(** A call for an options object when the graph options of the profile
    are cached: the slots stay as they are, and a throw has one of two
    reasons. *)
Lemma createQueryOptions_hit_safe profileManager baseOptions defaultRetryPolicy
    user ou profile d pd st :
  owns d pd (λ _ _, True) st →
  objects st !! user = Some ou →
  getProfile profileManager (Options.executionProfile ou) = Some profile →
  graphOptionsCache st !! Profile.name profile = Some d →
  wp (createQueryOptions consistencies proxyExecuteKey profileManager baseOptions
        defaultRetryPolicy (VObject user))
     (λ _ st', frame consistencies st st')
     (λ e st', frame consistencies st st' ∧ query_failed consistencies st ou e) st.
Proof.
  intros (dobj & md & Hdobj & Hdcp & Hmd & _) Hu Hprofile Hd. unfold createQueryOptions.
  apply wp_bind. unfold executionProfile_of, wp at 1. rewrite (read_field_run _ _ _ _ Hu).
  rewrite Hprofile. apply wp_bind.
  unfold getDefaultGraphOptions, getOrCreateGraphOptions.
  apply wp_bind, wp_gets. rewrite Hd. apply wp_ret.
  apply wp_bind, wp_read_object; [|by rewrite Hu].
  intros o Ho. rewrite Hu in Ho. injection Ho as <-.
  apply wp_bind, wp_read_object; [|by rewrite Hdobj].
  intros o Ho. rewrite Hdobj in Ho. injection Ho as <-.
  apply wp_bind, wp_new_object, wp_bind.
  eapply wp_extend_fresh; [exact Hu|].
  fold (target_of dobj). fold (merged_options dobj ou).
  set (lo := length (objects st)).
  set (sB := set_objects (objects st ++ [merged_options dobj ou]) st).
  assert (objects sB !! lo = Some (merged_options dobj ou)) as Hlo.
  { subst sB lo. cbn [objects set_objects]. by apply list_lookup_middle. }
  assert (frame consistencies st sB) as HfB.
  { subst sB. split; [split; cbn [objects payloads set_objects]; [by apply prefix_app_r|done]|].
    split; [by left|done]. }
  destruct (noGraphPayloadOptions ou).
  - pose proof HfB as (HextB & _).
    apply wp_bind. unfold wp at 1.
    rewrite (read_field_run _ _ _ _ (extends_object _ _ _ _ HextB Hdobj)).
    apply wp_bind. unfold wp at 1. rewrite (update_object_run _ _ _ _ Hlo).
    apply wp_ret. subst sB. unfold set_objects.
    cbn [objects payloads consistencyNames graphOptionsCache].
    split; [split; cbn [objects payloads]; [|done]|split; [by left|done]].
    apply prefix_insert_ge; [by apply prefix_app_r|done].
  - apply wp_bind. unfold wp at 1. rewrite (read_field_run _ _ _ _ Hlo).
    apply wp_bind.
    eapply (clone_phase_safe st sB lo (merged_options dobj ou)); [exact HfB|done|exact Hlo| |].
    2:{ intros s' pu Hf Hcp Hnone. split; [done|]. split; [apply err_ok_TypeError|].
        unfold user_payload.
        unfold merged_options, extend_record, target_of in Hcp. simpl in Hcp.
        rewrite ifUndefined_undefined in Hcp. by rewrite Hcp. }
    set (p' := length (payloads sB)).
    set (o' := Options.set_customPayload (val p') (merged_options dobj ou)).
    assert (∀ code st', frame consistencies st st' →
              Options.graphReadConsistency ou = val code ∨
              Options.graphWriteConsistency ou = val code →
              err_ok consistencies st (UnknownConsistencyLevel code) →
              frame consistencies st st' ∧
              query_failed consistencies st ou (UnknownConsistencyLevel code)) as HU.
    { intros code st' Hf Hcode He. split; [done|]. by split. }
    intros sC Hb.
    eapply (building_field_key_safe st lo p' o' d dobj pd md proxyExecuteKey
              Options.executeAs (λ v, v) stringConverter list_byte_of_string);
      [exact Hb|exact Hdobj|exact Hdcp|exact Hmd|apply stringConverter_run|].
    clear sC Hb. intros sC Hb.
    eapply (building_field_key_safe st lo p' o' d dobj pd md "graph-language"
              Options.graphLanguage (λ v, v) stringConverter list_byte_of_string);
      [exact Hb|exact Hdobj|exact Hdcp|exact Hmd|apply stringConverter_run|].
    clear sC Hb. intros sC Hb.
    eapply (building_field_key_safe st lo p' o' d dobj pd md "graph-source"
              Options.graphSource (λ v, v) stringConverter list_byte_of_string);
      [exact Hb|exact Hdobj|exact Hdcp|exact Hmd|apply stringConverter_run|].
    clear sC Hb. intros sC Hb.
    eapply (building_field_key_safe st lo p' o' d dobj pd md "graph-name"
              Options.graphName (λ v, v) stringConverter list_byte_of_string);
      [exact Hb|exact Hdobj|exact Hdcp|exact Hmd|apply stringConverter_run|].
    clear sC Hb. intros sC Hb.
    eapply (building_level_key_safe st lo p' o' d dobj pd md
              "graph-read-consistency" Options.graphReadConsistency);
      [exact Hb|exact Hdobj|exact Hdcp|exact Hmd| |].
    2:{ intros code st' Hf Hcode He. apply HU; [done| |done]. left.
        subst o'. unfold merged_options, extend_record, target_of in Hcode.
        simpl in Hcode. by rewrite ifUndefined_undefined in Hcode. }
    clear sC Hb. intros sC Hb.
    eapply (building_level_key_safe st lo p' o' d dobj pd md
              "graph-write-consistency" Options.graphWriteConsistency);
      [exact Hb|exact Hdobj|exact Hdcp|exact Hmd| |].
    2:{ intros code st' Hf Hcode He. apply HU; [done| |done]. right.
        subst o'. unfold merged_options, extend_record, target_of in Hcode.
        simpl in Hcode. by rewrite ifUndefined_undefined in Hcode. }
    clear sC Hb. intros sC Hb.
    eapply (building_field_key_safe st lo p' o' d dobj pd md "request-timeout"
              Options.readTimeout (λ v, if js_positive v then v else null)
              longConverter longBuffer);
      [exact Hb|exact Hdobj|exact Hdcp|exact Hmd|apply longConverter_run|].
    clear sC Hb. intros sC Hb. apply wp_ret. by eapply building_frame.
Qed.
End QuerySafe.

Section QueryTotal.
Variable consistencies : list (string * Z).
Variable proxyExecuteKey : string.

Lemma wp_outcome {A : Type} (m : M A) Q E st :
  wp m Q E st →
  match m st with
  | (inr a, st') => Q a st'
  | (inl e, st') => E e st'
  end.
Proof. done. Qed.

Lemma getDefaultGraphOptions_hit_run profileManager baseOptions defaultRetryPolicy
    profile d st :
  graphOptionsCache st !! Profile.name profile = Some d →
  getDefaultGraphOptions consistencies proxyExecuteKey profileManager baseOptions
    defaultRetryPolicy profile st = (inr d, st).
Proof.
  intros Hd. unfold getDefaultGraphOptions, getOrCreateGraphOptions.
  unfold mbind at 1, M_bind. unfold gets. by rewrite Hd.
Qed.

(** Settings with which the graph options of a profile can be made make
    [getDefaultGraphOptions] return. *)
Lemma getDefaultGraphOptions_returns profileManager baseOptions defaultRetryPolicy
    profile st :
  registry_ok consistencies st →
  defaults_resolvable consistencies baseOptions profile →
  ∃ d st', getDefaultGraphOptions consistencies proxyExecuteKey profileManager
             baseOptions defaultRetryPolicy profile st = (inr d, st').
Proof.
  intros Hreg ([sl Hsl] & [ss Hss] & Hr & Hw).
  destruct (getDefaultGraphOptions _ _ _ _ _ _ st) as [[e|d] st'] eqn:Hrun;
    [|by exists d, st'].
  exfalso.
  destruct (getDefaultGraphOptions_failed _ _ _ _ _ _ _ _ _ Hrun) as (_ & _ & He & Hwhy).
  destruct e as [code|].
  - destruct Hwhy as [Hc|Hc]; rewrite Hc in *; by apply (He code).
  - destruct Hwhy as [Hc|[Hc|[Hc|Hc]]].
    + by apply (Hc sl).
    + by apply (Hc ss).
    + by rewrite Hc in Hr.
    + by rewrite Hc in Hw.
Qed.

(** [createQueryOptions] for an options object and a known profile:
    [getDefaultGraphOptions], and then what follows it. *)
Lemma createQueryOptions_steps profileManager baseOptions defaultRetryPolicy
    user ou profile :
  getProfile profileManager (Options.executionProfile ou) = Some profile →
  ∃ K : loc → M Value, ∀ s,
    objects s !! user = Some ou →
    createQueryOptions consistencies proxyExecuteKey profileManager baseOptions
      defaultRetryPolicy (VObject user) s =
    (getDefaultGraphOptions consistencies proxyExecuteKey profileManager baseOptions
       defaultRetryPolicy profile ≫= K) s.
Proof.
  intros Hprofile. eexists. intros s Hu. unfold createQueryOptions.
  unfold mbind at 1, M_bind. unfold executionProfile_of.
  rewrite (read_field_run _ _ _ _ Hu), Hprofile. reflexivity.
Qed.

(** Once [getDefaultGraphOptions] has returned, [createQueryOptions] goes
    on as it does from the state that is left. *)
Lemma createQueryOptions_after_defaults profileManager baseOptions defaultRetryPolicy
    user ou profile d sA st :
  objects st !! user = Some ou →
  getProfile profileManager (Options.executionProfile ou) = Some profile →
  getDefaultGraphOptions consistencies proxyExecuteKey profileManager baseOptions
    defaultRetryPolicy profile st = (inr d, sA) →
  createQueryOptions consistencies proxyExecuteKey profileManager baseOptions
    defaultRetryPolicy (VObject user) st =
  createQueryOptions consistencies proxyExecuteKey profileManager baseOptions
    defaultRetryPolicy (VObject user) sA.
Proof.
  intros Hu Hprofile Hrun.
  pose proof (wp_outcome _ _ _ _
                (getDefaultGraphOptions_grows consistencies proxyExecuteKey profileManager
                   baseOptions defaultRetryPolicy profile st)) as Hwp.
  rewrite Hrun in Hwp. destruct Hwp as ((Hext & _) & Hd & _).
  pose proof (extends_object _ _ _ _ Hext Hu) as HuA.
  destruct (createQueryOptions_steps profileManager baseOptions defaultRetryPolicy
              user ou profile Hprofile) as [K HK].
  rewrite (HK st Hu), (HK sA HuA). unfold mbind, M_bind.
  by rewrite Hrun, (getDefaultGraphOptions_hit_run _ _ _ _ _ _ Hd).
Qed.

(** When [getDefaultGraphOptions] throws, so does [createQueryOptions],
    the same error in the same state. *)
Lemma createQueryOptions_defaults_failed profileManager baseOptions defaultRetryPolicy
    user ou profile e sA st :
  objects st !! user = Some ou →
  getProfile profileManager (Options.executionProfile ou) = Some profile →
  getDefaultGraphOptions consistencies proxyExecuteKey profileManager baseOptions
    defaultRetryPolicy profile st = (inl e, sA) →
  createQueryOptions consistencies proxyExecuteKey profileManager baseOptions
    defaultRetryPolicy (VObject user) st = (inl e, sA).
Proof.
  intros Hu Hprofile Hrun.
  destruct (createQueryOptions_steps profileManager baseOptions defaultRetryPolicy
              user ou profile Hprofile) as [K HK].
  rewrite (HK st Hu). unfold mbind, M_bind. by rewrite Hrun.
Qed.

Lemma name_ok_level st c n :
  registry_ok consistencies st → name_ok consistencies st c n →
  level_given_ok consistencies c.
Proof.
  intros Hreg (_ & _ & Hname) code Hc.
  destruct (Hname Hreg code Hc) as (name & ? & ? & _). by exists name.
Qed.

Lemma name_ok_unique st st' c n n' :
  registry_ok consistencies st → registry_ok consistencies st' →
  name_ok consistencies st c n → name_ok consistencies st' c n' → n = n'.
Proof.
  intros Hreg Hreg' (Hnn & Hund & Hname) (Hnn' & Hund' & Hname').
  destruct c as [| |code].
  - destruct Hund as [_ Hund], Hund' as [_ Hund'].
    destruct n; [|done|by discriminate Hund; intros [? ?]].
    destruct n'; [done|done|by discriminate Hund'; intros [? ?]].
  - destruct Hund as [_ Hund], Hund' as [_ Hund'].
    destruct n; [|done|by discriminate Hund; intros [? ?]].
    destruct n'; [done|done|by discriminate Hund'; intros [? ?]].
  - destruct (Hname Hreg code eq_refl) as (name & Hl & _ & ->).
    destruct (Hname' Hreg' code eq_refl) as (name' & Hl' & _ & ->). congruence.
Qed.

(** A call that returns had consistency levels that
    [getConsistencyName] takes. *)
Lemma createQueryOptions_levels profileManager baseOptions defaultRetryPolicy
    user ou profile st r st' :
  proxyExecuteKey ∉ graph_keys →
  cache_ok st → registry_ok consistencies st →
  objects st !! user = Some ou →
  getProfile profileManager (Options.executionProfile ou) = Some profile →
  createQueryOptions consistencies proxyExecuteKey profileManager baseOptions
    defaultRetryPolicy (VObject user) st = (inr r, st') →
  level_given_ok consistencies (Options.graphReadConsistency ou) ∧
  level_given_ok consistencies (Options.graphWriteConsistency ou).
Proof.
  intros Hproxy Hok Hreg Hu Hprofile Hrun.
  destruct (noGraphPayloadOptions ou) eqn:Hrebuilt.
  - unfold noGraphPayloadOptions in Hrebuilt.
    split; intros code Hcode; rewrite Hcode in Hrebuilt; simpl in Hrebuilt;
      by rewrite !andb_false_r in Hrebuilt.
  - destruct (createQueryOptions_rebuilt_any _ _ _ _ _ _ _ _ _ _ _ Hproxy Hok Hu Hprofile
                Hrebuilt Hrun)
      as (d & dobj & pd & md & lo & p' & rn & wn & m0 & _ & _ & _ & _ & _ & _ & _ & _
          & _ & _ & Hrn & Hwn & _).
    split; by eapply name_ok_level.
Qed.

(** With the graph options of the profile cached, a call with levels
    that [getConsistencyName] takes returns. *)
Lemma createQueryOptions_hit_returns profileManager baseOptions defaultRetryPolicy
    user ou profile d m0 st :
  cache_ok st → registry_ok consistencies st →
  objects st !! user = Some ou →
  getProfile profileManager (Options.executionProfile ou) = Some profile →
  graphOptionsCache st !! Profile.name profile = Some d →
  user_payload st ou = Some m0 →
  level_given_ok consistencies (Options.graphReadConsistency ou) →
  level_given_ok consistencies (Options.graphWriteConsistency ou) →
  ∃ r st', createQueryOptions consistencies proxyExecuteKey profileManager baseOptions
             defaultRetryPolicy (VObject user) st = (inr r, st') ∧
           frame consistencies st st'.
Proof.
  intros Hok Hreg Hu Hprofile Hd Hm0 Hr Hw.
  destruct (Hok _ _ Hd) as (pd & dobj & md & Hdobj & Hdcp & Hmd & _).
  assert (owns d pd (λ _ _, True) st) as Hown by (by exists dobj, md).
  pose proof (wp_outcome _ _ _ _
                (createQueryOptions_hit_safe consistencies proxyExecuteKey profileManager
                   baseOptions defaultRetryPolicy user ou profile d pd st Hown Hu Hprofile
                   Hd))
    as Hwp.
  destruct (createQueryOptions _ _ _ _ _ _ st) as [[e|r] st']; [|by exists r, st'].
  exfalso. destruct Hwp as (_ & He & Hwhy). destruct e as [code|].
  - destruct Hwhy as [Hc|Hc]; [apply (He code eq_refl Hreg), (Hr code Hc)
                              |apply (He code eq_refl Hreg), (Hw code Hc)].
  - congruence.
Qed.

(** X18. For the options object of a caller and a known profile, from a
    state with well-formed slots and a table of names that is not built or
    is the built one, [createQueryOptions] returns exactly when the graph
    options of the profile are cached or can be made, and the read and the
    write consistency of the options are each [undefined], [null] or a code
    that has a name; otherwise it throws. *)
Theorem createQueryOptions_returns_iff profileManager baseOptions defaultRetryPolicy
    user ou profile m0 st :
  proxyExecuteKey ∉ graph_keys →
  cache_ok st → registry_ok consistencies st →
  objects st !! user = Some ou →
  getProfile profileManager (Options.executionProfile ou) = Some profile →
  user_payload st ou = Some m0 →
  (∃ r st', createQueryOptions consistencies proxyExecuteKey profileManager baseOptions
              defaultRetryPolicy (VObject user) st = (inr r, st')) ↔
  (is_Some (graphOptionsCache st !! Profile.name profile) ∨
   defaults_resolvable consistencies baseOptions profile) ∧
  (∀ code, Options.graphReadConsistency ou = val code →
           registered consistencies code) ∧
  (∀ code, Options.graphWriteConsistency ou = val code →
           registered consistencies code).
Proof.
  intros Hproxy Hok Hreg Hu Hprofile Hm0. split.
  - intros (r & st' & Hrun).
    destruct (createQueryOptions_levels _ _ _ _ _ _ _ _ _ Hproxy Hok Hreg Hu Hprofile Hrun)
      as [Hr Hw].
    split; [|by split].
    destruct (graphOptionsCache st !! Profile.name profile) as [d|] eqn:Hslot;
      [left; by exists d|right].
    destruct (getDefaultGraphOptions consistencies proxyExecuteKey profileManager
                baseOptions defaultRetryPolicy profile st) as [[e|d] sA] eqn:Hd.
    + exfalso.
      by rewrite (createQueryOptions_defaults_failed _ _ _ _ _ _ _ _ _ Hu Hprofile Hd)
        in Hrun.
    + destruct (getDefaultGraphOptions_made _ _ _ _ _ _ _ _ _ Hslot Hd)
        as (p & o & m & _ & _ & _ & _ & _ & _ & _ & _ & Hmade).
      destruct Hmade as (Hl & Hs & Hrnull & Hwnull & _ & rn & wn & Hrn & Hwn & _).
      split; [done|]. split; [done|].
      destruct Hrn as (_ & _ & Hrname), Hwn as (_ & _ & Hwname). split.
      * destruct (default_readConsistency baseOptions profile) as [| |code]; [done|done|].
        destruct (Hrname Hreg code eq_refl) as (name & ? & ? & _). by exists name.
      * destruct (default_writeConsistency baseOptions profile) as [| |code]; [done|done|].
        destruct (Hwname Hreg code eq_refl) as (name & ? & ? & _). by exists name.
  - intros (Hdefaults & Hr & Hw).
    assert (∃ d sA, getDefaultGraphOptions consistencies proxyExecuteKey profileManager
                      baseOptions defaultRetryPolicy profile st = (inr d, sA))
      as (d & sA & Hd).
    { destruct Hdefaults as [[d Hslot]|Hres].
      - exists d, st. by apply getDefaultGraphOptions_hit_run.
      - by apply getDefaultGraphOptions_returns. }
    rewrite (createQueryOptions_after_defaults _ _ _ _ _ _ _ _ _ Hu Hprofile Hd).
    pose proof (wp_outcome _ _ _ _
                  (getDefaultGraphOptions_spec consistencies proxyExecuteKey Hproxy
                     profileManager baseOptions defaultRetryPolicy profile st Hok)) as Hwp.
    rewrite Hd in Hwp. destruct Hwp as (Hext & Hn & HokA & HdA & _).
    destruct (createQueryOptions_hit_returns profileManager baseOptions defaultRetryPolicy
                user ou profile d m0 sA) as (r & st' & Hrun & _); try done.
    + by eapply names_step_registry.
    + by eapply extends_object.
    + unfold user_payload in *. destruct (Options.customPayload ou) as [| |pu]; try done.
      by eapply extends_payload.
    + by exists r, st'.
Qed.

(** X19. [createQueryOptions] gives the same answer when asked again: after
    a call that returned for the options object of a caller, a second call
    with the same object returns too, with options that differ from the
    first at most in which payload object they refer to, and with a payload
    of the same entries; it computes no graph options anew. *)
Theorem createQueryOptions_repeatable profileManager baseOptions defaultRetryPolicy
    user ou profile m0 st r1 st1 :
  proxyExecuteKey ∉ graph_keys →
  cache_ok st → registry_ok consistencies st →
  objects st !! user = Some ou →
  getProfile profileManager (Options.executionProfile ou) = Some profile →
  user_payload st ou = Some m0 →
  createQueryOptions consistencies proxyExecuteKey profileManager baseOptions
    defaultRetryPolicy (VObject user) st = (inr r1, st1) →
  ∃ r2 st2 o1 o2 m,
    createQueryOptions consistencies proxyExecuteKey profileManager baseOptions
      defaultRetryPolicy (VObject user) st1 = (inr r2, st2) ∧
    object_of st1 r1 = Some o1 ∧ object_of st2 r2 = Some o2 ∧
    Options.set_customPayload undefined o2 = Options.set_customPayload undefined o1 ∧
    payload_of st1 r1 = Some m ∧ payload_of st2 r2 = Some m ∧
    graphOptionsCache st2 = graphOptionsCache st1.
Proof.
  intros Hproxy Hok Hreg Hu Hprofile Hm0 Hrun1.
  destruct (createQueryOptions_levels _ _ _ _ _ _ _ _ _ Hproxy Hok Hreg Hu Hprofile Hrun1)
    as [Hr Hw].
  destruct (createQueryOptions_object_run _ _ _ _ _ _ _ _ _ _ _ Hproxy Hok Hu Hprofile
              Hrun1)
    as ((Hext1 & Hn1 & _) & Hok1 & d & dobj & pd & md & lo1 & p1 & m1 & -> & Hd & Hdobj
        & Hdcp & Hmd & _ & Hlo1 & Hm1 & _ & Hcase1).
  pose proof (names_step_registry _ _ _ Hn1 Hreg) as Hreg1.
  pose proof (extends_object _ _ _ _ Hext1 Hu) as Hu1.
  assert (user_payload st1 ou = Some m0) as Hm01.
  { unfold user_payload in *. destruct (Options.customPayload ou) as [| |pu]; try done.
    by eapply extends_payload. }
  destruct (createQueryOptions_hit_returns profileManager baseOptions defaultRetryPolicy
              user ou profile d m0 st1 Hok1 Hreg1 Hu1 Hprofile Hd Hm01 Hr Hw)
    as (r2 & st2 & Hrun2 & (Hext2 & _ & Hc2)).
  destruct (createQueryOptions_object_run _ _ _ _ _ _ _ _ _ _ _ Hproxy Hok1 Hu1 Hprofile
              Hrun2)
    as (_ & _ & d2 & dobj2 & pd2 & md2 & lo2 & p2 & m2 & -> & Hd2 & Hdobj2
        & Hdcp2 & Hmd2 & _ & Hlo2 & Hm2 & _ & Hcase2).
  rewrite Hc2, Hd in Hd2. injection Hd2 as <-.
  rewrite (extends_object _ _ _ _ Hext2 Hdobj) in Hdobj2. injection Hdobj2 as <-.
  rewrite Hdcp in Hdcp2. injection Hdcp2 as <-.
  rewrite (extends_payload _ _ _ _ Hext2 Hmd) in Hmd2. injection Hmd2 as <-.
  assert (m2 = m1) as ->.
  { destruct (noGraphPayloadOptions ou).
    - subst p1 p2. rewrite Hmd in Hm1. rewrite (extends_payload _ _ _ _ Hext2 Hmd) in Hm2.
      congruence.
    - destruct Hcase1 as (_ & rn1 & wn1 & m01 & Hrn1 & Hwn1 & Hstart1 & ->).
      destruct Hcase2 as (_ & rn2 & wn2 & m02 & Hrn2 & Hwn2 & Hstart2 & ->).
      rewrite (name_ok_unique _ _ _ _ _ Hreg Hreg1 Hrn1 Hrn2).
      rewrite (name_ok_unique _ _ _ _ _ Hreg Hreg1 Hwn1 Hwn2).
      assert (m01 = m0 ∧ m02 = m0) as [-> ->]; [|done].
      unfold user_payload in Hm0, Hm01.
      destruct (Options.customPayload ou) as [| |pu]; simpl in *;
        [split; congruence|split; congruence|].
      split; [by apply Hstart1|by apply Hstart2]. }
  eexists (VObject lo2), st2, _, _, m1.
  split_and!; [done|exact Hlo1|exact Hlo2|done| | |done].
  - unfold payload_of, object_of. rewrite Hlo1. simpl. exact Hm1.
  - unfold payload_of, object_of. rewrite Hlo2. simpl. exact Hm2.
Qed.

(** X20. A call changes the slots of the profile manager at most by filling
    the empty slot of the profile it is for, with an object that was not in
    the store: from a state with well-formed slots, and whether the call
    returns or throws, no slot that was filled is filled anew, emptied or
    given another object. *)
Theorem createQueryOptions_fills_one_slot profileManager baseOptions defaultRetryPolicy
    options st :
  cache_ok st →
  graphOptionsCache (createQueryOptions consistencies proxyExecuteKey profileManager
                       baseOptions defaultRetryPolicy options st).2 =
    graphOptionsCache st ∨
  ∃ profile d,
    selects profileManager st options profile ∧
    graphOptionsCache st !! Profile.name profile = None ∧
    objects st !! d = None ∧
    graphOptionsCache (createQueryOptions consistencies proxyExecuteKey profileManager
                         baseOptions defaultRetryPolicy options st).2 =
      <[Profile.name profile := d]> (graphOptionsCache st).
Proof.
  intros Hok.
  assert (∀ profile,
    graphOptionsCache (getDefaultGraphOptions consistencies proxyExecuteKey profileManager
                         baseOptions defaultRetryPolicy profile st).2 =
      graphOptionsCache st ∨
    ∃ d sA,
      getDefaultGraphOptions consistencies proxyExecuteKey profileManager
        baseOptions defaultRetryPolicy profile st = (inr d, sA) ∧
      graphOptionsCache st !! Profile.name profile = None ∧
      objects st !! d = None ∧
      graphOptionsCache sA = <[Profile.name profile := d]> (graphOptionsCache st))
    as Hdefaults.
  { intros profile.
    destruct (graphOptionsCache st !! Profile.name profile) as [d|] eqn:Hslot.
    - left. by rewrite (getDefaultGraphOptions_hit_run _ _ _ _ _ _ Hslot).
    - destruct (getDefaultGraphOptions _ _ _ _ _ _ st) as [[e|d] sA] eqn:Hd.
      + left. by destruct (getDefaultGraphOptions_failed _ _ _ _ _ _ _ _ _ Hd)
                 as (_ & (_ & _ & ?) & _).
      + right. exists d, sA.
        destruct (getDefaultGraphOptions_made _ _ _ _ _ _ _ _ _ Hslot Hd)
          as (p & o & m & _ & _ & Hc & Hfresh & _).
        split_and!; try done. by apply lookup_ge_None. }
  assert (∀ profile,
    options = VUndefined ∨ options = VNull ∨ options = VFunction →
    selects profileManager st options profile →
    graphOptionsCache (createQueryOptions consistencies proxyExecuteKey profileManager
                         baseOptions defaultRetryPolicy options st).2 =
      graphOptionsCache (getDefaultGraphOptions consistencies proxyExecuteKey
                           profileManager baseOptions defaultRetryPolicy profile st).2)
    as Hnone.
  { intros profile Hopt Hsel.
    rewrite (createQueryOptions_no_object _ _ _ _ _ _ _ _ Hopt Hsel).
    by destruct (getDefaultGraphOptions _ _ _ _ _ _ st) as [[e|d] sA]. }
  assert (∀ name : js string,
    options = VUndefined ∨ options = VNull ∨ options = VFunction →
    (match options with VNull => name = null | _ => name = undefined end) →
    graphOptionsCache (createQueryOptions consistencies proxyExecuteKey profileManager
                         baseOptions defaultRetryPolicy options st).2 =
      graphOptionsCache st ∨
    ∃ profile d,
      selects profileManager st options profile ∧
      graphOptionsCache st !! Profile.name profile = None ∧
      objects st !! d = None ∧
      graphOptionsCache (createQueryOptions consistencies proxyExecuteKey profileManager
                           baseOptions defaultRetryPolicy options st).2 =
        <[Profile.name profile := d]> (graphOptionsCache st)) as Hcase.
  { intros name Hopt Hname.
    destruct (getProfile profileManager name) as [profile|] eqn:Hprofile.
    - assert (selects profileManager st options profile) as Hsel.
      { destruct Hopt as [->|[->| ->]]; simpl; by subst name. }
      rewrite (Hnone profile Hopt Hsel).
      destruct (Hdefaults profile) as [?|(d & sA & Hd & ? & ? & ?)]; [by left|right].
      exists profile, d. rewrite Hd. by split_and!.
    - left. unfold createQueryOptions.
      destruct Hopt as [->|[->| ->]]; subst name; simpl;
        unfold mbind, M_bind; simpl; by rewrite Hprofile. }
  destruct options as [| | |user].
  - apply (Hcase undefined); tauto.
  - apply (Hcase null); tauto.
  - apply (Hcase undefined); tauto.
  - clear Hnone Hcase. unfold createQueryOptions at 1.
    destruct (objects st !! user) as [ou|] eqn:Hu.
    2:{ left. unfold mbind, M_bind, executionProfile_of, get_field, mbind, M_bind,
          read_object. by rewrite Hu. }
    destruct (getProfile profileManager (Options.executionProfile ou)) as [profile|]
      eqn:Hprofile.
    2:{ left. unfold mbind at 1, M_bind. unfold executionProfile_of.
        rewrite (read_field_run _ _ _ _ Hu). by rewrite Hprofile. }
    fold (createQueryOptions consistencies proxyExecuteKey profileManager baseOptions
            defaultRetryPolicy (VObject user)).
    assert (∀ d pd sA, owns d pd (λ _ _, True) sA →
              objects sA !! user = Some ou →
              graphOptionsCache sA !! Profile.name profile = Some d →
              graphOptionsCache
                (createQueryOptions consistencies proxyExecuteKey profileManager
                   baseOptions defaultRetryPolicy (VObject user) sA).2 =
              graphOptionsCache sA) as Hhit.
    { intros d pd sA HokA HuA HdA.
      pose proof (wp_outcome _ _ _ _
                    (createQueryOptions_hit_safe consistencies proxyExecuteKey
                       profileManager baseOptions defaultRetryPolicy user ou profile d pd
                       sA HokA HuA Hprofile HdA)) as Hwp.
      destruct (createQueryOptions _ _ _ _ _ _ sA) as [[e|r] st'].
      - by destruct Hwp as ((_ & _ & ?) & _).
      - by destruct Hwp as (_ & _ & ?). }
    destruct (graphOptionsCache st !! Profile.name profile) as [d|] eqn:Hslot.
    { left. destruct (Hok _ _ Hslot) as (pd & dobj & md & ? & ? & ? & _).
      apply (Hhit d pd); [by exists dobj, md|done|done]. }
    destruct (getDefaultGraphOptions consistencies proxyExecuteKey profileManager
                baseOptions defaultRetryPolicy profile st) as [[e|d] sA] eqn:Hd.
    + left.
      rewrite (createQueryOptions_defaults_failed _ _ _ _ _ _ _ _ _ Hu Hprofile Hd).
      by destruct (getDefaultGraphOptions_failed _ _ _ _ _ _ _ _ _ Hd)
        as (_ & (_ & _ & ?) & _).
    + right. exists profile, d.
      destruct (getDefaultGraphOptions_made _ _ _ _ _ _ _ _ _ Hslot Hd)
        as (p & o & m & Hext & _ & Hc & Hfresh & _ & Ho & Hcp & Hm & _).
      split; [by exists ou|]. split; [done|]. split; [by apply lookup_ge_None|].
      rewrite (createQueryOptions_after_defaults _ _ _ _ _ _ _ _ _ Hu Hprofile Hd).
      rewrite (Hhit d p); [done| | |].
      * by exists o, m.
      * by eapply extends_object.
      * rewrite Hc. apply lookup_insert_eq.
Qed.
End QueryTotal.

Section QueryPaths.
Variable consistencies : list (string * Z).
Variable proxyExecuteKey : string.

(** The graph options that a call for an options object works with: the
    ones of the slot, or the ones [getDefaultGraphOptions] makes; they are
    in the state that [getDefaultGraphOptions] leaves, from which the call
    goes on. *)
Lemma createQueryOptions_defaults profileManager baseOptions defaultRetryPolicy
    user ou profile st d sA :
  cache_ok st →
  objects st !! user = Some ou →
  getProfile profileManager (Options.executionProfile ou) = Some profile →
  getDefaultGraphOptions consistencies proxyExecuteKey profileManager baseOptions
    defaultRetryPolicy profile st = (inr d, sA) →
  extends st sA ∧
  graphOptionsCache sA !! Profile.name profile = Some d ∧
  (∃ pd, owns d pd (λ _ _, True) sA) ∧
  createQueryOptions consistencies proxyExecuteKey profileManager baseOptions
    defaultRetryPolicy (VObject user) st =
  createQueryOptions consistencies proxyExecuteKey profileManager baseOptions
    defaultRetryPolicy (VObject user) sA.
Proof.
  intros Hok Hu Hprofile Hd.
  split_and!; [| | |by eapply createQueryOptions_after_defaults].
  - pose proof (wp_outcome _ _ _ _
                  (getDefaultGraphOptions_grows consistencies proxyExecuteKey profileManager
                     baseOptions defaultRetryPolicy profile st)) as Hwp.
    rewrite Hd in Hwp. by destruct Hwp as ((? & _) & _).
  - pose proof (wp_outcome _ _ _ _
                  (getDefaultGraphOptions_grows consistencies proxyExecuteKey profileManager
                     baseOptions defaultRetryPolicy profile st)) as Hwp.
    rewrite Hd in Hwp. by destruct Hwp as (_ & ? & _).
  - destruct (graphOptionsCache st !! Profile.name profile) as [d0|] eqn:Hslot.
    + rewrite (getDefaultGraphOptions_hit_run _ _ _ _ _ _ _ _ Hslot) in Hd.
      injection Hd as <- <-.
      destruct (Hok _ _ Hslot) as (pd & dobj & md & ? & ? & ? & _).
      exists pd. by exists dobj, md.
    + destruct (getDefaultGraphOptions_made _ _ _ _ _ _ _ _ _ Hslot Hd)
        as (p & o & m & _ & _ & _ & _ & _ & Ho & Hcp & Hm & _).
      exists p. by exists o, m.
Qed.

(** X21. When [createQueryOptions] throws for the options object of a caller
    and a known profile, from a state with well-formed slots, the error says
    what is wrong: an [UnknownConsistencyLevel] error is for the read or the
    write consistency of the options, or, when the graph options of the
    profile had to be made, for the read or the write consistency of the
    profile; a [TypeError] is for a [customPayload] of the options that is
    no map of the store, or, when the graph options had to be made, for a
    language or a source that is no string or a consistency level of the
    profile that is [null]. *)
Theorem createQueryOptions_error_source profileManager baseOptions defaultRetryPolicy
    user ou profile st e st' :
  cache_ok st →
  objects st !! user = Some ou →
  getProfile profileManager (Options.executionProfile ou) = Some profile →
  createQueryOptions consistencies proxyExecuteKey profileManager baseOptions
    defaultRetryPolicy (VObject user) st = (inl e, st') →
  match e with
  | UnknownConsistencyLevel code =>
      Options.graphReadConsistency ou = val code ∨
      Options.graphWriteConsistency ou = val code ∨
      (graphOptionsCache st !! Profile.name profile = None ∧
       (default_readConsistency baseOptions profile = val code ∨
        default_writeConsistency baseOptions profile = val code))
  | TypeError =>
      user_payload st ou = None ∨
      (graphOptionsCache st !! Profile.name profile = None ∧
       ((∀ s, default_language baseOptions profile ≠ val s) ∨
        (∀ s, default_source baseOptions profile ≠ val s) ∨
        default_readConsistency baseOptions profile = null ∨
        default_writeConsistency baseOptions profile = null))
  end.
Proof.
  intros Hok Hu Hprofile Hrun.
  destruct (getDefaultGraphOptions consistencies proxyExecuteKey profileManager
              baseOptions defaultRetryPolicy profile st) as [[e0|d] sA] eqn:Hd.
  - rewrite (createQueryOptions_defaults_failed _ _ _ _ _ _ _ _ _ _ _ Hu Hprofile Hd)
      in Hrun. injection Hrun as <- <-.
    destruct (getDefaultGraphOptions_failed _ _ _ _ _ _ _ _ _ Hd)
      as (Hmiss & _ & _ & Hwhy).
    destruct e0 as [code|]; [right; right; by split|right; by split].
  - destruct (createQueryOptions_defaults _ _ _ _ _ _ _ _ _ Hok Hu Hprofile Hd)
      as (Hext & HdA & [pd Hown] & Heq).
    rewrite Heq in Hrun.
    pose proof (wp_outcome _ _ _ _
                  (createQueryOptions_hit_safe consistencies proxyExecuteKey
                     profileManager baseOptions defaultRetryPolicy user ou profile d pd sA
                     Hown (extends_object _ _ _ _ Hext Hu) Hprofile HdA)) as Hwp.
    rewrite Hrun in Hwp. destruct Hwp as (_ & _ & Hwhy).
    destruct e as [code|]; [tauto|]. left.
    unfold user_payload in *. destruct (Options.customPayload ou) as [| |pu]; try done.
    apply lookup_ge_None. apply lookup_ge_None in Hwhy.
    destruct Hext as [_ Hp]. apply prefix_length in Hp. lia.
Qed.

(** X22. The payload object of a profile is shared between calls, and
    never written by a later one. Take two calls for the same profile, one
    after the other, the first for options that give nothing which changes
    the payload. The options that the first call returned are, after the
    second call, as they were, and so is their payload. If the second call
    gives nothing which changes the payload either, the options it returns
    have as [customPayload] the very same payload object; if it rebuilds
    the payload, its payload is another object, which was not in the store
    before the second call. *)
Theorem profile_payload_shared_between_calls profileManager baseOptions
    defaultRetryPolicy user1 ou1 user2 ou2 profile st r1 st1 r2 st2 :
  proxyExecuteKey ∉ graph_keys →
  cache_ok st →
  objects st !! user1 = Some ou1 →
  getProfile profileManager (Options.executionProfile ou1) = Some profile →
  noGraphPayloadOptions ou1 = true →
  createQueryOptions consistencies proxyExecuteKey profileManager baseOptions
    defaultRetryPolicy (VObject user1) st = (inr r1, st1) →
  objects st1 !! user2 = Some ou2 →
  getProfile profileManager (Options.executionProfile ou2) = Some profile →
  createQueryOptions consistencies proxyExecuteKey profileManager baseOptions
    defaultRetryPolicy (VObject user2) st1 = (inr r2, st2) →
  ∃ o1 o2 p1 p2 m1,
    object_of st1 r1 = Some o1 ∧ object_of st2 r1 = Some o1 ∧
    object_of st2 r2 = Some o2 ∧ r2 ≠ r1 ∧
    Options.customPayload o1 = val p1 ∧ Options.customPayload o2 = val p2 ∧
    payloads st1 !! p1 = Some m1 ∧ payloads st2 !! p1 = Some m1 ∧
    if noGraphPayloadOptions ou2 then p2 = p1
    else p2 ≠ p1 ∧ payloads st1 !! p2 = None ∧ is_Some (payloads st2 !! p2).
Proof.
  intros Hproxy Hok Hu1 Hprofile1 Hfast Hrun1 Hu2 Hprofile2 Hrun2.
  destruct (createQueryOptions_object_run _ _ _ _ _ _ _ _ _ _ _ Hproxy Hok
              Hu1 Hprofile1 Hrun1)
    as (_ & Hok1 & d & dobj & pd & md & lo1 & p1 & m1 & -> & Hd & Hdobj & Hdcp & Hmd & _
        & Hlo1 & Hm1 & _ & Hcase1).
  rewrite Hfast in Hcase1. subst p1.
  destruct (createQueryOptions_object_run _ _ _ _ _ _ _ _ _ _ _ Hproxy Hok1
              Hu2 Hprofile2 Hrun2)
    as ((Hext & _ & Hsub & _) & _ & d' & dobj' & pd' & md' & lo2 & p2 & m2 & -> & Hd'
        & Hdobj' & Hdcp' & Hmd' & _ & Hlo2 & Hm2 & Hfresh & Hcase2).
  assert (d' = d) as ->.
  { pose proof (lookup_weaken _ _ _ _ Hd Hsub) as Hd2. congruence. }
  rewrite (extends_object _ _ _ _ Hext Hdobj) in Hdobj'. injection Hdobj' as <-.
  rewrite Hdcp in Hdcp'. injection Hdcp' as <-.
  eexists _, _, pd, p2, md. split_and!.
  - exact Hlo1.
  - simpl. by eapply extends_object.
  - exact Hlo2.
  - intros [= ->]. apply lookup_lt_Some in Hlo1. lia.
  - done.
  - done.
  - done.
  - by eapply extends_payload.
  - destruct (noGraphPayloadOptions ou2); [done|].
    destruct Hcase2 as (Hp2 & _). split_and!.
    + intros ->. apply lookup_lt_Some in Hmd. lia.
    + by apply lookup_ge_None.
    + by exists m2.
Qed.
End QueryPaths.

(** ** The class [GraphExecutionOptions] *)

Section Wrapper.
Variable consistencies : list (string * Z).
Variable proxyExecuteKey : string.
Variable DefaultExecutionOptions : Type.
Variable DefaultExecutionOptions_new : Value → Client.t → M DefaultExecutionOptions.
Variable getRawQueryOptions : DefaultExecutionOptions → Value.

(** X23. A [GraphExecutionOptions] made for the options object of a caller
    and a known profile, with a superclass that keeps the query options it
    is given: [getGraphLanguage] and [getGraphSource] return what the caller
    gave ([null] too), and the language and the source of the graph options
    cached for the profile where the caller gave none; there is no preferred
    host at first, and setting one changes what [getPreferredHost] returns
    and nothing that the other two return. *)
Theorem GraphExecutionOptions_accessors client graphBaseOptions defaultProfileRetryPolicy
    user ou profile st this st' :
  keeps_query_options DefaultExecutionOptions_new getRawQueryOptions →
  proxyExecuteKey ∉ graph_keys →
  cache_ok st →
  objects st !! user = Some ou →
  getProfile (Client.profileManager client) (Options.executionProfile ou) = Some profile →
  GraphExecutionOptions_new consistencies proxyExecuteKey DefaultExecutionOptions
    DefaultExecutionOptions_new (VObject user) client graphBaseOptions
    defaultProfileRetryPolicy st = (inr this, st') →
  ∃ d dobj,
    graphOptionsCache st' !! Profile.name profile = Some d ∧
    objects st' !! d = Some dobj ∧
    getGraphLanguage DefaultExecutionOptions getRawQueryOptions this st' =
      (inr (if is_undefined (Options.graphLanguage ou) then Options.graphLanguage dobj
            else Options.graphLanguage ou), st') ∧
    getGraphSource DefaultExecutionOptions getRawQueryOptions this st' =
      (inr (if is_undefined (Options.graphSource ou) then Options.graphSource dobj
            else Options.graphSource ou), st') ∧
    getPreferredHost DefaultExecutionOptions this = null ∧
    ∀ host,
      getPreferredHost DefaultExecutionOptions
        (setPreferredHost DefaultExecutionOptions this host) = host ∧
      getGraphLanguage DefaultExecutionOptions getRawQueryOptions
        (setPreferredHost DefaultExecutionOptions this host) =
        getGraphLanguage DefaultExecutionOptions getRawQueryOptions this ∧
      getGraphSource DefaultExecutionOptions getRawQueryOptions
        (setPreferredHost DefaultExecutionOptions this host) =
        getGraphSource DefaultExecutionOptions getRawQueryOptions this.
Proof.
  intros Hsuper Hproxy Hok Hu Hprofile. unfold GraphExecutionOptions_new.
  unfold mbind at 1, M_bind.
  destruct (createQueryOptions _ _ _ _ _ _ st) as [[e|r] s1] eqn:Hrun; [done|].
  unfold mbind, M_bind.
  destruct (DefaultExecutionOptions_new r client s1) as [[e|b] s2] eqn:Hnew; [done|].
  intros [= <- <-].
  destruct (Hsuper _ _ _ _ _ Hnew) as (Hraw & Hext & Hcache).
  destruct (createQueryOptions_object_run _ _ _ _ _ _ _ _ _ _ _ Hproxy Hok Hu Hprofile
              Hrun)
    as (_ & _ & d & dobj & pd & md & lo & p' & m' & -> & Hd & Hdobj & _ & _ & _
        & Hlo & _).
  assert (∀ (A : Type) (f : Options.t → js A),
            property_of (getRawQueryOptions b) f s2 =
            (inr (f (Options.set_customPayload (val p') (merged_options dobj ou))), s2))
    as Hget.
  { intros A f. rewrite Hraw. simpl. apply read_field_run.
    by eapply prefix_lookup_Some. }
  exists d, dobj. split_and!.
  - by rewrite Hcache.
  - by eapply prefix_lookup_Some.
  - unfold getGraphLanguage. simpl. by rewrite Hget.
  - unfold getGraphSource. simpl. by rewrite Hget.
  - done.
  - done.
Qed.
End Wrapper.

(** ** The states of a client *)

Section Reachable.
Variable consistencies : list (string * Z).
Variable proxyExecuteKey : string.

(** X24. Whatever calls a client makes, and whether they return or throw,
    every slot of the profile manager holds graph options with their payload
    as [createDefaultOptions] makes them (a language, a source, their two
    keys, and [request-timeout] just for a read timeout above zero), and the
    table of names is not built or is the one that [loadConsistencyNames]
    builds. *)
Theorem reachable_well_formed st :
  proxyExecuteKey ∉ graph_keys →
  reachable consistencies proxyExecuteKey st →
  cache_ok st ∧ registry_ok consistencies st.
Proof.
  intros Hproxy Hreach.
  induction Hreach as [|st o _ [Hok Hreg]|st m _ [Hok Hreg]
                      |st profileManager baseOptions defaultRetryPolicy options _ [Hok Hreg]].
  - split; [|by left]. intros name d Hd. simpl in Hd. by rewrite lookup_empty in Hd.
  - split; [|exact Hreg]. apply (cache_ok_frame consistencies st); [|exact Hok].
    split; [split; cbn [objects payloads set_objects]; [by apply prefix_app_r|done]|].
    split; [by left|done].
  - split; [|exact Hreg]. apply (cache_ok_frame consistencies st); [|exact Hok].
    split; [split; cbn [objects payloads set_payloads]; [done|by apply prefix_app_r]|].
    split; [by left|done].
  - pose proof (createQueryOptions_sound consistencies proxyExecuteKey Hproxy
                  profileManager baseOptions defaultRetryPolicy options st Hok) as Hsound.
    pose proof (createQueryOptions_grows consistencies proxyExecuteKey profileManager
                  baseOptions defaultRetryPolicy options st) as Hgrows.
    unfold wp in Hsound, Hgrows.
    destruct (createQueryOptions _ _ _ _ _ _ st) as [[e|r] st']; simpl.
    + destruct Hsound as [Hok' _], Hgrows as (_ & Hn & _).
      split; [done|by eapply names_step_registry].
    + destruct Hgrows as (_ & Hn & _).
      split; [done|by eapply names_step_registry].
Qed.
End Reachable.

(** * The results on the example client *)

Lemma example_proxy_key_distinct : example_proxy_key ∉ graph_keys.
Proof. intros H. apply list_elem_of_In in H. simpl in H. intuition discriminate. Defined.

Lemma example_cache_ok os ps : cache_ok (example_state os ps).
Proof. intros name d H. simpl in H. by rewrite lookup_empty in H. Defined.

Lemma example_registry_ok os ps : registry_ok native_consistencies (example_state os ps).
Proof. by left. Defined.

(** C1 at work: [graphName: null] on the profile "analytics", with a graph
    name in the base options. *)
Lemma C1_witness :
  ∃ m, payload_of (example_resolve (VObject 0%nat) (example_state [example_null_name] [])).2
         (VObject 2%nat) = Some m ∧
       m !! wire_key GraphName = None.
Proof.
  apply (C1_null_suppresses_key native_consistencies example_proxy_key example_manager
           example_base (val (policy 2)) 0%nat example_null_name example_analytics_profile
           GraphName (example_state [example_null_name] []) (VObject 2%nat)).
  - exact example_proxy_key_distinct.
  - apply example_cache_ok.
  - reflexivity.
  - vm_compute. reflexivity.
  - by left.
  - reflexivity.
  - intros o pu [= <-] Hpu. discriminate Hpu.
  - vm_compute. reflexivity.
Defined.

(** C1 as stated fails: [graphReadConsistency: null] does not suppress the
    key, the read consistency of the base options is inherited; and
    [graphLanguage: null] alone leaves the payload of the defaults, with its
    [graph-language]. *)
Lemma C1_counterexample :
  field_null GraphReadConsistency example_null_read ∧
  result_payload (example_resolve (VObject 0%nat) (example_state [example_null_read] []))
    ≫= (.!! wire_key GraphReadConsistency) = Some (list_byte_of_string "LOCAL_QUORUM") ∧
  field_null GraphLanguage
    (example_options undefined undefined null undefined undefined undefined) ∧
  result_payload
    (example_resolve (VObject 0%nat)
       (example_state
          [example_options undefined undefined null undefined undefined undefined] []))
    ≫= (.!! wire_key GraphLanguage) = Some (list_byte_of_string "gremlin-groovy").
Proof. split_and!; [done|by vm_compute|done|by vm_compute]. Qed.

(** C2 at work: the profile "analytics" has no retry policy and is not the
    default profile: the retry policy of the base options; the default
    profile: the default retry policy for graph statements; another
    profile object that is named like the default profile: its own retry
    policy. *)
Lemma C2_witness :
  (graphOptionsCache
     (getDefaultGraphOptions native_consistencies example_proxy_key example_manager
        example_base (val (policy 2)) example_analytics_profile (example_state [] [])).2
     !! "analytics" = Some 0%nat ∧
   ∃ o, objects
          (getDefaultGraphOptions native_consistencies example_proxy_key example_manager
             example_base (val (policy 2)) example_analytics_profile
             (example_state [] [])).2 !! 0%nat = Some o ∧
        Options.retry o = val (policy 1)) ∧
  (graphOptionsCache
     (getDefaultGraphOptions native_consistencies example_proxy_key example_manager
        example_base (val (policy 2)) example_default_profile (example_state [] [])).2
     !! "default" = Some 0%nat ∧
   ∃ o, objects
          (getDefaultGraphOptions native_consistencies example_proxy_key example_manager
             example_base (val (policy 2)) example_default_profile
             (example_state [] [])).2 !! 0%nat = Some o ∧
        Options.retry o = val (policy 2)) ∧
  (graphOptionsCache
     (getDefaultGraphOptions native_consistencies example_proxy_key example_manager
        example_base (val (policy 2)) example_default_twin (example_state [] [])).2
     !! "default" = Some 0%nat ∧
   ∃ o, objects
          (getDefaultGraphOptions native_consistencies example_proxy_key example_manager
             example_base (val (policy 2)) example_default_twin
             (example_state [] [])).2 !! 0%nat = Some o ∧
        Options.retry o = val (policy 9)).
Proof.
  split; [|split].
  - apply (C2_cached_retry_policy native_consistencies example_proxy_key example_manager
             example_base (val (policy 2)) example_analytics_profile
             (example_state [] []) 0%nat).
    + reflexivity.
    + vm_compute. reflexivity.
  - apply (C2_cached_retry_policy native_consistencies example_proxy_key example_manager
             example_base (val (policy 2)) example_default_profile
             (example_state [] []) 0%nat).
    + reflexivity.
    + vm_compute. reflexivity.
  - apply (C2_cached_retry_policy native_consistencies example_proxy_key example_manager
             example_base (val (policy 2)) example_default_twin
             (example_state [] []) 0%nat).
    + reflexivity.
    + vm_compute. reflexivity.
Defined.

(** C3 at work: no options at all, and options with a profile and a fetch
    size only, resolved twice. *)
Lemma C3_witness :
  (∃ d, VObject 0%nat = VObject d ∧
        graphOptionsCache (example_resolve VUndefined (example_state [] [])).2
          !! "default" = Some d ∧
        (∀ d0, graphOptionsCache (example_state [] []) !! "default" = Some d0 →
               d = d0 ∧ (example_resolve VUndefined (example_state [] [])).2 =
                        example_state [] [])) ∧
  (∃ d dobj o1 r2 st2 o2,
     graphOptionsCache
       (example_resolve (VObject 0%nat) (example_state [example_plain] [])).2
       !! "analytics" = Some d ∧
     objects (example_resolve (VObject 0%nat) (example_state [example_plain] [])).2
       !! d = Some dobj ∧
     object_of (example_resolve (VObject 0%nat) (example_state [example_plain] [])).2
       (VObject 2%nat) = Some o1 ∧
     Options.customPayload o1 = Options.customPayload dobj ∧
     example_resolve (VObject 0%nat)
       (example_resolve (VObject 0%nat) (example_state [example_plain] [])).2 =
       (inr r2, st2) ∧
     object_of st2 r2 = Some o2 ∧
     Options.customPayload o2 = Options.customPayload dobj ∧
     payloads st2 =
       payloads (example_resolve (VObject 0%nat) (example_state [example_plain] [])).2 ∧
     graphOptionsCache st2 =
       graphOptionsCache
         (example_resolve (VObject 0%nat) (example_state [example_plain] [])).2).
Proof.
  split.
  - apply (proj1 (C3_defaults_payload_by_reference native_consistencies example_proxy_key
                    example_manager example_base (val (policy 2)) example_default_profile
                    (example_state [] []))
             VUndefined (VObject 0%nat)).
    + by left.
    + vm_compute. reflexivity.
    + vm_compute. reflexivity.
  - apply (proj2 (C3_defaults_payload_by_reference native_consistencies example_proxy_key
                    example_manager example_base (val (policy 2)) example_analytics_profile
                    (example_state [example_plain] []))
             0%nat example_plain (VObject 2%nat)).
    + reflexivity.
    + vm_compute. reflexivity.
    + by repeat split.
    + vm_compute. reflexivity.
Defined.

(** C4 at work: the profile "nonexistent". *)
Lemma C4_witness :
  example_resolve (VObject 0%nat) (example_state [example_unknown_profile] []) =
    (inr (VObject 0%nat), example_state [example_unknown_profile] []).
Proof.
  apply (C4_unknown_profile_returns_options native_consistencies example_proxy_key
           example_manager example_base (val (policy 2)) 0%nat example_unknown_profile).
  - reflexivity.
  - vm_compute. reflexivity.
Defined.

(** C5 at work: the empty string is set as a value; [null] leaves a payload
    without the key as it is. *)
Lemma C5_witness :
  (∃ st' m',
     setPayloadKey 0%nat 1%nat "graph-name" (val "") stringConverter
       (example_key_state example_user_payload) = (inr (), st') ∧
     payload_of st' (VObject 0%nat) = Some m' ∧
     m' !! "graph-name" = Some [] ∧ m' !! "my-key" = Some [x2a]) ∧
  (∃ st' m',
     setPayloadKey 0%nat 1%nat "graph-name" (@null string) stringConverter
       (example_key_state example_user_payload) = (inr (), st') ∧
     payload_of st' (VObject 0%nat) = Some m' ∧
     st' = example_key_state example_user_payload ∧ m' !! "graph-name" = None).
Proof.
  split.
  - destruct (C5_setPayloadKey_policy 0%nat 1%nat "graph-name" (val "") stringConverter
                list_byte_of_string (Options.set_customPayload (val 0%nat) example_plain)
                0%nat example_user_payload
                (Options.set_customPayload (val 1%nat) Options.empty) 1%nat
                {["graph-name" := list_byte_of_string "demo"]}
                (example_key_state example_user_payload)
                eq_refl eq_refl eq_refl eq_refl eq_refl eq_refl stringConverter_run)
      as (st' & m' & Hrun & Hm' & Hother & _ & Hval & _).
    exists st', m'. split_and!; [exact Hrun|exact Hm'|exact (proj2 (Hval "" eq_refl))|].
    by rewrite Hother.
  - destruct (C5_setPayloadKey_policy 0%nat 1%nat "graph-name" (@null string)
                stringConverter list_byte_of_string
                (Options.set_customPayload (val 0%nat) example_plain)
                0%nat example_user_payload
                (Options.set_customPayload (val 1%nat) Options.empty) 1%nat
                {["graph-name" := list_byte_of_string "demo"]}
                (example_key_state example_user_payload)
                eq_refl eq_refl eq_refl eq_refl eq_refl eq_refl stringConverter_run)
      as (st' & m' & Hrun & Hm' & _ & Hnull & _).
    exists st', m'. destruct (Hnull eq_refl) as [Hst Hkey].
    split_and!; [exact Hrun|exact Hm'|exact Hst|by rewrite Hkey].
Defined.

(** C5 as stated fails: [null] for a key that the payload of the options
    already has leaves the entry where it is. *)
Lemma C5_counterexample :
  setPayloadKey 0%nat 1%nat "graph-name" (@null string) stringConverter
    (example_key_state example_named_payload) =
    (inr (), example_key_state example_named_payload) ∧
  payload_of (example_key_state example_named_payload) (VObject 0%nat)
    ≫= (.!! "graph-name") = Some [x2a].
Proof. split; by vm_compute. Qed.

(** C6 at work, on the levels of the native protocol. *)
Lemma C6_witness :
  (getConsistencyName native_consistencies (val 6) (example_state [] [])).1 =
    inr (val "LOCAL_QUORUM") ∧
  (getConsistencyName native_consistencies (val 7) (example_state [] [])).1 =
    inr (val "EACH_QUORUM") ∧
  (getConsistencyName native_consistencies (val 9) (example_state [] [])).1 =
    inr (val "LOCAL_SERIAL") ∧
  (getConsistencyName native_consistencies (val 10) (example_state [] [])).1 =
    inr (val "LOCAL_ONE") ∧
  (getConsistencyName native_consistencies (val 4) (example_state [] [])).1 =
    inr (val "QUORUM") ∧
  getConsistencyName native_consistencies null (example_state [] []) =
    (inr undefined, example_state [] []).
Proof.
  assert (NoDup native_consistencies.*1) as Hkeys.
  { apply (bool_decide_unpack _). vm_compute. reflexivity. }
  assert (NoDup native_consistencies.*2) as Hcodes.
  { apply (bool_decide_unpack _). vm_compute. reflexivity. }
  pose proof (C6_consistency_names native_consistencies (example_state [] [])
                Hkeys Hcodes (example_registry_ok [] []))
    as (Hname & _ & _ & _ & _ & _ & Hnull & _).
  split_and!.
  - apply (Hname "localQuorum" 6).
    + apply list_elem_of_In. simpl. tauto.
    + discriminate.
  - apply (Hname "eachQuorum" 7).
    + apply list_elem_of_In. simpl. tauto.
    + discriminate.
  - apply (Hname "localSerial" 9).
    + apply list_elem_of_In. simpl. tauto.
    + discriminate.
  - apply (Hname "localOne" 10).
    + apply list_elem_of_In. simpl. tauto.
    + discriminate.
  - apply (Hname "quorum" 4).
    + apply list_elem_of_In. simpl. tauto.
    + discriminate.
  - exact Hnull.
Defined.

(** C7 at work: the code 99 has no name; [getConsistencyName] throws, and
    so does the call with that read consistency. *)
Lemma C7_witness :
  getConsistencyName native_consistencies (val 99) (example_state [] []) =
    (inl (UnknownConsistencyLevel 99),
     set_consistencyNames (builtConsistencyNames native_consistencies)
       (example_state [] [])) ∧
  ∃ e st', example_resolve (VObject 0%nat) (example_state [example_unknown_code] []) =
             (inl e, st').
Proof.
  pose proof (C7_unknown_consistency_level native_consistencies example_proxy_key
                example_manager example_base (val (policy 2))
                (example_state [example_unknown_code] [])
                (example_registry_ok [example_unknown_code] [])) as (_ & Hthrows & _).
  pose proof (C7_unknown_consistency_level native_consistencies example_proxy_key
                example_manager example_base (val (policy 2))
                (example_state [] [])
                (example_registry_ok [] [])) as (Hname & _ & _).
  assert (¬ registered native_consistencies 99) as Hun.
  { intros (name & Hl & _). vm_compute in Hl. discriminate Hl. }
  split.
  - apply Hname. exists 99. by split_and!.
  - apply (Hthrows 0%nat example_unknown_code example_default_profile 99).
    + exact example_proxy_key_distinct.
    + apply example_cache_ok.
    + reflexivity.
    + vm_compute. reflexivity.
    + by left.
    + exact Hun.
Defined.

(** C7 as stated fails: the first call for a profile that throws on the
    user's read consistency has filled the slot of the profile and built the
    table of names before it throws. *)
Lemma C7_counterexample :
  (example_resolve (VObject 0%nat) (example_state [example_unknown_code] [])).1 =
    inl (UnknownConsistencyLevel 99) ∧
  graphOptionsCache (example_state [example_unknown_code] []) !! "default" = None ∧
  graphOptionsCache
    (example_resolve (VObject 0%nat) (example_state [example_unknown_code] [])).2
    !! "default" = Some 1%nat ∧
  consistencyNames (example_state [example_unknown_code] []) = None ∧
  consistencyNames
    (example_resolve (VObject 0%nat) (example_state [example_unknown_code] [])).2 =
    Some (builtConsistencyNames native_consistencies).
Proof. split_and!; by vm_compute. Qed.

(** C8 at work: the read timeout of the profile "analytics", 5000. *)
Lemma C8_witness :
  ∃ o m,
    object_of (example_resolve (VObject 0%nat) (example_state [example_null_name] [])).2
      (VObject 2%nat) = Some o ∧
    payload_of (example_resolve (VObject 0%nat) (example_state [example_null_name] [])).2
      (VObject 2%nat) = Some m ∧
    Options.readTimeout o = val 5000 ∧
    m !! "request-timeout" = Some (longBuffer 5000) ∧
    length (longBuffer 5000) = 8%nat ∧
    Long_fromBuffer (longBuffer 5000) = 5000.
Proof.
  assert (example_resolve (VObject 0%nat) (example_state [example_null_name] []) =
          (inr (VObject 2%nat),
           (example_resolve (VObject 0%nat) (example_state [example_null_name] [])).2))
    as Hrun by (vm_compute; reflexivity).
  destruct (C8_request_timeout native_consistencies example_proxy_key example_manager
              example_base (val (policy 2)) (VObject 0%nat) example_analytics_profile
              (example_state [example_null_name] []) (VObject 2%nat) _
              example_proxy_key_distinct (example_cache_ok _ _)
              (ex_intro _ example_null_name (conj eq_refl eq_refl)) Hrun)
    as (o & m & Ho & Hm & _ & Hval & _ & Hdecode).
  assert (Options.readTimeout o = val 5000) as Ht.
  { vm_compute in Ho. by injection Ho as <-. }
  exists o, m. destruct (Hval 5000 Ht eq_refl) as (Hkey & Hlen & _).
  by split_and!.
Defined.

(** C8 as stated fails: a [request-timeout] entry of the caller's own
    [customPayload] stays in the payload when the resolved read timeout is
    not positive; and the 8 bytes written for a read timeout of 2^63 do not
    read back as that number. *)
Lemma C8_counterexample :
  ((js_positive <$> (Options.readTimeout <$>
      result_object
        (example_resolve (VObject 0%nat)
           (example_state [example_own_timeout] [example_own_payload])))) = Some false ∧
   result_payload
     (example_resolve (VObject 0%nat)
        (example_state [example_own_timeout] [example_own_payload]))
     ≫= (.!! "request-timeout") = Some [x01]) ∧
  ((Options.readTimeout <$>
      result_object
        (example_resolve (VObject 0%nat) (example_state [example_huge_timeout] [])))
     = Some (val (2 ^ 63)) ∧
   ∃ b, result_payload
          (example_resolve (VObject 0%nat) (example_state [example_huge_timeout] []))
          ≫= (.!! "request-timeout") = Some b ∧
        length b = 8%nat ∧ Long_fromBuffer b ≠ 2 ^ 63).
Proof.
  split; [split; by vm_compute|]. split; [by vm_compute|].
  eexists. split; [by vm_compute|]. split; [by vm_compute|]. by vm_compute.
Qed.

(** C9 at work: options with [null] for the graph language and nothing
    else keep the key of the profile's payload; options with a payload, a
    graph name and a read timeout have both keys. *)
Lemma C9_witness :
  (∃ m,
     payload_of
       (example_resolve (VObject 0%nat) (example_state [example_lone_null_language] [])).2
       (VObject 2%nat) = Some m ∧
     is_Some (m !! "graph-language") ∧ is_Some (m !! "graph-source")) ∧
  (∃ m,
     payload_of
       (example_resolve (VObject 0%nat)
          (example_state [example_with_payload] [example_user_payload])).2
       (VObject 2%nat) = Some m ∧
     is_Some (m !! "graph-language") ∧ is_Some (m !! "graph-source")).
Proof.
  split.
  - assert (example_resolve (VObject 0%nat)
              (example_state [example_lone_null_language] []) =
            (inr (VObject 2%nat),
             (example_resolve (VObject 0%nat)
                (example_state [example_lone_null_language] [])).2))
      as Hrun by (vm_compute; reflexivity).
    destruct (C9_language_and_source_present native_consistencies example_proxy_key
                example_manager example_base (val (policy 2)) (VObject 0%nat)
                example_default_profile
                (example_state [example_lone_null_language] []) (VObject 2%nat) _
                example_proxy_key_distinct (example_cache_ok _ _)
                (ex_intro _ example_lone_null_language (conj eq_refl eq_refl)) Hrun)
      as (m & Hm & Hl & _ & Hs & _).
    exists m. split; [exact Hm|].
    split; [apply Hl|apply Hs]; left;
      intros [_ (user & o & Huser & Ho & Hre)];
      injection Huser as <-; injection Ho as <-; discriminate Hre.
  - assert (example_resolve (VObject 0%nat)
              (example_state [example_with_payload] [example_user_payload]) =
            (inr (VObject 2%nat),
             (example_resolve (VObject 0%nat)
                (example_state [example_with_payload] [example_user_payload])).2))
      as Hrun by (vm_compute; reflexivity).
    destruct (C9_language_and_source_present native_consistencies example_proxy_key
                example_manager example_base (val (policy 2)) (VObject 0%nat)
                example_default_profile
                (example_state [example_with_payload] [example_user_payload])
                (VObject 2%nat) _
                example_proxy_key_distinct (example_cache_ok _ _)
                (ex_intro _ example_with_payload (conj eq_refl eq_refl)) Hrun)
      as (m & Hm & Hl & _ & Hs & _).
    exists m. split; [exact Hm|].
    split; [apply Hl|apply Hs]; left;
      intros [(o & Ho & Hnull) _]; injection Ho as <-; discriminate Hnull.
Defined.

(** C9 as stated fails: [graphLanguage: null] together with a graph name
    rebuilds the payload without [graph-language]. *)
Lemma C9_counterexample :
  ∃ m,
    result_payload
      (example_resolve (VObject 0%nat) (example_state [example_null_language] []))
      = Some m ∧
    m !! "graph-language" = None ∧
    m !! "graph-name" = Some (list_byte_of_string "x").
Proof. eexists. split_and!; [by vm_compute|by vm_compute|by vm_compute]. Qed.

(** C10 at work: the caller's payload [my-key] after a call that rebuilds
    the payload. *)
Lemma C10_witness :
  payloads
    (example_resolve (VObject 0%nat)
       (example_state [example_with_payload] [example_user_payload])).2 !! 0%nat =
    Some example_user_payload ∧
  ∀ l o, objects (example_state [example_with_payload] [example_user_payload]) !! l = Some o →
         objects
           (example_resolve (VObject 0%nat)
              (example_state [example_with_payload] [example_user_payload])).2 !! l =
           Some o.
Proof.
  apply (C10_caller_payload_untouched native_consistencies example_proxy_key
           example_manager example_base (val (policy 2)) (VObject 0%nat)
           (example_state [example_with_payload] [example_user_payload]) 0%nat
           example_user_payload).
  reflexivity.
Defined.

(** ** The further properties on the example client *)

(** X2 at work: the name of [localQuorum]. *)
Lemma getConsistencyName_upper_case_witness :
  "LOCAL_QUORUM" ≠ "" ∧ has_lower "LOCAL_QUORUM" = false.
Proof.
  apply (getConsistencyName_upper_case native_consistencies (val 6)
           (example_state [] []) "LOCAL_QUORUM"
           (getConsistencyName native_consistencies (val 6) (example_state [] [])).2).
  - by left.
  - vm_compute. reflexivity.
Defined.

(** X3 at work: the graph name of the defaults is inherited by a payload
    that has another entry. *)
Lemma setPayloadKey_footprint_witness :
  objects (setPayloadKey 0%nat 1%nat "graph-name" (undefined : js string) stringConverter
             (example_key_state example_user_payload)).2 =
    objects (example_key_state example_user_payload) ∧
  consistencyNames (setPayloadKey 0%nat 1%nat "graph-name" (undefined : js string)
                      stringConverter (example_key_state example_user_payload)).2 =
    consistencyNames (example_key_state example_user_payload) ∧
  graphOptionsCache (setPayloadKey 0%nat 1%nat "graph-name" (undefined : js string)
                       stringConverter (example_key_state example_user_payload)).2 =
    graphOptionsCache (example_key_state example_user_payload) ∧
  length (payloads (setPayloadKey 0%nat 1%nat "graph-name" (undefined : js string)
                      stringConverter (example_key_state example_user_payload)).2) =
    length (payloads (example_key_state example_user_payload)) ∧
  ∀ p m, payloads (example_key_state example_user_payload) !! p = Some m →
    ∃ m', payloads (setPayloadKey 0%nat 1%nat "graph-name" (undefined : js string)
                      stringConverter (example_key_state example_user_payload)).2 !! p =
            Some m' ∧
          (∀ k, k ≠ "graph-name" → m' !! k = m !! k) ∧
          (is_Some (m !! "graph-name") → is_Some (m' !! "graph-name")) ∧
          (m' = m ∨
           ∃ o, objects (example_key_state example_user_payload) !! 0%nat = Some o ∧
                Options.customPayload o = val p).
Proof.
  apply (setPayloadKey_footprint 0%nat 1%nat "graph-name" (undefined : js string)
           stringConverter list_byte_of_string (example_key_state example_user_payload)).
  intros v s. reflexivity.
Defined.

(** X4 at work: the language of the profile, the source of the base options. *)
Lemma defaults_language_and_source_witness :
  ∃ o p m language source,
    objects (example_defaults example_proxied_base example_unnamed_profile
               (example_state [] [])).2 !! 0%nat = Some o ∧
    Options.customPayload o = val p ∧
    payloads (example_defaults example_proxied_base example_unnamed_profile
                (example_state [] [])).2 !! p = Some m ∧
    val "bytecode-json" = val language ∧
    val "g" = val source ∧
    Options.graphLanguage o = val language ∧ Options.graphSource o = val source ∧
    m !! "graph-language" = Some (list_byte_of_string language) ∧
    m !! "graph-source" = Some (list_byte_of_string source) ∧
    ∀ key, is_Some (m !! key) → key = example_proxy_key ∨ key ∈ graph_keys.
Proof.
  apply (defaults_language_and_source native_consistencies example_proxy_key
           example_manager example_proxied_base (val (policy 2)) example_unnamed_profile
           (example_state [] []) 0%nat).
  - exact example_proxy_key_distinct.
  - reflexivity.
  - vm_compute. reflexivity.
Defined.

(** X5 at work: the [null] name of the profile hides the name "demo" of the
    base options. *)
Lemma defaults_graph_name_witness :
  ∃ o p m,
    objects (example_defaults example_proxied_base example_unnamed_profile
               (example_state [] [])).2 !! 0%nat = Some o ∧
    Options.customPayload o = val p ∧
    payloads (example_defaults example_proxied_base example_unnamed_profile
                (example_state [] [])).2 !! p = Some m ∧
    m !! "graph-name" = None.
Proof.
  apply (defaults_graph_name native_consistencies example_proxy_key
           example_manager example_proxied_base (val (policy 2)) example_unnamed_profile
           (example_state [] []) 0%nat).
  - exact example_proxy_key_distinct.
  - reflexivity.
  - vm_compute. reflexivity.
Defined.

(** X6 at work: the [executeAs] of the base options. *)
Lemma defaults_proxy_execute_witness :
  ∃ o p m,
    objects (example_defaults example_proxied_base example_unnamed_profile
               (example_state [] [])).2 !! 0%nat = Some o ∧
    Options.customPayload o = val p ∧
    payloads (example_defaults example_proxied_base example_unnamed_profile
                (example_state [] [])).2 !! p = Some m ∧
    m !! example_proxy_key = Some (list_byte_of_string "alice").
Proof.
  apply (defaults_proxy_execute native_consistencies example_proxy_key
           example_manager example_proxied_base (val (policy 2)) example_unnamed_profile
           (example_state [] []) 0%nat).
  - exact example_proxy_key_distinct.
  - reflexivity.
  - vm_compute. reflexivity.
Defined.

(** X7 at work: the read consistency of the base options, the write
    consistency of the profile. *)
Lemma defaults_consistency_levels_witness :
  ∃ o p m,
    objects (example_defaults example_proxied_base example_unnamed_profile
               (example_state [] [])).2 !! 0%nat = Some o ∧
    Options.customPayload o = val p ∧
    payloads (example_defaults example_proxied_base example_unnamed_profile
                (example_state [] [])).2 !! p = Some m ∧
    (∃ name, builtConsistencyNames native_consistencies !! Some 6 = Some name ∧
             name ≠ "" ∧
             m !! "graph-read-consistency" = Some (list_byte_of_string name)) ∧
    (∃ name, builtConsistencyNames native_consistencies !! Some 4 = Some name ∧
             name ≠ "" ∧
             m !! "graph-write-consistency" = Some (list_byte_of_string name)).
Proof.
  apply (defaults_consistency_levels native_consistencies example_proxy_key
           example_manager example_proxied_base (val (policy 2)) example_unnamed_profile
           (example_state [] []) 0%nat).
  - exact example_proxy_key_distinct.
  - by left.
  - reflexivity.
  - vm_compute. reflexivity.
Defined.

(** X8 at work: neither the profile nor the default profile has a read
    timeout, the one of the base options is taken. *)
Lemma defaults_read_timeout_witness :
  ∃ o p m,
    objects (example_defaults example_proxied_base example_unnamed_profile
               (example_state [] [])).2 !! 0%nat = Some o ∧
    Options.customPayload o = val p ∧
    payloads (example_defaults example_proxied_base example_unnamed_profile
                (example_state [] [])).2 !! p = Some m ∧
    Options.readTimeout o = val 12000 ∧
    m !! "request-timeout" =
      match Options.readTimeout o with
      | val t => if 0 <? t then Some (longBuffer t) else None
      | _ => None
      end.
Proof.
  apply (defaults_read_timeout native_consistencies example_proxy_key
           example_manager example_proxied_base (val (policy 2)) example_unnamed_profile
           (example_state [] []) 0%nat).
  - exact example_proxy_key_distinct.
  - reflexivity.
  - vm_compute. reflexivity.
Defined.

(** X9 at work: base options with the read consistency 99. *)
Lemma defaults_made_iff_resolvable_witness :
  (∃ d st', example_defaults example_unresolvable_base example_default_profile
              (example_state [] []) = (inr d, st')) ↔
  defaults_resolvable native_consistencies example_unresolvable_base
    example_default_profile.
Proof.
  apply (defaults_made_iff_resolvable native_consistencies example_proxy_key
           example_manager example_unresolvable_base (val (policy 2))
           example_default_profile (example_state [] [])).
  - by left.
  - reflexivity.
Defined.

(** X10 at work: the read consistency 99 of the base options makes the
    factory throw, and the slot of the default profile stays empty. *)
Lemma failed_defaults_not_cached_witness :
  graphOptionsCache (example_state [] []) !! "default" = None ∧
  graphOptionsCache (example_defaults example_unresolvable_base example_default_profile
                       (example_state [] [])).2 =
    graphOptionsCache (example_state [] []) ∧
  objects (example_state [] []) `prefix_of`
    objects (example_defaults example_unresolvable_base example_default_profile
               (example_state [] [])).2 ∧
  payloads (example_state [] []) `prefix_of`
    payloads (example_defaults example_unresolvable_base example_default_profile
                (example_state [] [])).2 ∧
  (val 99 = val 99 ∨ (undefined : js Z) = val 99).
Proof.
  apply (failed_defaults_not_cached native_consistencies example_proxy_key
           example_manager example_unresolvable_base (val (policy 2))
           example_default_profile (example_state [] []) (UnknownConsistencyLevel 99)).
  vm_compute. reflexivity.
Defined.

(** X11 at work: a language and a retry policy of the caller, the source of
    the profile. *)
Lemma merged_fields_caller_first_witness :
  ∃ o d dobj,
    object_of (example_resolve (VObject 0%nat) (example_state [example_execute_as] [])).2
      (VObject 2%nat) = Some o ∧
    graphOptionsCache
      (example_resolve (VObject 0%nat) (example_state [example_execute_as] [])).2
      !! "default" = Some d ∧
    objects (example_resolve (VObject 0%nat) (example_state [example_execute_as] [])).2
      !! d = Some dobj ∧
    Options.graphLanguage o = val "gremlin-scala" ∧
    Options.graphSource o = Options.graphSource dobj ∧
    Options.readTimeout o = Options.readTimeout dobj ∧
    Options.retry o = val (policy 7).
Proof.
  apply (merged_fields_caller_first native_consistencies example_proxy_key example_manager
           example_base (val (policy 2)) 0%nat example_execute_as example_default_profile
           (example_state [example_execute_as] []) (VObject 2%nat)).
  - exact example_proxy_key_distinct.
  - apply example_cache_ok.
  - reflexivity.
  - vm_compute. reflexivity.
  - vm_compute. reflexivity.
Defined.

(** X12 at work: the fetch size of the caller. *)
Lemma caller_fields_kept_witness :
  ∃ lo o,
    VObject 2%nat = VObject lo ∧
    objects (example_resolve (VObject 0%nat) (example_state [example_plain] [])).2 !! lo =
      Some o ∧
    lo ≠ 0%nat ∧ objects (example_state [example_plain] []) !! lo = None ∧
    Options.executionProfile o = val "analytics" ∧
    Options.executeAs o = undefined ∧
    Options.graphName o = undefined ∧
    Options.graphReadConsistency o = undefined ∧
    Options.graphWriteConsistency o = undefined ∧
    Options.others o = {["fetchSize" := "100"]}.
Proof.
  apply (caller_fields_kept native_consistencies example_proxy_key example_manager
           example_base (val (policy 2)) 0%nat example_plain example_analytics_profile
           (example_state [example_plain] []) (VObject 2%nat)).
  - exact example_proxy_key_distinct.
  - apply example_cache_ok.
  - reflexivity.
  - vm_compute. reflexivity.
  - vm_compute. reflexivity.
Defined.

(** X13 at work: the entry "my-key" of the caller's payload. *)
Lemma custom_payload_cloned_witness :
  ∃ o p m,
    object_of (example_resolve (VObject 0%nat)
                 (example_state [example_with_payload] [example_user_payload])).2
      (VObject 2%nat) = Some o ∧
    Options.customPayload o = val p ∧
    payloads (example_resolve (VObject 0%nat)
                (example_state [example_with_payload] [example_user_payload])).2 !! p =
      Some m ∧
    Options.customPayload example_with_payload ≠ val p ∧
    payloads (example_state [example_with_payload] [example_user_payload]) !! p = None ∧
    ∀ key, key ≠ example_proxy_key → key ∉ graph_keys →
           m !! key = example_user_payload !! key.
Proof.
  apply (custom_payload_cloned native_consistencies example_proxy_key example_manager
           example_base (val (policy 2)) 0%nat example_with_payload
           example_default_profile example_user_payload
           (example_state [example_with_payload] [example_user_payload]) (VObject 2%nat)).
  - exact example_proxy_key_distinct.
  - apply example_cache_ok.
  - reflexivity.
  - vm_compute. reflexivity.
  - reflexivity.
  - reflexivity.
  - vm_compute. reflexivity.
Defined.

(** X14 at work: a language and an [executeAs] of the caller. *)
Lemma caller_value_wins_witness :
  ∃ m,
    payload_of (example_resolve (VObject 0%nat) (example_state [example_execute_as] [])).2
      (VObject 2%nat) = Some m ∧
    (∀ s, Options.graphName example_execute_as = val s →
          m !! "graph-name" = Some (list_byte_of_string s)) ∧
    (∀ s, Options.graphLanguage example_execute_as = val s →
          m !! "graph-language" = Some (list_byte_of_string s)) ∧
    (∀ s, Options.graphSource example_execute_as = val s →
          m !! "graph-source" = Some (list_byte_of_string s)) ∧
    (∀ s, Options.executeAs example_execute_as = val s →
          m !! example_proxy_key = Some (list_byte_of_string s)).
Proof.
  apply (caller_value_wins native_consistencies example_proxy_key example_manager
           example_base (val (policy 2)) 0%nat example_execute_as example_default_profile
           (example_state [example_execute_as] []) (VObject 2%nat)).
  - exact example_proxy_key_distinct.
  - apply example_cache_ok.
  - reflexivity.
  - vm_compute. reflexivity.
  - reflexivity.
  - vm_compute. reflexivity.
Defined.

(** X15 at work: a read consistency of [one] for a profile whose own is
    [localQuorum]. *)
Lemma caller_consistency_wins_witness :
  ∃ m,
    payload_of (example_resolve (VObject 0%nat) (example_state [example_read_one] [])).2
      (VObject 2%nat) = Some m ∧
    (∀ code, Options.graphReadConsistency example_read_one = val code →
       ∃ name, builtConsistencyNames native_consistencies !! Some code = Some name ∧
               m !! "graph-read-consistency" = Some (list_byte_of_string name)) ∧
    (∀ code, Options.graphWriteConsistency example_read_one = val code →
       ∃ name, builtConsistencyNames native_consistencies !! Some code = Some name ∧
               m !! "graph-write-consistency" = Some (list_byte_of_string name)).
Proof.
  apply (caller_consistency_wins native_consistencies example_proxy_key example_manager
           example_base (val (policy 2)) 0%nat example_read_one example_analytics_profile
           (example_state [example_read_one] []) (VObject 2%nat)).
  - exact example_proxy_key_distinct.
  - apply example_cache_ok.
  - by left.
  - reflexivity.
  - vm_compute. reflexivity.
  - vm_compute. reflexivity.
Defined.

(** X16 at work: a caller who gives a graph name and a read timeout inherits
    the read consistency of the base options. *)
Lemma unset_fields_inherit_witness :
  ∃ m d dobj pd md,
    payload_of (example_resolve (VObject 0%nat)
                  (example_state [example_with_payload] [example_user_payload])).2
      (VObject 2%nat) = Some m ∧
    graphOptionsCache
      (example_resolve (VObject 0%nat)
         (example_state [example_with_payload] [example_user_payload])).2
      !! "default" = Some d ∧
    objects (example_resolve (VObject 0%nat)
               (example_state [example_with_payload] [example_user_payload])).2 !! d =
      Some dobj ∧
    Options.customPayload dobj = val pd ∧
    payloads (example_resolve (VObject 0%nat)
                (example_state [example_with_payload] [example_user_payload])).2 !! pd =
      Some md ∧
    (Options.graphName example_with_payload = undefined →
       m !! "graph-name" =
         inherited_entry (md !! "graph-name") (example_user_payload !! "graph-name")) ∧
    (Options.executeAs example_with_payload = undefined →
       m !! example_proxy_key =
         inherited_entry (md !! example_proxy_key)
                         (example_user_payload !! example_proxy_key)) ∧
    (Options.graphReadConsistency example_with_payload = undefined ∨
     Options.graphReadConsistency example_with_payload = null →
       m !! "graph-read-consistency" =
         inherited_entry (md !! "graph-read-consistency")
                         (example_user_payload !! "graph-read-consistency")) ∧
    (Options.graphWriteConsistency example_with_payload = undefined ∨
     Options.graphWriteConsistency example_with_payload = null →
       m !! "graph-write-consistency" =
         inherited_entry (md !! "graph-write-consistency")
                         (example_user_payload !! "graph-write-consistency")).
Proof.
  apply (unset_fields_inherit native_consistencies example_proxy_key example_manager
           example_base (val (policy 2)) 0%nat example_with_payload
           example_default_profile example_user_payload
           (example_state [example_with_payload] [example_user_payload]) (VObject 2%nat)).
  - exact example_proxy_key_distinct.
  - apply example_cache_ok.
  - reflexivity.
  - vm_compute. reflexivity.
  - reflexivity.
  - reflexivity.
  - vm_compute. reflexivity.
Defined.

(** X17 at work: the language "gremlin-scala" and the [executeAs] "bob" of a
    caller, the source "g" of the default profile. *)
Lemma rebuilt_payload_matches_options_witness :
  ∃ o m,
    object_of (example_resolve (VObject 0%nat) (example_state [example_execute_as] [])).2
      (VObject 2%nat) = Some o ∧
    payload_of (example_resolve (VObject 0%nat) (example_state [example_execute_as] [])).2
      (VObject 2%nat) = Some m ∧
    ∀ f,
      (∀ s, text_of f o = val s →
            m !! text_key example_proxy_key f = Some (list_byte_of_string s)) ∧
      (text_of f o = null →
         m !! text_key example_proxy_key f =
         (∅ : Payload) !! text_key example_proxy_key f).
Proof.
  apply (rebuilt_payload_matches_options native_consistencies example_proxy_key
           example_manager example_base (val (policy 2)) 0%nat example_execute_as
           example_default_profile ∅ (example_state [example_execute_as] [])
           (VObject 2%nat)).
  - exact example_proxy_key_distinct.
  - apply example_cache_ok.
  - reflexivity.
  - vm_compute. reflexivity.
  - reflexivity.
  - reflexivity.
  - vm_compute. reflexivity.
Defined.

(** X18 at work: a read consistency of [one], and graph options that can be
    made. *)
Lemma createQueryOptions_returns_iff_witness :
  (∃ r st', example_resolve (VObject 0%nat) (example_state [example_read_one] []) =
              (inr r, st')) ↔
  (is_Some (graphOptionsCache (example_state [example_read_one] []) !! "analytics") ∨
   defaults_resolvable native_consistencies example_base example_analytics_profile) ∧
  (∀ code, Options.graphReadConsistency example_read_one = val code →
           registered native_consistencies code) ∧
  (∀ code, Options.graphWriteConsistency example_read_one = val code →
           registered native_consistencies code).
Proof.
  apply (createQueryOptions_returns_iff native_consistencies example_proxy_key
           example_manager example_base (val (policy 2)) 0%nat example_read_one
           example_analytics_profile ∅ (example_state [example_read_one] [])).
  - exact example_proxy_key_distinct.
  - apply example_cache_ok.
  - by left.
  - reflexivity.
  - vm_compute. reflexivity.
  - reflexivity.
Defined.

(** X19 at work: options with a payload, a graph name and a read timeout,
    resolved twice. *)
Lemma createQueryOptions_repeatable_witness :
  ∃ r2 st2 o1 o2 m,
    example_resolve (VObject 0%nat)
      (example_resolve (VObject 0%nat)
         (example_state [example_with_payload] [example_user_payload])).2 =
      (inr r2, st2) ∧
    object_of (example_resolve (VObject 0%nat)
                 (example_state [example_with_payload] [example_user_payload])).2
      (VObject 2%nat) = Some o1 ∧
    object_of st2 r2 = Some o2 ∧
    Options.set_customPayload undefined o2 = Options.set_customPayload undefined o1 ∧
    payload_of (example_resolve (VObject 0%nat)
                  (example_state [example_with_payload] [example_user_payload])).2
      (VObject 2%nat) = Some m ∧
    payload_of st2 r2 = Some m ∧
    graphOptionsCache st2 =
      graphOptionsCache
        (example_resolve (VObject 0%nat)
           (example_state [example_with_payload] [example_user_payload])).2.
Proof.
  apply (createQueryOptions_repeatable native_consistencies example_proxy_key
           example_manager example_base (val (policy 2)) 0%nat example_with_payload
           example_default_profile example_user_payload
           (example_state [example_with_payload] [example_user_payload]) (VObject 2%nat)).
  - exact example_proxy_key_distinct.
  - apply example_cache_ok.
  - by left.
  - reflexivity.
  - vm_compute. reflexivity.
  - reflexivity.
  - vm_compute. reflexivity.
Defined.

(** X20 at work: the first call for the profile "analytics". *)
Lemma createQueryOptions_fills_one_slot_witness :
  graphOptionsCache
    (example_resolve (VObject 0%nat) (example_state [example_read_one] [])).2 =
    graphOptionsCache (example_state [example_read_one] []) ∨
  ∃ profile d,
    selects example_manager (example_state [example_read_one] []) (VObject 0%nat)
      profile ∧
    graphOptionsCache (example_state [example_read_one] []) !! Profile.name profile =
      None ∧
    objects (example_state [example_read_one] []) !! d = None ∧
    graphOptionsCache
      (example_resolve (VObject 0%nat) (example_state [example_read_one] [])).2 =
      <[Profile.name profile := d]>
        (graphOptionsCache (example_state [example_read_one] [])).
Proof.
  apply (createQueryOptions_fills_one_slot native_consistencies example_proxy_key
           example_manager example_base (val (policy 2)) (VObject 0%nat)
           (example_state [example_read_one] [])).
  apply example_cache_ok.
Defined.

(** X21 at work: the read consistency 99 of a caller. *)
Lemma createQueryOptions_error_source_witness :
  Options.graphReadConsistency example_unknown_code = val 99 ∨
  Options.graphWriteConsistency example_unknown_code = val 99 ∨
  (graphOptionsCache (example_state [example_unknown_code] []) !! "default" = None ∧
   (default_readConsistency example_base example_default_profile = val 99 ∨
    default_writeConsistency example_base example_default_profile = val 99)).
Proof.
  apply (createQueryOptions_error_source native_consistencies example_proxy_key
           example_manager example_base (val (policy 2)) 0%nat example_unknown_code
           example_default_profile (example_state [example_unknown_code] [])
           (UnknownConsistencyLevel 99)
           (example_resolve (VObject 0%nat) (example_state [example_unknown_code] [])).2).
  - apply example_cache_ok.
  - reflexivity.
  - vm_compute. reflexivity.
  - vm_compute. reflexivity.
Defined.

(** X22 at work: options with a profile and a fetch size only, then
    options with [null] for the graph name, for the same profile. *)
Lemma profile_payload_shared_between_calls_witness :
  ∃ o1 o2 p1 p2 m1,
    object_of (example_resolve (VObject 0%nat) example_two_callers).2 (VObject 3%nat)
      = Some o1 ∧
    object_of
      (example_resolve (VObject 1%nat)
         (example_resolve (VObject 0%nat) example_two_callers).2).2 (VObject 3%nat)
      = Some o1 ∧
    object_of
      (example_resolve (VObject 1%nat)
         (example_resolve (VObject 0%nat) example_two_callers).2).2 (VObject 4%nat)
      = Some o2 ∧
    VObject 4%nat ≠ VObject 3%nat ∧
    Options.customPayload o1 = val p1 ∧ Options.customPayload o2 = val p2 ∧
    payloads (example_resolve (VObject 0%nat) example_two_callers).2 !! p1 = Some m1 ∧
    payloads
      (example_resolve (VObject 1%nat)
         (example_resolve (VObject 0%nat) example_two_callers).2).2 !! p1 = Some m1 ∧
    p2 ≠ p1 ∧
    payloads (example_resolve (VObject 0%nat) example_two_callers).2 !! p2 = None ∧
    is_Some (payloads
               (example_resolve (VObject 1%nat)
                  (example_resolve (VObject 0%nat) example_two_callers).2).2 !! p2).
Proof.
  apply (profile_payload_shared_between_calls native_consistencies example_proxy_key
           example_manager example_base (val (policy 2)) 0%nat example_plain
           1%nat example_null_name example_analytics_profile example_two_callers
           (VObject 3%nat) (example_resolve (VObject 0%nat) example_two_callers).2
           (VObject 4%nat)
           (example_resolve (VObject 1%nat)
              (example_resolve (VObject 0%nat) example_two_callers).2).2).
  - exact example_proxy_key_distinct.
  - apply example_cache_ok.
  - reflexivity.
  - vm_compute. reflexivity.
  - reflexivity.
  - vm_compute. reflexivity.
  - vm_compute. reflexivity.
  - vm_compute. reflexivity.
  - vm_compute. reflexivity.
Defined.

(** X23 at work: a language of the caller, the source of the default
    profile. *)
Lemma GraphExecutionOptions_accessors_witness :
  ∃ d dobj,
    graphOptionsCache (example_execution (example_state [example_execute_as] [])).2
      !! "default" = Some d ∧
    objects (example_execution (example_state [example_execute_as] [])).2 !! d =
      Some dobj ∧
    getGraphLanguage Value (λ v, v)
      (mkGraphExecutionOptions Value (VObject 2%nat) null)
      (example_execution (example_state [example_execute_as] [])).2 =
      (inr (val "gremlin-scala"),
       (example_execution (example_state [example_execute_as] [])).2) ∧
    getGraphSource Value (λ v, v)
      (mkGraphExecutionOptions Value (VObject 2%nat) null)
      (example_execution (example_state [example_execute_as] [])).2 =
      (inr (Options.graphSource dobj),
       (example_execution (example_state [example_execute_as] [])).2) ∧
    getPreferredHost Value (mkGraphExecutionOptions Value (VObject 2%nat) null) = null ∧
    ∀ host,
      getPreferredHost Value
        (setPreferredHost Value (mkGraphExecutionOptions Value (VObject 2%nat) null) host) =
        host ∧
      getGraphLanguage Value (λ v, v)
        (setPreferredHost Value (mkGraphExecutionOptions Value (VObject 2%nat) null) host) =
        getGraphLanguage Value (λ v, v)
          (mkGraphExecutionOptions Value (VObject 2%nat) null) ∧
      getGraphSource Value (λ v, v)
        (setPreferredHost Value (mkGraphExecutionOptions Value (VObject 2%nat) null) host) =
        getGraphSource Value (λ v, v)
          (mkGraphExecutionOptions Value (VObject 2%nat) null).
Proof.
  apply (GraphExecutionOptions_accessors native_consistencies example_proxy_key Value
           example_super_new (λ v, v) example_client example_base (val (policy 2))
           0%nat example_execute_as example_default_profile
           (example_state [example_execute_as] [])
           (mkGraphExecutionOptions Value (VObject 2%nat) null)).
  - intros queryOptions client st this st' [= <- <-]. by split_and!.
  - exact example_proxy_key_distinct.
  - apply example_cache_ok.
  - reflexivity.
  - vm_compute. reflexivity.
  - vm_compute. reflexivity.
Defined.

(** X24 at work: the state after a client has made an options object and
    resolved it. *)
Lemma reachable_well_formed_witness :
  cache_ok (example_resolve (VObject 0%nat) (example_state [example_read_one] [])).2 ∧
  registry_ok native_consistencies
    (example_resolve (VObject 0%nat) (example_state [example_read_one] [])).2.
Proof.
  apply (reachable_well_formed native_consistencies example_proxy_key
           (example_resolve (VObject 0%nat) (example_state [example_read_one] [])).2).
  - exact example_proxy_key_distinct.
  - apply (reachable_call native_consistencies example_proxy_key
             (example_state [example_read_one] [])).
    apply (reachable_object native_consistencies example_proxy_key
             (mkState None [] [] ∅) example_read_one).
    apply reachable_start.
Defined.
